(** * kobo-to-calibre: matching, classification and update pipeline

    A shallow embedding of [src/book_matcher.py], [src/calibre_updater.py],
    [src/sync_engine.py] and the parts of [src/library_manager.py] and
    [src/kobo_reader.py] they rely on, together with the properties the
    specification states about them.

    Conventions of the embedding.
    - A Python [str] is a [string]; each [ascii] stands for the code point
      of the same number, so the strings covered are those whose code
      points lie in U+0000..U+00FF.  On that range [str.lower], [str.strip],
      the regular-expression classes [\w] and [\s] are those of CPython.
    - Everything outside the interpreter (the SQLite files, the [calibredb]
      subprocess, [shutil.copy2], the clock) is an [Env]: a world type with
      one answer function per kind of call.  Every call is recorded in a
      trace, so that properties about which calls were issued can be stated.
    - A Python exception that leaves a function is a [Raise] result.
    - Logger calls are dropped, except where evaluating their arguments can
      itself raise. *)

From Stdlib Require Import ZArith NArith List String Ascii Bool Lia DecimalString.
From Stdlib Require Import DecimalZ DecimalPos.
From stdpp Require Import base gmap strings list.

Local Open Scope string_scope.
Local Open Scope list_scope.

(* ===================================================================== *)
(** ** Python string primitives *)
(* ===================================================================== *)

Module PyStr.

Definition code (c : ascii) : N := N_of_ascii c.

Definition in_range (lo hi : N) (c : ascii) : bool :=
  (lo <=? code c)%N && (code c <=? hi)%N.

Definition is_code (n : N) (c : ascii) : bool := (code c =? n)%N.

(** [Py_UNICODE_ISSPACE]: what [str.strip()] removes and what [\s] matches. *)
Definition is_space (c : ascii) : bool :=
  in_range 9 13 c || in_range 28 32 c || is_code 133 c || is_code 160 c.

(** Characters changed by [str.lower()]: A-Z and the accented capitals
    U+00C0..U+00DE without the multiplication sign U+00D7. *)
Definition is_upper (c : ascii) : bool :=
  in_range 65 90 c || (in_range 192 222 c && negb (is_code 215 c)).

Definition lower_char (c : ascii) : ascii :=
  if is_upper c then ascii_of_N (code c + 32) else c.

(** Lower-case letters whose capital lies in the same range: a-z and
    U+00E0..U+00FE without the division sign U+00F7.  (The capitals of
    U+00B5, U+00DF and U+00FF lie outside U+0000..U+00FF; [upper_char]
    leaves those three unchanged.) *)
Definition has_upper (c : ascii) : bool :=
  in_range 97 122 c || (in_range 224 254 c && negb (is_code 247 c)).

Definition upper_char (c : ascii) : ascii :=
  if has_upper c then ascii_of_N (code c - 32) else c.

(** [str.isalpha] on one character. *)
Definition is_alpha (c : ascii) : bool :=
  in_range 65 90 c || in_range 97 122 c
  || is_code 170 c || is_code 181 c || is_code 186 c
  || in_range 192 214 c || in_range 216 246 c || in_range 248 255 c.

(** [str.isdecimal]: the ten digits. *)
Definition is_decimal (c : ascii) : bool := in_range 48 57 c.

(** [str.isnumeric]: digits, superscripts one to three, vulgar fractions. *)
Definition is_numeric (c : ascii) : bool :=
  in_range 48 57 c || is_code 178 c || is_code 179 c || is_code 185 c
  || in_range 188 190 c.

(** [Py_UNICODE_ISALNUM]. *)
Definition is_alnum (c : ascii) : bool := is_alpha c || is_numeric c.

(** The class [\w] of [re] on [str] patterns: alphanumerics and underscore. *)
Definition is_word (c : ascii) : bool := is_alnum c || is_code 95 c.

(** Cased characters (for [str.title]). *)
Definition is_cased (c : ascii) : bool :=
  is_upper c || has_upper c
  || is_code 170 c || is_code 181 c || is_code 186 c
  || is_code 223 c || is_code 255 c.

Fixpoint map_chars (f : ascii -> ascii) (s : string) : string :=
  match s with
  | EmptyString => EmptyString
  | String c r => String (f c) (map_chars f r)
  end.

(** [s.lower()] *)
Definition lower (s : string) : string := map_chars lower_char s.

(** [s.lstrip()] *)
Fixpoint lstrip (s : string) : string :=
  match s with
  | EmptyString => EmptyString
  | String c r => if is_space c then lstrip r else s
  end.

(** [s.rstrip()] *)
Fixpoint rstrip (s : string) : string :=
  match s with
  | EmptyString => EmptyString
  | String c r =>
      match rstrip r with
      | EmptyString => if is_space c then EmptyString else String c EmptyString
      | r' => String c r'
      end
  end.

(** [s.strip()] *)
Definition strip (s : string) : string := rstrip (lstrip s).

(** [s.startswith(p)] *)
Definition startswith (s p : string) : bool := String.prefix p s.

(** [s[n:]] for [0 <= n] *)
Fixpoint slice_from (n : nat) (s : string) : string :=
  match n, s with
  | O, _ => s
  | S k, EmptyString => EmptyString
  | S k, String _ r => slice_from k r
  end.

(** [sub in s] *)
Fixpoint contains (sub s : string) : bool :=
  String.prefix sub s ||
  match s with
  | EmptyString => false
  | String _ r => contains sub r
  end.

(** [s.replace(old, new)] for a non-empty [old]: leftmost occurrences,
    not overlapping.  [skip] counts the characters of a matched
    occurrence still to be passed over. *)
Fixpoint replace_from (old new : string) (skip : nat) (s : string) : string :=
  match s with
  | EmptyString => EmptyString
  | String c r =>
      match skip with
      | S k => replace_from old new k r
      | O =>
          if String.prefix old s
          then new +:+ replace_from old new (String.length old - 1) r
          else String c (replace_from old new 0 r)
      end
  end.

Definition replace (old new s : string) : string := replace_from old new 0 s.

(** [s.split(sep)] for a one-character [sep]. *)
Fixpoint split_char (sep : ascii) (s : string) : list string :=
  match s with
  | EmptyString => [EmptyString]
  | String c r =>
      if Ascii.eqb c sep then EmptyString :: split_char sep r
      else match split_char sep r with
           | [] => [String c EmptyString]
           | p :: ps => String c p :: ps
           end
  end.

(** [sep.join(parts)] *)
Fixpoint join (sep : string) (parts : list string) : string :=
  match parts with
  | [] => EmptyString
  | [p] => p
  | p :: ps => p +:+ sep +:+ join sep ps
  end.

(** [s.title()]: a cased character that follows a cased character is
    lowered, any other is capitalised. *)
Fixpoint title_from (prev_cased : bool) (s : string) : string :=
  match s with
  | EmptyString => EmptyString
  | String c r =>
      String (if prev_cased then lower_char c else upper_char c)
             (title_from (is_cased c) r)
  end.

Definition title (s : string) : string := title_from false s.

(** [re.sub(r'[C]', repl, s)] for a character class [C]: every matching
    character is replaced. *)
Fixpoint re_sub_class (cls : ascii -> bool) (repl : string) (s : string) : string :=
  match s with
  | EmptyString => EmptyString
  | String c r =>
      if cls c then repl +:+ re_sub_class cls repl r
      else String c (re_sub_class cls repl r)
  end.

(** [re.sub(r'[C]+', repl, s)]: the match is greedy, so one replacement
    is emitted where a run of matching characters starts and the rest of
    the run is consumed.  [in_run] tells whether the previous character
    belonged to the run being consumed. *)
Fixpoint re_sub_runs (cls : ascii -> bool) (repl : string) (in_run : bool)
    (s : string) : string :=
  match s with
  | EmptyString => EmptyString
  | String c r =>
      if cls c then
        if in_run then re_sub_runs cls repl true r
        else repl +:+ re_sub_runs cls repl true r
      else String c (re_sub_runs cls repl false r)
  end.

Definition re_sub_class_plus (cls : ascii -> bool) (repl s : string) : string :=
  re_sub_runs cls repl false s.

(** [str(n)] for an [int]. *)
Definition str_of_int (n : Z) : string := NilZero.string_of_int (Z.to_int n).

(** Truth value of a [str]: empty is falsy. *)
Definition truthy (s : string) : bool :=
  match s with EmptyString => false | _ => true end.

(** [x in xs] for a list of strings. *)
Definition in_list (x : string) (xs : list string) : bool :=
  existsb (String.eqb x) xs.

End PyStr.

(* ===================================================================== *)
(** ** book_matcher.py: normalisation *)
(* ===================================================================== *)

(** The class [[^\w\s]]. *)
Definition not_word_or_space (c : ascii) : bool :=
  negb (PyStr.is_word c || PyStr.is_space c).

Definition articles : list string := ["the "; "a "; "an "].

(** The loop [for article in articles: if normalized.startswith(article):
    normalized = normalized[len(article):]; break]. *)
Fixpoint strip_first_article (arts : list string) (normalized : string) : string :=
  match arts with
  | [] => normalized
  | article :: rest =>
      if PyStr.startswith normalized article
      then PyStr.slice_from (String.length article) normalized
      else strip_first_article rest normalized
  end.

Definition normalize_title (title : string) : string :=
  if negb (PyStr.truthy title) then ""
  else
    let normalized := PyStr.lower title in
    let normalized := PyStr.re_sub_class not_word_or_space " " normalized in
    let normalized := PyStr.re_sub_class_plus PyStr.is_space " " normalized in
    let normalized := strip_first_article articles normalized in
    PyStr.strip normalized.

Definition normalize_author (author : string) : string :=
  if negb (PyStr.truthy author) then ""
  else
    let normalized :=
      PyStr.re_sub_class_plus PyStr.is_space " " (PyStr.strip (PyStr.lower author)) in
    if PyStr.contains "," normalized then
      match map PyStr.strip (PyStr.split_char "," normalized) with
      | [p0; p1] => p1 +:+ " " +:+ p0
      | _ => normalized
      end
    else normalized.

(* ===================================================================== *)
(** ** Data model *)
(* ===================================================================== *)

(** kobo_reader.py, [KoboBook] *)
Module KoboBook.
Record t : Type := mk {
  content_id : string;
  title : string;
  author : string;
  read_status : Z;
  percent_read : Z;
  date_last_read : option string;
  collections : list string
}.
End KoboBook.

(** kobo_reader.py, [KoboReader]: the attributes set by [__init__]. *)
Module KoboReader.
Record t : Type := mk {
  db_path : string;
  rating_collections : list (string * string)
}.

Definition init (kobo_db_path : string) : t :=
  {| db_path := kobo_db_path;
     rating_collections :=
       [("| evergreen", "Evergreen");
        ("| absolute favorite", "Absolute Favorite");
        ("| favorite", "Favorites");
        ("| good", "Great")] |}.
End KoboReader.

(** library_manager.py, [CalibreLibrary] *)
Module CalibreLibrary.
Record t : Type := mk {
  name : string;
  path : string;
  metadata_db_path : string;
  is_primary : bool
}.
End CalibreLibrary.

(** library_manager.py, [LibraryManager]: the two attributes and the two
    accessors the matcher uses. *)
Module LibraryManager.
Record t : Type := mk {
  libraries : list CalibreLibrary.t;
  primary_library : option CalibreLibrary.t
}.

Definition get_primary_library (self : t) : option CalibreLibrary.t :=
  primary_library self.

Definition get_secondary_libraries (self : t) : list CalibreLibrary.t :=
  List.filter (fun lib => negb (CalibreLibrary.is_primary lib)) (libraries self).
End LibraryManager.

(** book_matcher.py, [BookMatch].  [match_confidence] is a float in the
    source; the only value ever stored is 1.0, kept here as the integer 1. *)
Module BookMatch.
Record t : Type := mk {
  kobo_book : KoboBook.t;
  calibre_book_id : Z;
  calibre_title : string;
  calibre_authors : string;
  library : CalibreLibrary.t;
  match_confidence : Z;
  match_type : string
}.
End BookMatch.

(** book_matcher.py, [BookConflict] *)
Module BookConflict.
Record t : Type := mk {
  kobo_book : KoboBook.t;
  matches : list BookMatch.t;
  resolution : option string;
  chosen_library : option string
}.
End BookConflict.

(** book_matcher.py, [BookMatcher]: the attributes set by [__init__]. *)
Module BookMatcher.
Record t : Type := mk {
  library_manager : LibraryManager.t;
  unmatched_books : list KoboBook.t;
  conflicts : list BookConflict.t
}.

Definition init (library_manager : LibraryManager.t) : t :=
  {| library_manager := library_manager; unmatched_books := []; conflicts := [] |}.
End BookMatcher.

(** The three lists [match_all_books] builds. *)
Record MatchResult : Type := mkMatchResult {
  successful_matches : list BookMatch.t;
  unmatched_books : list KoboBook.t;
  conflicts : list BookConflict.t
}.

(** One row of the query in [find_book_in_library]: [authors] is NULL when
    the book has no author link. *)
Module BookRow.
Record t : Type := mk {
  id : Z;
  title : string;
  authors : option string
}.
End BookRow.

(** calibre_updater.py, [CalibreUpdater]: the attributes set by [__init__]. *)
Module CalibreUpdater.
Record t : Type := mk {
  backup_dir : string;
  calibredb_path : string
}.
End CalibreUpdater.

(** The dictionary returned by [check_custom_columns]. *)
Record ColumnCheck : Type := mkColumnCheck {
  my_ratings : bool;
  my_genres : bool
}.

(** The statistics dictionary of [bulk_update] and [_simulate_updates];
    the key ['dry_run'] exists only in the latter. *)
Record Stats : Type := mkStats {
  total : nat;
  successful : nat;
  failed : nat;
  libraries_updated : gset string;
  dry_run : option bool
}.

(** Exceptions that leave a function of the orchestrator. *)
Inductive Exc : Type :=
| Exception (message : string)
| AttributeError (message : string).

(** A value, or an exception on its way out. *)
Inductive Result (A : Type) : Type :=
| Ok (a : A)
| Raise (e : Exc).
Arguments Ok {A} a.
Arguments Raise {A} e.

(** sync_engine.py, [SyncEngine]: the attributes the pipeline stages read
    and write ([config_manager] is not used by them). *)
Module SyncEngine.
Record t : Type := mk {
  kobo_reader : option KoboReader.t;
  library_manager : LibraryManager.t;
  book_matcher : option BookMatcher.t;
  calibre_updater : CalibreUpdater.t;
  kobo_books : list KoboBook.t;
  libraries : list CalibreLibrary.t;
  matches : list BookMatch.t;
  unmatched_books : list KoboBook.t;
  conflicts : list BookConflict.t
}.
End SyncEngine.

(** [by_library]: a dictionary from library name to the list of its
    matches, in insertion order.  A key is created together with its first
    element, so no value list is empty; the pair (first, others) records
    that. *)
Definition ByLibrary : Type := list (string * (BookMatch.t * list BookMatch.t)).

Definition group_matches (g : BookMatch.t * list BookMatch.t) : list BookMatch.t :=
  fst g :: snd g.

(** [if lib_name not in by_library: by_library[lib_name] = []] followed by
    [by_library[lib_name].append(match)]. *)
Fixpoint by_library_append (lib_name : string) (m : BookMatch.t) (d : ByLibrary)
    : ByLibrary :=
  match d with
  | [] => [(lib_name, (m, []))]
  | (k, (first, others)) :: rest =>
      if String.eqb k lib_name then (k, (first, others ++ [m])) :: rest
      else (k, (first, others)) :: by_library_append lib_name m rest
  end.

Definition group_by_library (matches : list BookMatch.t) : ByLibrary :=
  fold_left
    (fun d m => by_library_append (CalibreLibrary.name (BookMatch.library m)) m d)
    matches [].

(* ===================================================================== *)
(** ** calibre_updater.py: classification of collections *)
(* ===================================================================== *)

Definition rating_patterns : list string :=
  ["| evergreen"; "| absolute favorite"; "| favorite"; "| good";
   "evergreen"; "absolute favorite"; "favorites"; "great"; "favorite"].

(** The clean-up applied to a recognised rating collection. *)
Definition rating_clean_name (col_lower : string) : string :=
  let clean_name := PyStr.title (PyStr.replace "| " "" col_lower) in
  if String.eqb clean_name "Favorite" then "Favorites"
  else if String.eqb clean_name "Good" then "Great"
  else clean_name.

Fixpoint _get_rating_collections (collections : list string) : list string :=
  match collections with
  | [] => []
  | col :: rest =>
      let col_lower := PyStr.strip (PyStr.lower col) in
      if PyStr.in_list col_lower (map PyStr.lower rating_patterns)
      then rating_clean_name col_lower :: _get_rating_collections rest
      else _get_rating_collections rest
  end.

Definition genre_excluded : list string :=
  ["evergreen"; "absolute favorite"; "favorites"; "great"; "favorite"; "good"].

(** The loop of [_get_genre_collections], given [rating_patterns_lower]. *)
Fixpoint genre_loop (rating_patterns_lower : list string) (collections : list string)
    : list string :=
  match collections with
  | [] => []
  | col :: rest =>
      let col_clean := PyStr.strip (PyStr.replace "| " "" col) in
      if negb (PyStr.in_list (PyStr.lower col_clean) rating_patterns_lower)
         && negb (PyStr.in_list (PyStr.lower col_clean) genre_excluded)
      then col_clean :: genre_loop rating_patterns_lower rest
      else genre_loop rating_patterns_lower rest
  end.

Definition _get_genre_collections (collections : list string) : list string :=
  let rating_collections := _get_rating_collections collections in
  let rating_patterns_lower := map PyStr.lower rating_collections in
  genre_loop rating_patterns_lower collections.

(* ===================================================================== *)
(** ** The outside world *)
(* ===================================================================== *)

(** [subprocess.CompletedProcess] *)
Record CompletedProcess : Type := mkCompleted {
  returncode : Z;
  stdout : string;
  stderr : string
}.

(** What [subprocess.run(cmd, capture_output=True, text=True, timeout=...)]
    can do: return, run out of time, or raise something else
    ([FileNotFoundError], [OSError], ...). *)
Inductive RunResult : Type :=
| Completed (result : CompletedProcess)
| TimeoutExpired
| RunRaised.

(** Everything outside the interpreter: a type of worlds and, for each
    kind of call, the answer a world gives (and the world it becomes). *)
Record Env : Type := mkEnv {
  World : Type;
  (** the result set of the books-with-authors query on a metadata file;
      [None] is [sqlite3.Error] *)
  sqlite_books : World -> string -> option (list BookRow.t);
  (** [SELECT label, name FROM custom_columns]; [None] is [sqlite3.Error] *)
  sqlite_custom_columns : World -> string -> option (list (string * string));
  (** [subprocess.run] *)
  subprocess_run : World -> list string -> RunResult * World;
  (** [shutil.copy2(src, dst)]: [false] when it raises *)
  shutil_copy2 : World -> string -> string -> bool * World;
  (** [datetime.now().strftime("%Y%m%d_%H%M%S")] *)
  strftime_now : World -> string
}.

(** One entry of the trace: a call that was issued, with its answer where
    the caller looks at it. *)
Inductive Event : Type :=
| EvQueryBooks (db : string)
| EvQueryColumns (db : string)
| EvRun (argv : list string) (res : RunResult)
| EvCopy2 (src dst : string) (ok : bool).

(** Exceptions of the functions that do not catch them all. *)
Inductive PyError : Type :=
| RuntimeError (message : string)
| FileNotFoundError (message : string)
| SqliteError
| ValueError
| IndexError
| PlainException (message : string).

(** What a call that may raise gives back. *)
Inductive Outcome (A : Type) : Type :=
| Returned (a : A)
| Raised (e : PyError).
Arguments Returned {A} a.
Arguments Raised {A} e.

Section WithEnv.

Context {E : Env}.

(** The state threaded through every operation. *)
Record Sys : Type := mkSys {
  world : World E;
  trace : list Event
}.

(** Computations that read and change the world and extend the trace. *)
Definition M (A : Type) : Type := Sys -> A * Sys.

Definition ret {A} (a : A) : M A := fun s => (a, s).

Definition bind {A B} (c : M A) (k : A -> M B) : M B :=
  fun s => let '(a, s') := c s in k a s'.

Notation "x <- c ;; k" := (bind c (fun x => k))
  (at level 100, c at next level, right associativity).

Definition emit (e : Event) (s : Sys) : Sys :=
  {| world := world s; trace := trace s ++ [e] |}.

Definition query_books (db : string) : M (option (list BookRow.t)) :=
  fun s => (sqlite_books E (world s) db, emit (EvQueryBooks db) s).

Definition query_columns (db : string) : M (option (list (string * string))) :=
  fun s => (sqlite_custom_columns E (world s) db, emit (EvQueryColumns db) s).

Definition run (argv : list string) : M RunResult :=
  fun s =>
    let '(r, w) := subprocess_run E (world s) argv in
    (r, {| world := w; trace := trace s ++ [EvRun argv r] |}).

Definition copy2 (src dst : string) : M bool :=
  fun s =>
    let '(ok, w) := shutil_copy2 E (world s) src dst in
    (ok, {| world := w; trace := trace s ++ [EvCopy2 src dst ok] |}).

Definition now : M string := fun s => (strftime_now E (world s), s).

(* ===================================================================== *)
(** ** book_matcher.py: BookMatcher *)
(* ===================================================================== *)

(** The value of a nullable text column, the empty string standing in
    for NULL. *)
Definition or_empty (o : option string) : string :=
  match o with Some s => if PyStr.truthy s then s else "" | None => "" end.

(** The loop over [calibre_books] in [find_book_in_library]. *)
Fixpoint first_exact_match (kobo_book : KoboBook.t) (library : CalibreLibrary.t)
    (kobo_title_norm kobo_author_norm : string)
    (calibre_books : list BookRow.t) : option BookMatch.t :=
  match calibre_books with
  | [] => None
  | book :: rest =>
      let calibre_title_norm := normalize_title (BookRow.title book) in
      let calibre_author_norm := normalize_author (or_empty (BookRow.authors book)) in
      if String.eqb kobo_title_norm calibre_title_norm
         && String.eqb kobo_author_norm calibre_author_norm
      then Some {| BookMatch.kobo_book := kobo_book;
                   BookMatch.calibre_book_id := BookRow.id book;
                   BookMatch.calibre_title := BookRow.title book;
                   BookMatch.calibre_authors := or_empty (BookRow.authors book);
                   BookMatch.library := library;
                   BookMatch.match_confidence := 1;
                   BookMatch.match_type := "exact" |}
      else first_exact_match kobo_book library kobo_title_norm kobo_author_norm rest
  end.

Definition find_book_in_library (kobo_book : KoboBook.t) (library : CalibreLibrary.t)
    : M (option BookMatch.t) :=
  fetched <- query_books (CalibreLibrary.metadata_db_path library) ;;
  match fetched with
  | Some calibre_books =>
      let kobo_title_norm := normalize_title (KoboBook.title kobo_book) in
      let kobo_author_norm := normalize_author (KoboBook.author kobo_book) in
      ret (first_exact_match kobo_book library kobo_title_norm kobo_author_norm
             calibre_books)
  | None => ret None
  end.

(** The loop over the secondary libraries in [find_book_across_libraries]. *)
Fixpoint search_secondary (kobo_book : KoboBook.t) (libs : list CalibreLibrary.t)
    (matches : list BookMatch.t) : M (list BookMatch.t) :=
  match libs with
  | [] => ret matches
  | library :: rest =>
      found <- find_book_in_library kobo_book library ;;
      match found with
      | Some m => search_secondary kobo_book rest (matches ++ [m])
      | None => search_secondary kobo_book rest matches
      end
  end.

Definition find_book_across_libraries (library_manager : LibraryManager.t)
    (kobo_book : KoboBook.t) : M (list BookMatch.t) :=
  let secondary :=
    search_secondary kobo_book
      (LibraryManager.get_secondary_libraries library_manager) [] in
  match LibraryManager.get_primary_library library_manager with
  | Some primary_library =>
      found <- find_book_in_library kobo_book primary_library ;;
      match found with
      | Some m => ret [m]
      | None => secondary
      end
  | None => secondary
  end.

(** The loop over [kobo_books] in [match_all_books]. *)
Fixpoint match_loop (library_manager : LibraryManager.t)
    (kobo_books : list KoboBook.t) (acc : MatchResult) : M MatchResult :=
  match kobo_books with
  | [] => ret acc
  | kobo_book :: rest =>
      matches <- find_book_across_libraries library_manager kobo_book ;;
      match_loop library_manager rest
        match matches with
        | [] =>
            {| successful_matches := successful_matches acc;
               unmatched_books := unmatched_books acc ++ [kobo_book];
               conflicts := conflicts acc |}
        | [m] =>
            {| successful_matches := successful_matches acc ++ [m];
               unmatched_books := unmatched_books acc;
               conflicts := conflicts acc |}
        | _ =>
            {| successful_matches := successful_matches acc;
               unmatched_books := unmatched_books acc;
               conflicts := conflicts acc ++
                 [{| BookConflict.kobo_book := kobo_book;
                     BookConflict.matches := matches;
                     BookConflict.resolution := None;
                     BookConflict.chosen_library := None |}] |}
        end
  end.

Definition match_all_books (self : BookMatcher.t) (kobo_books : list KoboBook.t)
    : M (MatchResult * BookMatcher.t) :=
  r <- match_loop (BookMatcher.library_manager self) kobo_books
         {| successful_matches := []; unmatched_books := []; conflicts := [] |} ;;
  ret (r, {| BookMatcher.library_manager := BookMatcher.library_manager self;
             BookMatcher.unmatched_books := unmatched_books r;
             BookMatcher.conflicts := conflicts r |}).

(* ===================================================================== *)
(** ** calibre_updater.py: CalibreUpdater *)
(* ===================================================================== *)

Definition test_calibredb_connection (self : CalibreUpdater.t)
    (library : CalibreLibrary.t) : M bool :=
  let cmd := [CalibreUpdater.calibredb_path self; "list"; "--library-path";
              CalibreLibrary.path library; "--limit"; "1"] in
  result <- run cmd ;;
  match result with
  | Completed r => ret (returncode r =? 0)%Z
  | TimeoutExpired => ret false
  | RunRaised => ret false
  end.

Definition backup_library (self : CalibreUpdater.t) (library : CalibreLibrary.t)
    : M bool :=
  timestamp <- now ;;
  let backup_name :=
    CalibreLibrary.name library +:+ "_metadata_" +:+ timestamp +:+ ".db" in
  let backup_path := CalibreUpdater.backup_dir self +:+ "/" +:+ backup_name in
  copy2 (CalibreLibrary.metadata_db_path library) backup_path.

Definition check_custom_columns (self : CalibreUpdater.t)
    (library : CalibreLibrary.t) : M ColumnCheck :=
  fetched <- query_columns (CalibreLibrary.metadata_db_path library) ;;
  match fetched with
  | Some existing_columns =>
      let labels := map fst existing_columns in
      ret {| my_ratings := PyStr.in_list "myratings" labels;
             my_genres := PyStr.in_list "my_genres" labels |}
  | None => ret {| my_ratings := false; my_genres := false |}
  end.

Definition create_custom_column (self : CalibreUpdater.t)
    (library : CalibreLibrary.t) (column_name display_name : string) : M bool :=
  let cmd := [CalibreUpdater.calibredb_path self; "add_custom_column";
              "--library-path"; CalibreLibrary.path library;
              column_name; display_name; "text";
              "--display"; "{}"; "--is-multiple"] in
  result <- run cmd ;;
  match result with
  | Completed r =>
      if (returncode r =? 0)%Z then ret true
      else if PyStr.contains "already exists" (PyStr.lower (stderr r)) then ret true
      else ret false
  | TimeoutExpired => ret false
  | RunRaised => ret false
  end.

Definition ensure_custom_columns (self : CalibreUpdater.t)
    (library : CalibreLibrary.t) : M bool :=
  columns <- check_custom_columns self library ;;
  let success := true in
  success <-
    (if negb (my_ratings columns) then
       created <- create_custom_column self library "myratings" "My Ratings" ;;
       ret (if negb created then false else success)
     else ret success) ;;
  success <-
    (if negb (my_genres columns) then
       created <- create_custom_column self library "my_genres" "My Genres" ;;
       ret (if negb created then false else success)
     else ret success) ;;
  ret success.

Definition _update_custom_column (self : CalibreUpdater.t)
    (library : CalibreLibrary.t) (book_id : Z) (column : string)
    (values : list string) : M bool :=
  match values with
  | [] => ret true
  | _ =>
      let value_string := PyStr.join "," values in
      let cmd := [CalibreUpdater.calibredb_path self; "set_metadata";
                  "--library-path"; CalibreLibrary.path library;
                  PyStr.str_of_int book_id;
                  "--field"; "#" +:+ column +:+ ":" +:+ value_string] in
      result <- run cmd ;;
      match result with
      | Completed r => ret (returncode r =? 0)%Z
      | TimeoutExpired => ret false
      | RunRaised => ret false
      end
  end.

Definition update_book_metadata (self : CalibreUpdater.t) (m : BookMatch.t)
    : M bool :=
  let collections := KoboBook.collections (BookMatch.kobo_book m) in
  let rating_collections := _get_rating_collections collections in
  let genre_collections := _get_genre_collections collections in
  ratings_ok <-
    (match rating_collections with
     | [] => ret true
     | _ => _update_custom_column self (BookMatch.library m)
              (BookMatch.calibre_book_id m) "myratings" rating_collections
     end) ;;
  if negb ratings_ok then ret false
  else
    genres_ok <-
      (match genre_collections with
       | [] => ret true
       | _ => _update_custom_column self (BookMatch.library m)
                (BookMatch.calibre_book_id m) "my_genres" genre_collections
       end) ;;
    if negb genres_ok then ret false else ret true.

Definition add_failed (n : nat) (stats : Stats) : Stats :=
  {| total := total stats; successful := successful stats;
     failed := failed stats + n;
     libraries_updated := libraries_updated stats; dry_run := dry_run stats |}.

Definition add_successful (n : nat) (stats : Stats) : Stats :=
  {| total := total stats; successful := successful stats + n;
     failed := failed stats;
     libraries_updated := libraries_updated stats; dry_run := dry_run stats |}.

Definition add_library (library_name : string) (stats : Stats) : Stats :=
  {| total := total stats; successful := successful stats;
     failed := failed stats;
     libraries_updated := libraries_updated stats ∪ {[ library_name ]};
     dry_run := dry_run stats |}.

(** The loop [for match in library_matches] of [bulk_update]. *)
Fixpoint update_each (self : CalibreUpdater.t) (library_matches : list BookMatch.t)
    (stats : Stats) : M Stats :=
  match library_matches with
  | [] => ret stats
  | m :: rest =>
      ok <- update_book_metadata self m ;;
      update_each self rest
        (if ok then add_successful 1 stats else add_failed 1 stats)
  end.

(** The loop [for library_name, library_matches in by_library.items()]. *)
Fixpoint process_libraries (self : CalibreUpdater.t) (by_library : ByLibrary)
    (stats : Stats) : M Stats :=
  match by_library with
  | [] => ret stats
  | (library_name, group) :: rest =>
      let library_matches := group_matches group in
      let library := BookMatch.library (fst group) in
      connected <- test_calibredb_connection self library ;;
      if negb connected then
        process_libraries self rest (add_failed (length library_matches) stats)
      else
        backed_up <- backup_library self library ;;
        if negb backed_up then
          process_libraries self rest (add_failed (length library_matches) stats)
        else
          ensured <- ensure_custom_columns self library ;;
          if negb ensured then
            process_libraries self rest (add_failed (length library_matches) stats)
          else
            stats <- update_each self library_matches stats ;;
            process_libraries self rest (add_library library_name stats)
  end.

Definition bulk_update (self : CalibreUpdater.t) (matches : list BookMatch.t)
    : M Stats :=
  let stats := {| total := length matches; successful := 0; failed := 0;
                  libraries_updated := ∅; dry_run := None |} in
  let by_library := group_by_library matches in
  process_libraries self by_library stats.

(* ===================================================================== *)
(** ** sync_engine.py: SyncEngine *)
(* ===================================================================== *)

Definition match_books (self : SyncEngine.t)
    : M (Result MatchResult * SyncEngine.t) :=
  match SyncEngine.kobo_books self with
  | [] => ret (Raise (Exception "No Kobo books loaded. Call load_kobo_data() first."),
               self)
  | _ =>
      match SyncEngine.libraries self with
      | [] => ret (Raise (Exception
                     "No libraries discovered. Call discover_libraries() first."),
                   self)
      | _ =>
          let book_matcher := BookMatcher.init (SyncEngine.library_manager self) in
          out <- match_all_books book_matcher (SyncEngine.kobo_books self) ;;
          let r := fst out in
          ret (Ok r,
               {| SyncEngine.kobo_reader := SyncEngine.kobo_reader self;
                  SyncEngine.library_manager := SyncEngine.library_manager self;
                  SyncEngine.book_matcher := Some (snd out);
                  SyncEngine.calibre_updater := SyncEngine.calibre_updater self;
                  SyncEngine.kobo_books := SyncEngine.kobo_books self;
                  SyncEngine.libraries := SyncEngine.libraries self;
                  SyncEngine.matches := successful_matches r;
                  SyncEngine.unmatched_books := unmatched_books r;
                  SyncEngine.conflicts := conflicts r |})
      end
  end.

(** The comprehension [[col for col in collections if col in
    self.kobo_reader.rating_collections]] (and its negated twin): the
    attribute access is evaluated once per element, and raises when
    [self.kobo_reader] is [None]. *)
Fixpoint preview_cols (kobo_reader : option KoboReader.t) (keep_rating : bool)
    (collections : list string) : Result (list string) :=
  match collections with
  | [] => Ok []
  | col :: rest =>
      match kobo_reader with
      | None => Raise (AttributeError
                  "'NoneType' object has no attribute 'rating_collections'")
      | Some reader =>
          let is_rating :=
            PyStr.in_list col (map fst (KoboReader.rating_collections reader)) in
          match preview_cols kobo_reader keep_rating rest with
          | Ok cols => Ok (if Bool.eqb is_rating keep_rating then col :: cols else cols)
          | Raise e => Raise e
          end
      end
  end.

(** The loop [for match in lib_matches[:5]] of [_simulate_updates]. *)
Fixpoint preview_matches (kobo_reader : option KoboReader.t)
    (lib_matches : list BookMatch.t) : Result unit :=
  match lib_matches with
  | [] => Ok tt
  | m :: rest =>
      let collections := KoboBook.collections (BookMatch.kobo_book m) in
      match preview_cols kobo_reader true collections with
      | Raise e => Raise e
      | Ok _ =>
          match preview_cols kobo_reader false collections with
          | Raise e => Raise e
          | Ok _ => preview_matches kobo_reader rest
          end
      end
  end.

(** The loop [for lib_name, lib_matches in by_library.items()] of
    [_simulate_updates]. *)
Fixpoint preview_libraries (kobo_reader : option KoboReader.t)
    (by_library : ByLibrary) : Result unit :=
  match by_library with
  | [] => Ok tt
  | (lib_name, group) :: rest =>
      match preview_matches kobo_reader (firstn 5 (group_matches group)) with
      | Raise e => Raise e
      | Ok _ => preview_libraries kobo_reader rest
      end
  end.

Definition _simulate_updates (self : SyncEngine.t) : M (Result Stats) :=
  let matches := SyncEngine.matches self in
  let stats := {| total := length matches; successful := length matches;
                  failed := 0; libraries_updated := ∅; dry_run := Some true |} in
  let by_library := group_by_library matches in
  let stats :=
    fold_left
      (fun st m => add_library (CalibreLibrary.name (BookMatch.library m)) st)
      matches stats in
  match preview_libraries (SyncEngine.kobo_reader self) by_library with
  | Raise e => ret (Raise e)
  | Ok _ => ret (Ok stats)
  end.

Definition update_calibre_metadata (self : SyncEngine.t) (dry_run : bool)
    : M (Result Stats) :=
  if dry_run then _simulate_updates self
  else
    match SyncEngine.matches self with
    | [] => ret (Raise (Exception "No book matches found. Call match_books() first."))
    | _ =>
        stats <- bulk_update (SyncEngine.calibre_updater self)
                   (SyncEngine.matches self) ;;
        ret (Ok stats)
    end.

Definition apply_conflict_resolutions (self : SyncEngine.t)
    (resolved_matches : list BookMatch.t) : SyncEngine.t :=
  match resolved_matches with
  | [] => self
  | _ =>
      {| SyncEngine.kobo_reader := SyncEngine.kobo_reader self;
         SyncEngine.library_manager := SyncEngine.library_manager self;
         SyncEngine.book_matcher := SyncEngine.book_matcher self;
         SyncEngine.calibre_updater := SyncEngine.calibre_updater self;
         SyncEngine.kobo_books := SyncEngine.kobo_books self;
         SyncEngine.libraries := SyncEngine.libraries self;
         SyncEngine.matches := SyncEngine.matches self ++ resolved_matches;
         SyncEngine.unmatched_books := SyncEngine.unmatched_books self;
         SyncEngine.conflicts := SyncEngine.conflicts self |}
  end.

(* ===================================================================== *)
(** ** calibre_updater.py: locating the tool *)
(* ===================================================================== *)




End WithEnv.

(* ===================================================================== *)
(** ** gui.py: resolving conflicts *)
(* ===================================================================== *)

(** The value of a non-empty string of decimal digits. *)
Definition digits_value (digits : string) : option Z :=
  match digits with
  | EmptyString => None
  | _ => option_map Z.of_uint (NilZero.uint_of_string digits)
  end.

(** [int(s)] for a [str]: surrounding whitespace is dropped, a sign may
    come first, and decimal digits follow; anything else is [None]
    ([ValueError]).  (The digit separator [_] cannot reach this function:
    its argument is a piece of a string split at underscores.) *)
Definition py_int (s : string) : option Z :=
  match PyStr.strip s with
  | String c r =>
      if Ascii.eqb c "+" then digits_value r
      else if Ascii.eqb c "-" then option_map Z.opp (digits_value r)
      else digits_value (String c r)
  | EmptyString => None
  end.

(** [l[i]] for an [int] index: a negative index counts from the end, an
    index out of range is [None] ([IndexError]). *)
Definition py_getitem {A : Type} (l : list A) (i : Z) : option A :=
  if (0 <=? i)%Z then nth_error l (Z.to_nat i)
  else if (- Z.of_nat (length l) <=? i)%Z
       then nth_error l (Z.to_nat (Z.of_nat (length l) + i))
       else None.

(** The loop of [_resolve_conflicts].  One dialog is shown per conflict;
    [ask k conflict] is what dialog number [k] leaves in [result["action"]]:
    [None] when the window is closed, the value of the selected radio
    button (empty when none is selected) after OK, or "skip_all". *)
Fixpoint resolve_loop (ask : nat -> BookConflict.t -> option string) (k : nat)
    (conflicts : list BookConflict.t) (resolved_matches : list BookMatch.t)
    : Outcome (list BookMatch.t) :=
  match conflicts with
  | [] => Returned resolved_matches
  | conflict :: rest =>
      match ask k conflict with
      | None => resolve_loop ask (S k) rest resolved_matches
      | Some action =>
          if String.eqb action "skip_all" then Returned resolved_matches
          else if String.eqb action "skip" || negb (PyStr.truthy action)
          then resolve_loop ask (S k) rest resolved_matches
          else if String.eqb action "all"
          then resolve_loop ask (S k) rest
                 (resolved_matches ++ BookConflict.matches conflict)
          else if PyStr.startswith action "library_" then
            match nth_error (PyStr.split_char "_" action) 1 with
            | None => Raised IndexError
            | Some digits =>
                match py_int digits with
                | None => Raised ValueError
                | Some library_index =>
                    match py_getitem (BookConflict.matches conflict) library_index with
                    | None => Raised IndexError
                    | Some m => resolve_loop ask (S k) rest (resolved_matches ++ [m])
                    end
                end
            end
          else resolve_loop ask (S k) rest resolved_matches
      end
  end.

Definition _resolve_conflicts (ask : nat -> BookConflict.t -> option string)
    (conflicts : list BookConflict.t) : Outcome (list BookMatch.t) :=
  match conflicts with
  | [] => Returned []
  | _ => resolve_loop ask 0 conflicts []
  end.

(* ===================================================================== *)
(** ** library_manager.py: discovery and lookup *)
(* ===================================================================== *)

(** One file yielded by [path.rglob("metadata.db")], with what
    [metadata_file.parent.resolve()] and its [name] are. *)
Record FoundFile : Type := mkFoundFile {
  metadata_file : string;
  parent_resolved : string;
  parent_name : string
}.

(** What the library manager reads from the disk. *)
Record Fs : Type := mkFs {
  (** [Path(p).exists()] *)
  path_exists : string -> bool;
  (** [Path(p).rglob("metadata.db")], in order *)
  rglob_metadata_db : string -> list FoundFile;
  (** the names among books, authors and custom_columns that are tables
      of the file; [None] is [sqlite3.Error] *)
  sqlite_master_tables : string -> option (list string);
  (** [str(Path.home())] and [str(Path.cwd())] *)
  home : string;
  cwd : string
}.

(** [library_path / "metadata.db"] *)
Definition metadata_db_of (library_path : string) : string :=
  library_path +:+ "/metadata.db".

Definition _is_valid_calibre_library (fs : Fs) (library_path : string) : bool :=
  let metadata_db := metadata_db_of library_path in
  if negb (path_exists fs metadata_db) then false
  else match sqlite_master_tables fs metadata_db with
       | Some tables => PyStr.in_list "books" tables
       | None => false
       end.

Definition default_search_paths (fs : Fs) : list string :=
  [home fs +:+ "/Documents";
   home fs +:+ "/Downloads";
   cwd fs;
   "/Users/jenniferparsons/Engineering/Projects/kobo-to-calibre"].

(** [any(skip in str(library_path).lower() for skip in [...])] *)
Definition is_backup_or_temporary (library_path : string) : bool :=
  existsb (fun skip => PyStr.contains skip (PyStr.lower library_path))
          ["backup"; "temp"; ".git"].

(** The loop over the files found under one search path; the state is
    [libraries] and [seen_paths]. *)
Fixpoint scan_found (fs : Fs) (found : list FoundFile)
    (state : list CalibreLibrary.t * gset string)
    : list CalibreLibrary.t * gset string :=
  match found with
  | [] => state
  | f :: rest =>
      let library_path := parent_resolved f in
      let library_name := parent_name f in
      if is_backup_or_temporary library_path then scan_found fs rest state
      else if bool_decide (library_path ∈ snd state) then scan_found fs rest state
      else if _is_valid_calibre_library fs library_path then
        scan_found fs rest
          (fst state ++ [{| CalibreLibrary.name := library_name;
                            CalibreLibrary.path := library_path;
                            CalibreLibrary.metadata_db_path := metadata_file f;
                            CalibreLibrary.is_primary := false |}],
           snd state ∪ {[ library_path ]})
      else scan_found fs rest state
  end.

(** The loop over the search paths. *)
Fixpoint scan_paths (fs : Fs) (search_paths : list string)
    (state : list CalibreLibrary.t * gset string)
    : list CalibreLibrary.t * gset string :=
  match search_paths with
  | [] => state
  | search_path :: rest =>
      if negb (path_exists fs search_path) then scan_paths fs rest state
      else scan_paths fs rest (scan_found fs (rglob_metadata_db fs search_path) state)
  end.

Definition as_primary (library : CalibreLibrary.t) : CalibreLibrary.t :=
  {| CalibreLibrary.name := CalibreLibrary.name library;
     CalibreLibrary.path := CalibreLibrary.path library;
     CalibreLibrary.metadata_db_path := CalibreLibrary.metadata_db_path library;
     CalibreLibrary.is_primary := true |}.

(** The loop that sets [is_primary] on the first library whose name
    contains "mcr" and stops: the list with that object updated, and the
    object (what [self.primary_library] is set to), if there is one. *)
Fixpoint mark_primary (libraries : list CalibreLibrary.t)
    : list CalibreLibrary.t * option CalibreLibrary.t :=
  match libraries with
  | [] => ([], None)
  | library :: rest =>
      if PyStr.contains "mcr" (PyStr.lower (CalibreLibrary.name library))
      then (as_primary library :: rest, Some (as_primary library))
      else (library :: fst (mark_primary rest), snd (mark_primary rest))
  end.

Definition discover_libraries (fs : Fs) (self : LibraryManager.t)
    (search_paths : option (list string))
    : list CalibreLibrary.t * LibraryManager.t :=
  let search_paths :=
    match search_paths with
    | None => default_search_paths fs
    | Some given => given
    end in
  let libraries := fst (scan_paths fs search_paths ([], ∅)) in
  let marked := mark_primary libraries in
  (fst marked,
   {| LibraryManager.libraries := fst marked;
      LibraryManager.primary_library :=
        match snd marked with
        | Some library => Some library
        | None => LibraryManager.primary_library self
        end |}).

Definition get_library_by_name (self : LibraryManager.t) (name : string)
    : option CalibreLibrary.t :=
  List.find
    (fun library =>
       String.eqb (PyStr.lower (CalibreLibrary.name library)) (PyStr.lower name))
    (LibraryManager.libraries self).

Definition get_all_libraries (self : LibraryManager.t) : list CalibreLibrary.t :=
  LibraryManager.libraries self.

(** [LibraryManager.add_library], for a [path] in the form [Path(path)]
    prints it. *)
Definition LibraryManager_add_library (fs : Fs) (self : LibraryManager.t) (name path : string)
    : bool * LibraryManager.t :=
  let library_path := path in
  let metadata_db := metadata_db_of library_path in
  if negb (_is_valid_calibre_library fs library_path) then (false, self)
  else
    (true,
     {| LibraryManager.libraries :=
          LibraryManager.libraries self ++
          [{| CalibreLibrary.name := name;
              CalibreLibrary.path := library_path;
              CalibreLibrary.metadata_db_path := metadata_db;
              CalibreLibrary.is_primary := false |}];
        LibraryManager.primary_library := LibraryManager.primary_library self |}).

(* ===================================================================== *)
(** ** kobo_reader.py: reading the source, and sync_engine.py: loading *)
(* ===================================================================== *)

(** One row of the books query of [get_books_with_collections]. *)
Record ContentRow : Type := mkContentRow {
  ContentID : string;
  Title : option string;
  Attribution : option string;
  ReadStatus : option Z;
  PercentRead : option Z;
  DateLastRead : option string
}.

(** What loading reads: the configured path of the Kobo database, whether
    a file exists, and the results of the two queries on it ([None] is
    [sqlite3.Error]; the second is a list of (ContentId, ShelfName)). *)
Record KoboDb : Type := mkKoboDb {
  configured_kobo_database_path : string;
  kobo_file_exists : string -> bool;
  select_books : string -> option (list ContentRow);
  select_shelf_content : string -> option (list (string * string))
}.

(** [d[key] = value] on a dictionary kept in insertion order. *)
Fixpoint dict_set {V : Type} (key : string) (value : V) (d : list (string * V))
    : list (string * V) :=
  match d with
  | [] => [(key, value)]
  | (k, v) :: rest =>
      if String.eqb k key then (k, value) :: rest
      else (k, v) :: dict_set key value rest
  end.

(** [d.get(key)] *)
Fixpoint dict_get {V : Type} (key : string) (d : list (string * V)) : option V :=
  match d with
  | [] => None
  | (k, v) :: rest => if String.eqb k key then Some v else dict_get key rest
  end.

(** [{row['ContentID']: row for row in cursor}] *)
Definition book_data_of (rows : list ContentRow) : list (string * ContentRow) :=
  fold_left (fun d row => dict_set (ContentID row) row d) rows [].

(** The loop that groups shelf names by book. *)
Definition book_collections_of (rows : list (string * string))
    : list (string * list string) :=
  fold_left
    (fun d row =>
       let content_id := fst row in
       let shelf_name := snd row in
       let d := match dict_get content_id d with
                | None => dict_set content_id [] d
                | Some _ => d
                end in
       match dict_get content_id d with
       | Some shelves => dict_set content_id (shelves ++ [shelf_name]) d
       | None => d
       end)
    rows [].

Definition _convert_collections (self : KoboReader.t) (raw_collections : list string)
    : list string :=
  map (fun collection =>
         match dict_get collection (KoboReader.rating_collections self) with
         | Some display => display
         | None => collection
         end)
      raw_collections.

Definition string_or_empty (o : option string) : string :=
  match o with Some s => s | None => "" end.

Definition int_or_zero (o : option Z) : Z :=
  match o with Some n => n | None => 0%Z end.

Definition get_books_with_collections (db : KoboDb) (self : KoboReader.t)
    : Outcome (list KoboBook.t) :=
  let db_path := KoboReader.db_path self in
  if negb (kobo_file_exists db db_path)
  then Raised (FileNotFoundError ("Kobo database not found: " +:+ db_path))
  else
    match select_books db db_path with
    | None => Raised SqliteError
    | Some rows =>
        let book_data := book_data_of rows in
        match select_shelf_content db db_path with
        | None => Raised SqliteError
        | Some shelf_rows =>
            let book_collections := book_collections_of shelf_rows in
            Returned
              (map (fun entry =>
                      let content_id := fst entry in
                      let book_info := snd entry in
                      let raw_collections :=
                        match dict_get content_id book_collections with
                        | Some shelves => shelves
                        | None => []
                        end in
                      {| KoboBook.content_id := content_id;
                         KoboBook.title := string_or_empty (Title book_info);
                         KoboBook.author := string_or_empty (Attribution book_info);
                         KoboBook.read_status := int_or_zero (ReadStatus book_info);
                         KoboBook.percent_read := int_or_zero (PercentRead book_info);
                         KoboBook.date_last_read := DateLastRead book_info;
                         KoboBook.collections :=
                           _convert_collections self raw_collections |})
                   book_data)
        end
    end.

Definition get_rating_collections (self : KoboReader.t) : list string :=
  map fst (KoboReader.rating_collections self).

Definition with_reader (self : SyncEngine.t) (reader : KoboReader.t)
    (books : list KoboBook.t) : SyncEngine.t :=
  {| SyncEngine.kobo_reader := Some reader;
     SyncEngine.library_manager := SyncEngine.library_manager self;
     SyncEngine.book_matcher := SyncEngine.book_matcher self;
     SyncEngine.calibre_updater := SyncEngine.calibre_updater self;
     SyncEngine.kobo_books := books;
     SyncEngine.libraries := SyncEngine.libraries self;
     SyncEngine.matches := SyncEngine.matches self;
     SyncEngine.unmatched_books := SyncEngine.unmatched_books self;
     SyncEngine.conflicts := SyncEngine.conflicts self |}.

(** [load_kobo_data]: the reader is stored before the books are read, the
    books before they are checked. *)
Definition load_kobo_data (db : KoboDb) (self : SyncEngine.t)
    : Outcome (list KoboBook.t) * SyncEngine.t :=
  let kobo_db_path := configured_kobo_database_path db in
  let reader := KoboReader.init kobo_db_path in
  match get_books_with_collections db reader with
  | Raised e => (Raised e, with_reader self reader (SyncEngine.kobo_books self))
  | Returned books =>
      match books with
      | [] => (Raised (PlainException "No books found in Kobo database"),
               with_reader self reader books)
      | _ => (Returned books, with_reader self reader books)
      end
  end.

(* ===================================================================== *)
(** ** Notions the properties are stated with *)
(* ===================================================================== *)

(** *** Matching *)

(** Agreement of a store record with a source item on both normalised
    fields. *)
Definition row_agrees (kobo_book : KoboBook.t) (row : BookRow.t) : Prop :=
  normalize_title (KoboBook.title kobo_book) = normalize_title (BookRow.title row)
  /\ normalize_author (KoboBook.author kobo_book)
     = normalize_author (or_empty (BookRow.authors row)).

(** Agreement on the normalised title alone. *)
Definition title_agrees (kobo_book : KoboBook.t) (row : BookRow.t) : Prop :=
  normalize_title (KoboBook.title kobo_book) = normalize_title (BookRow.title row).

(** Agreement on the normalised author alone. *)
Definition author_agrees (kobo_book : KoboBook.t) (row : BookRow.t) : Prop :=
  normalize_author (KoboBook.author kobo_book)
  = normalize_author (or_empty (BookRow.authors row)).

(** The trace entry of one query of a store's books. *)
Definition query_event (library : CalibreLibrary.t) : Event :=
  EvQueryBooks (CalibreLibrary.metadata_db_path library).

(** The match built from a store record. *)
Definition match_of_row (kobo_book : KoboBook.t) (library : CalibreLibrary.t)
    (row : BookRow.t) : BookMatch.t :=
  {| BookMatch.kobo_book := kobo_book;
     BookMatch.calibre_book_id := BookRow.id row;
     BookMatch.calibre_title := BookRow.title row;
     BookMatch.calibre_authors := or_empty (BookRow.authors row);
     BookMatch.library := library;
     BookMatch.match_confidence := 1;
     BookMatch.match_type := "exact" |}.

(** How [match_all_books] files one item, given the matches found. *)
Definition single_of (kobo_book : KoboBook.t) (found : list BookMatch.t)
    : option BookMatch.t :=
  match found with [m] => Some m | _ => None end.

(** The conflict opened when two or more matches were found. *)
Definition conflict_of (kobo_book : KoboBook.t) (found : list BookMatch.t)
    : option BookConflict.t :=
  match found with
  | _ :: _ :: _ =>
      Some {| BookConflict.kobo_book := kobo_book;
              BookConflict.matches := found;
              BookConflict.resolution := None;
              BookConflict.chosen_library := None |}
  | _ => None
  end.

(** The item itself when nothing was found. *)
Definition unmatched_of (kobo_book : KoboBook.t) (found : list BookMatch.t)
    : option KoboBook.t :=
  match found with [] => Some kobo_book | _ => None end.

(** *** normalizeTitle as the specification words it *)

Module TitleSpec.

(** "lowercase" *)
Definition lowercase (s : string) : string := PyStr.map_chars PyStr.lower_char s.

(** "replace every character that is not [kept] with a space" *)
Definition blank_outside (kept : ascii -> bool) (s : string) : string :=
  PyStr.map_chars (fun c => if kept c then c else " "%char) s.

Definition starts_with_space (s : string) : bool :=
  match s with
  | EmptyString => false
  | String c _ => PyStr.is_space c
  end.

(** "collapse runs of whitespace to one space": a whitespace character
    followed by more whitespace disappears, the last one of a run becomes
    a space. *)
Fixpoint collapse_whitespace (s : string) : string :=
  match s with
  | EmptyString => EmptyString
  | String c r =>
      if PyStr.is_space c then
        if starts_with_space r then collapse_whitespace r
        else String " " (collapse_whitespace r)
      else String c (collapse_whitespace r)
  end.

(** "if the result starts with "the ", "a ", or "an ", strip that leading
    article (check in that priority order, stop at first match)" *)
Definition leading_article (s : string) : option string :=
  List.find (fun article => String.prefix article s) ["the "; "a "; "an "].

Definition strip_leading_article (s : string) : string :=
  match leading_article s with
  | Some article =>
      String.substring (String.length article)
        (String.length s - String.length article) s
  | None => s
  end.

Fixpoint drop_leading_space (l : list ascii) : list ascii :=
  match l with
  | [] => []
  | c :: r => if PyStr.is_space c then drop_leading_space r else l
  end.

(** "trim": whitespace is dropped from the front, and from the back. *)
Definition trim (s : string) : string :=
  string_of_list_ascii
    (rev (drop_leading_space (rev (drop_leading_space (list_ascii_of_string s))))).

Definition pipeline (kept : ascii -> bool) (s : string) : string :=
  trim (strip_leading_article
          (collapse_whitespace (blank_outside kept (lowercase s)))).

(** The characters the claim keeps: "a letter, digit, or whitespace". *)
Definition letter_digit_or_space (c : ascii) : bool :=
  PyStr.is_alpha c || PyStr.is_decimal c || PyStr.is_space c.

(** The characters the code keeps: alphanumerics, the underscore, and
    whitespace. *)
Definition word_or_space (c : ascii) : bool :=
  PyStr.is_alnum c || Ascii.eqb c "_" || PyStr.is_space c.

(** normalizeTitle as claimed. *)
Definition normalizeTitle_claimed : string -> string :=
  pipeline letter_digit_or_space.

(** normalizeTitle with the word characters kept. *)
Definition normalizeTitle_word : string -> string :=
  pipeline word_or_space.

End TitleSpec.

(** *** Strings *)

(** A string without its first character. *)
Definition tail_string (s : string) : string :=
  match s with
  | EmptyString => EmptyString
  | String _ r => r
  end.

(** The string consists of whitespace only. *)
Fixpoint all_space (s : string) : bool :=
  match s with
  | EmptyString => true
  | String c r => PyStr.is_space c && all_space r
  end.

(** The string holds no vertical bar. *)
Fixpoint bar_free (s : string) : bool :=
  match s with
  | EmptyString => true
  | String c r => negb (Ascii.eqb c "|") && bar_free r
  end.

(** *** Classification of collections *)

(** A label is taken as a rating. *)
Definition is_rating_label (col : string) : bool :=
  PyStr.in_list (PyStr.strip (PyStr.lower col)) (map PyStr.lower rating_patterns).

(** The value written for a rating label. *)
Definition canonical_rating (col : string) : string :=
  rating_clean_name (PyStr.strip (PyStr.lower col)).

(** The value written for a genre label. *)
Definition genre_clean (col : string) : string :=
  PyStr.strip (PyStr.replace "| " "" col).

(** A label is taken as a genre. *)
Definition is_genre_label (col : string) : bool :=
  negb (PyStr.in_list (PyStr.lower (genre_clean col)) genre_excluded).


(** *** A concrete world to run the pipeline in *)

Module Demo.

(** One Calibre library on disk: its folder, its metadata file, the rows
    of the books query, the labels of its custom columns, and whether the
    custom-columns table can be read. *)
Record Store : Type := mkStore {
  folder : string;
  db_file : string;
  rows : list BookRow.t;
  columns : list string;
  columns_readable : bool
}.

Record DemoWorld : Type := mkWorld {
  stores : list Store;
  clock : string
}.

Definition store_at (w : DemoWorld) (p : string) : option Store :=
  List.find (fun st => String.eqb (folder st) p) (stores w).

Definition store_of_db (w : DemoWorld) (db : string) : option Store :=
  List.find (fun st => String.eqb (db_file st) db) (stores w).

Definition add_column (p label : string) (w : DemoWorld) : DemoWorld :=
  {| stores :=
       map (fun st =>
              if String.eqb (folder st) p
              then {| folder := folder st; db_file := db_file st; rows := rows st;
                      columns := columns st ++ [label];
                      columns_readable := columns_readable st |}
              else st) (stores w);
     clock := clock w |}.

Definition exit_with (code : Z) (err : string) : RunResult :=
  Completed {| returncode := code; stdout := ""; stderr := err |}.

(** [calibredb]: [list] succeeds on a known folder; [add_custom_column]
    creates a missing column and refuses an existing one with an
    "already exists" diagnostic; [set_metadata] succeeds on a known
    folder.  Anything else cannot be started. *)
Definition calibredb (w : DemoWorld) (argv : list string) : RunResult * DemoWorld :=
  match argv with
  | _ :: command :: _ :: p :: args =>
      match store_at w p with
      | None => (exit_with 1 "Error: no library at this path", w)
      | Some st =>
          if String.eqb command "list" then (exit_with 0 "", w)
          else if String.eqb command "set_metadata" then (exit_with 0 "", w)
          else if String.eqb command "add_custom_column" then
            match args with
            | label :: _ =>
                if PyStr.in_list label (columns st)
                then (exit_with 1 ("Error: A column with label " +:+ label
                                   +:+ " Already Exists"), w)
                else (exit_with 0 "", add_column p label w)
            | [] => (exit_with 2 "usage", w)
            end
          else (exit_with 2 "usage", w)
      end
  | _ => (RunRaised, w)
  end.

Definition env : Env :=
  {| World := DemoWorld;
     sqlite_books := fun w db =>
       match store_of_db w db with Some st => Some (rows st) | None => None end;
     sqlite_custom_columns := fun w db =>
       match store_of_db w db with
       | Some st =>
           if columns_readable st
           then Some (map (fun label => (label, label)) (columns st))
           else None
       | None => None
       end;
     subprocess_run := calibredb;
     shutil_copy2 := fun w src dst =>
       (match store_of_db w src with Some _ => true | None => false end, w);
     strftime_now := clock |}.

Definition start (w : DemoWorld) : @Sys env := @mkSys env w [].

Definition updater : CalibreUpdater.t :=
  {| CalibreUpdater.backup_dir := "backups";
     CalibreUpdater.calibredb_path := "calibredb" |}.

Definition library_at (name folder : string) (primary : bool) : CalibreLibrary.t :=
  {| CalibreLibrary.name := name;
     CalibreLibrary.path := folder;
     CalibreLibrary.metadata_db_path := folder +:+ "/metadata.db";
     CalibreLibrary.is_primary := primary |}.

Definition store_for (library : CalibreLibrary.t) (rows : list BookRow.t)
    (columns : list string) (readable : bool) : Store :=
  {| folder := CalibreLibrary.path library;
     db_file := CalibreLibrary.metadata_db_path library;
     rows := rows; columns := columns; columns_readable := readable |}.

Definition book (id title author : string) (collections : list string) : KoboBook.t :=
  {| KoboBook.content_id := id; KoboBook.title := title; KoboBook.author := author;
     KoboBook.read_status := 0; KoboBook.percent_read := 0;
     KoboBook.date_last_read := None; KoboBook.collections := collections |}.

Definition matched (b : KoboBook.t) (id : Z) (library : CalibreLibrary.t) : BookMatch.t :=
  {| BookMatch.kobo_book := b; BookMatch.calibre_book_id := id;
     BookMatch.calibre_title := KoboBook.title b;
     BookMatch.calibre_authors := KoboBook.author b;
     BookMatch.library := library;
     BookMatch.match_confidence := 1; BookMatch.match_type := "exact" |}.

Definition engine (reader : option KoboReader.t) (books : list KoboBook.t)
    (libraries : list CalibreLibrary.t) (matches : list BookMatch.t) : SyncEngine.t :=
  {| SyncEngine.kobo_reader := reader;
     SyncEngine.library_manager :=
       {| LibraryManager.libraries := libraries;
          LibraryManager.primary_library :=
            List.find CalibreLibrary.is_primary libraries |};
     SyncEngine.book_matcher := None;
     SyncEngine.calibre_updater := updater;
     SyncEngine.kobo_books := books;
     SyncEngine.libraries := libraries;
     SyncEngine.matches := matches;
     SyncEngine.unmatched_books := [];
     SyncEngine.conflicts := [] |}.

(** The end-to-end scenario of the specification. *)
Definition mcr : CalibreLibrary.t := library_at "MCR" "/lib/MCR" true.

Definition unison : KoboBook.t :=
  book "b1" "You and I in Unison" "0P3NY0UR3Y3SANDL00KN0RTH"
       ["Evergreen"; "sweet fluff"; "killjoys"].

Definition unison_row : BookRow.t :=
  {| BookRow.id := 7; BookRow.title := "You and I in Unison";
     BookRow.authors := Some "0p3ny0ur3y3sandl00kn0rth" |}.

Definition unison_world : DemoWorld :=
  {| stores := [store_for mcr [unison_row] [] true]; clock := "20240101_120000" |}.

(** Two secondary libraries that both hold the book of the scenario. *)
Definition shelf_a : CalibreLibrary.t := library_at "ShelfA" "/lib/ShelfA" false.
Definition shelf_b : CalibreLibrary.t := library_at "ShelfB" "/lib/ShelfB" false.

Definition three_stores : DemoWorld :=
  {| stores := [store_for mcr [unison_row] [] true;
                store_for shelf_a [unison_row] [] true;
                store_for shelf_b [unison_row] [] true];
     clock := "20240101_120000" |}.

(** Two libraries in folders of the same name. *)
Definition books_a : CalibreLibrary.t := library_at "Books" "/a/Books" false.
Definition books_b : CalibreLibrary.t := library_at "Books" "/b/Books" false.

(** Both exist on disk, each with the two columns already in place. *)
Definition two_books_world : DemoWorld :=
  {| stores := [store_for books_a [] ["myratings"; "my_genres"] true;
                store_for books_b [] ["myratings"; "my_genres"] true];
     clock := "20240101_120000" |}.

(** One match in each of them. *)
Definition tagged_a : BookMatch.t :=
  matched (book "a1" "Alpha" "Ann" ["fantasy"]) 1 books_a.
Definition tagged_b : BookMatch.t :=
  matched (book "b1" "Beta" "Bob" ["horror"]) 2 books_b.

End Demo.

(** *** Orchestrator and update applier *)

(** The texts of the three precondition errors. *)
Definition no_books_message : string :=
  "No Kobo books loaded. Call load_kobo_data() first.".
Definition no_libraries_message : string :=
  "No libraries discovered. Call discover_libraries() first.".
Definition no_matches_message : string :=
  "No book matches found. Call match_books() first.".

(** The number of matches held by a [by_library] dictionary. *)
Definition partition_size (d : ByLibrary) : nat :=
  sum_list (map (fun entry => length (group_matches (snd entry))) d).

(** The command is a column creation. *)
Definition is_add_column (argv : list string) : bool :=
  match argv with
  | _ :: command :: _ => String.eqb command "add_custom_column"
  | _ => false
  end.

(** The tool reports the column created (exit code 0) or already there
    (another exit code with "already exists" in its diagnostics). *)
Definition created_or_exists (res : RunResult) : bool :=
  match res with
  | Completed r =>
      (returncode r =? 0)%Z
      || PyStr.contains "already exists" (PyStr.lower (stderr r))
  | TimeoutExpired => false
  | RunRaised => false
  end.

(** Every column creation among the events got such an answer. *)
Definition creations_accepted (events : list Event) : bool :=
  forallb
    (fun e =>
       match e with
       | EvRun argv res => implb (is_add_column argv) (created_or_exists res)
       | _ => true
       end)
    events.

(** The command line of [create_custom_column]. *)
Definition add_column_argv (self : CalibreUpdater.t) (library : CalibreLibrary.t)
    (column_name display_name : string) : list string :=
  [CalibreUpdater.calibredb_path self; "add_custom_column";
   "--library-path"; CalibreLibrary.path library;
   column_name; display_name; "text"; "--display"; "{}"; "--is-multiple"].

(** A library whose custom-columns table cannot be read: both
    invocations try to create both columns. *)
Definition unreadable_world : Demo.DemoWorld :=
  {| Demo.stores := [Demo.store_for Demo.mcr [] [] false];
     Demo.clock := "20240101_120000" |}.

(** The event is a [calibredb] command that changes the library in
    folder [p]: a column creation or a field write. *)
Definition mutates_folder (p : string) (e : Event) : bool :=
  match e with
  | EvRun (_ :: command :: _ :: p' :: _) _ =>
      (String.eqb command "add_custom_column" || String.eqb command "set_metadata")
      && String.eqb p' p
  | _ => false
  end.

(** The event is a field write. *)
Definition is_field_write (e : Event) : bool :=
  match e with
  | EvRun (_ :: command :: _) _ => String.eqb command "set_metadata"
  | _ => false
  end.

(** The event is a successful copy of the metadata file [db]. *)
Definition backs_up_file (db : string) (e : Event) : bool :=
  match e with
  | EvCopy2 src _ ok => ok && String.eqb src db
  | _ => false
  end.

(** No event of the trace changes the library before its metadata file
    has been copied successfully; [backed_up] tells whether that has
    happened before the trace starts. *)
Fixpoint backup_precedes_mutation (library : CalibreLibrary.t) (backed_up : bool)
    (events : list Event) : bool :=
  match events with
  | [] => true
  | e :: rest =>
      (negb (mutates_folder (CalibreLibrary.path library) e) || backed_up)
      && backup_precedes_mutation library
           (backed_up || backs_up_file (CalibreLibrary.metadata_db_path library) e)
           rest
  end.

(** The command line of [test_calibredb_connection]. *)
Definition list_argv (self : CalibreUpdater.t) (library : CalibreLibrary.t)
    : list string :=
  [CalibreUpdater.calibredb_path self; "list"; "--library-path";
   CalibreLibrary.path library; "--limit"; "1"].

(** The probe's verdict on an answer of the tool. *)
Definition connection_ok (res : RunResult) : bool :=
  match res with
  | Completed r => (returncode r =? 0)%Z
  | TimeoutExpired => false
  | RunRaised => false
  end.

(** Where [backup_library] copies the metadata file to. *)
Definition backup_path (self : CalibreUpdater.t) (library : CalibreLibrary.t)
    (timestamp : string) : string :=
  CalibreUpdater.backup_dir self +:+ "/" +:+
  (CalibreLibrary.name library +:+ "_metadata_" +:+ timestamp +:+ ".db").

(** The library folder a [calibredb] command is aimed at. *)
Definition event_folder (e : Event) : option string :=
  match e with
  | EvRun (_ :: _ :: _ :: p :: _) _ => Some p
  | _ => None
  end.

(** The event is aimed at folder [p], or at no folder. *)
Definition aimed_at_or_nowhere (p : string) (e : Event) : Prop :=
  event_folder e = Some p \/ event_folder e = None.

(** Readings of a run that depend on the world. *)
Section Readings.

Context {E : Env}.

(** The match found for an item in one store, in world [w]. *)
Definition found_in (w : World E) (kobo_book : KoboBook.t)
    (library : CalibreLibrary.t) : option BookMatch.t :=
  fst (find_book_in_library kobo_book library {| world := w; trace := [] |}).

(** The match found in the primary store, if there is a primary store. *)
Definition primary_found (w : World E) (lm : LibraryManager.t)
    (kobo_book : KoboBook.t) : option BookMatch.t :=
  match LibraryManager.get_primary_library lm with
  | Some p => found_in w kobo_book p
  | None => None
  end.

(** The matches found among the secondary stores, in store order. *)
Definition secondary_found (w : World E) (lm : LibraryManager.t)
    (kobo_book : KoboBook.t) : list BookMatch.t :=
  omap (found_in w kobo_book) (LibraryManager.get_secondary_libraries lm).

(** The matches [find_book_across_libraries] returns, as a function of the
    world alone. *)
Definition across_found (w : World E) (lm : LibraryManager.t)
    (kobo_book : KoboBook.t) : list BookMatch.t :=
  match primary_found w lm kobo_book with
  | Some m => [m]
  | None => secondary_found w lm kobo_book
  end.

(** The events recorded between two states. *)
Definition events_since (s s' : @Sys E) : list Event :=
  drop (length (trace s)) (trace s').

(** What [check_custom_columns] reads in a world. *)
Definition columns_found (w : World E) (library : CalibreLibrary.t) : ColumnCheck :=
  match sqlite_custom_columns E w (CalibreLibrary.metadata_db_path library) with
  | Some existing_columns =>
      {| my_ratings := PyStr.in_list "myratings" (map fst existing_columns);
         my_genres := PyStr.in_list "my_genres" (map fst existing_columns) |}
  | None => {| my_ratings := false; my_genres := false |}
  end.

(** The three checks [bulk_update] makes before it writes to a library. *)
Definition prepare_library (self : CalibreUpdater.t) (library : CalibreLibrary.t)
    : @M E bool :=
  bind (test_calibredb_connection self library) (fun connected =>
    if negb connected then ret false
    else bind (backup_library self library) (fun backed_up =>
      if negb backed_up then ret false
      else ensure_custom_columns self library)).

(** Every event a computation records satisfies [P]. *)
Definition emits {A : Type} (P : Event -> Prop) (c : @M E A) : Prop :=
  forall s, exists evs, trace (snd (c s)) = trace s ++ evs /\ Forall P evs.

(** The state [process_libraries] is in once it has dealt with one
    partition. *)
Definition after_partition (self : CalibreUpdater.t)
    (group : BookMatch.t * list BookMatch.t) (stats : Stats) (s : @Sys E) : @Sys E :=
  let prepared := prepare_library self (BookMatch.library (fst group)) s in
  if fst prepared
  then snd (update_each self (group_matches group) stats (snd prepared))
  else snd prepared.

(** The partition holds matches of one library, and that library is the
    only one among them in its folder as far as [library] is concerned. *)
Definition partition_of_one_library (library : CalibreLibrary.t)
    (entry : string * (BookMatch.t * list BookMatch.t)) : Prop :=
  Forall (fun m => BookMatch.library m = BookMatch.library (fst (snd entry)))
         (group_matches (snd entry))
  /\ (CalibreLibrary.path (BookMatch.library (fst (snd entry)))
      = CalibreLibrary.path library ->
      BookMatch.library (fst (snd entry)) = library).

End Readings.

(** *** Matches and what they are built from *)

(** The match was built from a record the library's store holds in world
    [w], and that record agrees with the item on both normalised fields. *)
Definition built_from_store {E : Env} (w : World E) (m : BookMatch.t) : Prop :=
  exists rows row,
    sqlite_books E w (CalibreLibrary.metadata_db_path (BookMatch.library m)) = Some rows
    /\ row ∈ rows
    /\ row_agrees (BookMatch.kobo_book m) row
    /\ m = match_of_row (BookMatch.kobo_book m) (BookMatch.library m) row.

(** The two normalised fields of the item and of the record kept in the
    match are equal, and the match is marked exact with confidence 1. *)
Definition exact_match (m : BookMatch.t) : Prop :=
  normalize_title (KoboBook.title (BookMatch.kobo_book m))
  = normalize_title (BookMatch.calibre_title m)
  /\ normalize_author (KoboBook.author (BookMatch.kobo_book m))
     = normalize_author (BookMatch.calibre_authors m)
  /\ BookMatch.match_type m = "exact"
  /\ BookMatch.match_confidence m = 1%Z.

(** How many matches the search finds for an item. *)
Definition found_count {E : Env} (w : World E) (lm : LibraryManager.t)
    (kobo_book : KoboBook.t) : nat :=
  length (across_found w lm kobo_book).

(** *** Grouping by library name *)

(** The matches whose library bears the name [name], in order. *)
Definition matches_named (name : string) (matches : list BookMatch.t)
    : list BookMatch.t :=
  List.filter
    (fun m => String.eqb (CalibreLibrary.name (BookMatch.library m)) name) matches.

(** The names of a list without repetitions, each at the place where it
    first appears. *)
Fixpoint first_appearances (names : list string) : list string :=
  match names with
  | [] => []
  | name :: rest =>
      name :: List.filter (fun other => negb (String.eqb other name))
                          (first_appearances rest)
  end.

(** A [by_library] dictionary as the list of its items. *)
Definition items (d : ByLibrary) : list (string * list BookMatch.t) :=
  map (fun entry => (fst entry, group_matches (snd entry))) d.

(** *** Commands and their answers *)

(** The command lines among the events, in order. *)
Definition commands (events : list Event) : list (list string) :=
  omap (fun e => match e with EvRun argv _ => Some argv | _ => None end) events.

(** The event is a command the tool answered with exit code 0 (an event
    that is no command counts as accepted). *)
Definition event_accepted (e : Event) : bool :=
  match e with
  | EvRun _ res => connection_ok res
  | _ => true
  end.


(** The command line of [_update_custom_column]. *)
Definition set_metadata_argv (self : CalibreUpdater.t) (library : CalibreLibrary.t)
    (book_id : Z) (column : string) (values : list string) : list string :=
  [CalibreUpdater.calibredb_path self; "set_metadata";
   "--library-path"; CalibreLibrary.path library;
   PyStr.str_of_int book_id;
   "--field"; "#" +:+ column +:+ ":" +:+ PyStr.join "," values].

(** The field writes a match calls for: one for the ratings when there
    are any, then one for the genres when there are any. *)
Definition planned_writes (self : CalibreUpdater.t) (m : BookMatch.t)
    : list (list string) :=
  let collections := KoboBook.collections (BookMatch.kobo_book m) in
  (match _get_rating_collections collections with
   | [] => []
   | ratings => [set_metadata_argv self (BookMatch.library m)
                   (BookMatch.calibre_book_id m) "myratings" ratings]
   end)
  ++
  (match _get_genre_collections collections with
   | [] => []
   | genres => [set_metadata_argv self (BookMatch.library m)
                  (BookMatch.calibre_book_id m) "my_genres" genres]
   end).

(** The column creations a library calls for, given what the column
    check found. *)
Definition planned_creations (self : CalibreUpdater.t) (library : CalibreLibrary.t)
    (found : ColumnCheck) : list (list string) :=
  (if my_ratings found then []
   else [add_column_argv self library "myratings" "My Ratings"])
  ++
  (if my_genres found then []
   else [add_column_argv self library "my_genres" "My Genres"]).

(** The command is a connection probe. *)
Definition is_probe (argv : list string) : bool :=
  match argv with
  | _ :: command :: _ => String.eqb command "list"
  | _ => false
  end.

(** The event is a connection probe that failed. *)
Definition is_refused_probe (e : Event) : bool :=
  match e with
  | EvRun argv res => is_probe argv && negb (connection_ok res)
  | _ => false
  end.

(** No connection probe among the events succeeded. *)
Definition probes_refused (events : list Event) : bool :=
  forallb
    (fun e =>
       match e with
       | EvRun argv res => implb (is_probe argv) (negb (connection_ok res))
       | _ => true
       end)
    events.

(** Any event at all. *)
Definition any_event (e : Event) : Prop := True.



(** A world in which no library exists on disk. *)
Definition empty_world : Demo.DemoWorld :=
  {| Demo.stores := []; Demo.clock := "20240101_120000" |}.

(** *** Conflict dialogs *)

(** Every character of the string satisfies [p]. *)
Fixpoint all_chars (p : ascii -> bool) (s : string) : bool :=
  match s with
  | EmptyString => true
  | String c r => p c && all_chars p r
  end.

(** What the user can do with one conflict dialog: close the window,
    press OK with no radio button selected, or with "skip", "all" or the
    button of the library at position [i] selected, or press "Skip All
    Conflicts". *)
Inductive Answer : Type :=
| WindowClosed
| NothingSelected
| Skip
| SkipAll
| AllLibraries
| LibraryAt (i : nat).

(** The value of the radio button of the library at position [i]:
    [f"library_{i}"]. *)
Definition library_choice (i : nat) : string :=
  "library_" +:+ PyStr.str_of_int (Z.of_nat i).

(** What the dialog leaves in [result["action"]]. *)
Definition action_of (a : Answer) : option string :=
  match a with
  | WindowClosed => None
  | NothingSelected => Some ""
  | Skip => Some "skip"
  | SkipAll => Some "skip_all"
  | AllLibraries => Some "all"
  | LibraryAt i => Some (library_choice i)
  end.

(** The dialog of the conflict has a button for the answer. *)
Definition offered (conflict : BookConflict.t) (a : Answer) : Prop :=
  match a with
  | LibraryAt i => i < length (BookConflict.matches conflict)
  | _ => True
  end.

(** The matches an answer selects. *)
Definition selected (conflict : BookConflict.t) (a : Answer) : list BookMatch.t :=
  match a with
  | AllLibraries => BookConflict.matches conflict
  | LibraryAt i =>
      match nth_error (BookConflict.matches conflict) i with
      | Some m => [m]
      | None => []
      end
  | _ => []
  end.

(** The matches selected up to the first "Skip All Conflicts"; the
    dialogs are numbered from [k]. *)
Fixpoint selection (answers : nat -> BookConflict.t -> Answer) (k : nat)
    (conflicts : list BookConflict.t) : list BookMatch.t :=
  match conflicts with
  | [] => []
  | conflict :: rest =>
      match answers k conflict with
      | SkipAll => []
      | a => selected conflict a ++ selection answers (S k) rest
      end
  end.

(** A conflict between the two shelves of the demonstration. *)
Definition shelf_conflict : BookConflict.t :=
  {| BookConflict.kobo_book := Demo.unison;
     BookConflict.matches := [Demo.matched Demo.unison 7 Demo.shelf_a;
                              Demo.matched Demo.unison 9 Demo.shelf_b];
     BookConflict.resolution := None;
     BookConflict.chosen_library := None |}.

(** *** Discovery *)

(** The library's name marks it as the primary one. *)
Definition named_mcr (library : CalibreLibrary.t) : bool :=
  PyStr.contains "mcr" (PyStr.lower (CalibreLibrary.name library)).

(** What discovery accepts as a library: a folder that is neither a
    backup nor temporary and holds a metadata file with a books table. *)
Definition accepted_folder (fs : Fs) (library : CalibreLibrary.t) : Prop :=
  is_backup_or_temporary (CalibreLibrary.path library) = false
  /\ _is_valid_calibre_library fs (CalibreLibrary.path library) = true.

(** The state of the scan is consistent: the libraries found so far are
    in distinct accepted folders, none is primary, and [seen_paths] holds
    their folders. *)
Definition scan_consistent (fs : Fs)
    (state : list CalibreLibrary.t * gset string) : Prop :=
  NoDup (map CalibreLibrary.path (fst state))
  /\ (forall p, p ∈ snd state <-> p ∈ map CalibreLibrary.path (fst state))
  /\ Forall (accepted_folder fs) (fst state)
  /\ Forall (fun library => CalibreLibrary.is_primary library = false) (fst state).

(** *** Lookup by name *)

(** The two names are equal when case is ignored. *)
Definition same_name (a b : string) : bool :=
  String.eqb (PyStr.lower a) (PyStr.lower b).

(** The library [add_library] builds. *)
Definition added_library (name path : string) : CalibreLibrary.t :=
  {| CalibreLibrary.name := name;
     CalibreLibrary.path := path;
     CalibreLibrary.metadata_db_path := metadata_db_of path;
     CalibreLibrary.is_primary := false |}.

(** *** The source database *)

(** The shelves of a book among the rows of the membership query, in the
    order of the rows. *)
Definition shelves_of (content_id : string) (shelf_rows : list (string * string))
    : list string :=
  map snd (List.filter (fun row => String.eqb (fst row) content_id) shelf_rows).

(** A database of two books, one of them on two shelves. *)
Definition two_books_db : KoboDb :=
  {| configured_kobo_database_path := "KoboReader.sqlite";
     kobo_file_exists := fun p => String.eqb p "KoboReader.sqlite";
     select_books := fun _ =>
       Some [{| ContentID := "b1"; Title := Some "Alpha"; Attribution := Some "Ann";
                ReadStatus := Some 2%Z; PercentRead := Some 100%Z;
                DateLastRead := None |};
             {| ContentID := "b2"; Title := Some "Beta"; Attribution := None;
                ReadStatus := None; PercentRead := None; DateLastRead := None |}];
     select_shelf_content := fun _ =>
       Some [("b1", "fantasy"); ("b1", "| good")] |}.

(** An engine before any stage has run. *)
Definition fresh_engine : SyncEngine.t := Demo.engine None [] [] [].

(** The display name of one shelf: a rating shelf is renamed, any other
    keeps its name. *)
Definition display_name (self : KoboReader.t) (collection : string) : string :=
  match dict_get collection (KoboReader.rating_collections self) with
  | Some display => display
  | None => collection
  end.

(** The message of the error raised when the source holds no book. *)
Definition no_books_found : string := "No books found in Kobo database".

(** *** The shape of a normalised title *)

(** A character a normalised title can hold: a word character that
    lower-casing leaves as it is, or a space. *)
Definition title_char (c : ascii) : bool :=
  (PyStr.is_word c && Ascii.eqb (PyStr.lower_char c) c) || Ascii.eqb c " ".

(** A lower-cased character the first substitution leaves in place. *)
Definition kept_char (c : ascii) : bool :=
  Ascii.eqb (PyStr.lower_char c) c && (PyStr.is_word c || PyStr.is_space c).

(** No whitespace character follows another one; [after_space] tells
    whether the string comes after a whitespace character. *)
Fixpoint single_spaced (after_space : bool) (s : string) : bool :=
  match s with
  | EmptyString => true
  | String c r =>
      if PyStr.is_space c then negb after_space && single_spaced true r
      else single_spaced false r
  end.

(** *** Author names *)

(** The string holds no comma. *)
Definition comma_free (s : string) : bool :=
  all_chars (fun c => negb (Ascii.eqb c ",")) s.

(** [re.sub(r'\s+', ' ', s)], started inside a run or not. *)
Definition collapse (in_run : bool) (s : string) : string :=
  PyStr.re_sub_runs PyStr.is_space " " in_run s.

(** *** What a run may touch *)

(** The event is a call [bulk_update] makes for a library: a command of
    the tool aimed at its folder, a copy of its metadata file to a backup
    path of the updater, or a read of the custom columns of its metadata
    file. *)
Definition concerns (self : CalibreUpdater.t) (library : CalibreLibrary.t)
    (e : Event) : Prop :=
  match e with
  | EvRun argv _ =>
      head argv = Some (CalibreUpdater.calibredb_path self)
      /\ event_folder e = Some (CalibreLibrary.path library)
  | EvCopy2 src dst _ =>
      src = CalibreLibrary.metadata_db_path library
      /\ exists timestamp, dst = backup_path self library timestamp
  | EvQueryColumns db => db = CalibreLibrary.metadata_db_path library
  | EvQueryBooks _ => False
  end.

(** The event concerns the library of one of the matches. *)
Definition concerns_a_match (self : CalibreUpdater.t) (matches : list BookMatch.t)
    (e : Event) : Prop :=
  exists m, m ∈ matches /\ concerns self (BookMatch.library m) e.


(** The call behind the event went well: a command ended with exit code
    0, a copy was made. *)
Definition event_ok (e : Event) : bool :=
  match e with
  | EvRun _ res => connection_ok res
  | EvCopy2 _ _ ok => ok
  | _ => true
  end.

(* ===================================================================== *)
(** ** Worked examples *)
(* ===================================================================== *)

Example normalize_title_desert :
  normalize_title "The Desert Here and the Desert Far Away"
  = "desert here and the desert far away".
Proof. reflexivity. Qed.

Example normalize_author_smith : normalize_author "Smith, Jane" = "jane smith".
Proof. reflexivity. Qed.

Example normalize_title_underscore : normalize_title "a_b" = "a_b".
Proof. reflexivity. Qed.

Example classify_unison :
  _get_rating_collections ["Evergreen"; "sweet fluff"; "killjoys"] = ["Evergreen"]
  /\ _get_genre_collections ["Evergreen"; "sweet fluff"; "killjoys"]
     = ["sweet fluff"; "killjoys"].
Proof. split; reflexivity. Qed.

(* ===================================================================== *)
(** ** The queries, as pure readings of the world *)
(* ===================================================================== *)

Section Matching.

Context {E : Env}.

Lemma find_book_in_library_run kobo_book library (s : @Sys E) :
  find_book_in_library kobo_book library s
  = (found_in (world s) kobo_book library, emit (query_event library) s).
Proof.
  unfold found_in, find_book_in_library, bind, query_books, ret; simpl.
  destruct (sqlite_books E (world s) _); reflexivity.
Qed.

Lemma search_secondary_run kobo_book libs : forall acc (s : @Sys E),
  search_secondary kobo_book libs acc s
  = (acc ++ omap (found_in (world s) kobo_book) libs,
     {| world := world s; trace := trace s ++ map query_event libs |}).
Proof.
  induction libs as [|lib libs IH]; intros acc s; simpl.
  - unfold ret. rewrite !app_nil_r. destruct s; reflexivity.
  - unfold bind. rewrite find_book_in_library_run.
    destruct (found_in (world s) kobo_book lib) as [m|]; rewrite IH; simpl;
      rewrite <- ?app_assoc; reflexivity.
Qed.

Lemma find_book_across_libraries_run lm kobo_book (s : @Sys E) :
  find_book_across_libraries lm kobo_book s
  = match LibraryManager.get_primary_library lm with
    | Some p =>
        match found_in (world s) kobo_book p with
        | Some m => ([m], emit (query_event p) s)
        | None =>
            (secondary_found (world s) lm kobo_book,
             {| world := world s;
                trace := trace s ++ query_event p ::
                         map query_event (LibraryManager.get_secondary_libraries lm) |})
        end
    | None =>
        (secondary_found (world s) lm kobo_book,
         {| world := world s;
            trace := trace s ++
                     map query_event (LibraryManager.get_secondary_libraries lm) |})
    end.
Proof.
  unfold find_book_across_libraries, secondary_found.
  destruct (LibraryManager.get_primary_library lm) as [p|].
  - unfold bind. rewrite find_book_in_library_run.
    destruct (found_in (world s) kobo_book p) as [m|]; [reflexivity|].
    rewrite search_secondary_run; simpl. rewrite <- app_assoc. reflexivity.
  - rewrite search_secondary_run. reflexivity.
Qed.

Lemma find_book_across_libraries_result lm kobo_book (s : @Sys E) :
  fst (find_book_across_libraries lm kobo_book s) = across_found (world s) lm kobo_book
  /\ world (snd (find_book_across_libraries lm kobo_book s)) = world s.
Proof.
  rewrite find_book_across_libraries_run. unfold across_found, primary_found.
  destruct (LibraryManager.get_primary_library lm) as [p|]; [|split; reflexivity].
  destruct (found_in (world s) kobo_book p); split; reflexivity.
Qed.

End Matching.

(* ===================================================================== *)
(** ** Match Engine: theorems *)
(* ===================================================================== *)

Section MatchingTheorems.

Context {E : Env}.

Lemma row_agrees_test kobo_book row :
  String.eqb (normalize_title (KoboBook.title kobo_book))
             (normalize_title (BookRow.title row))
  && String.eqb (normalize_author (KoboBook.author kobo_book))
                (normalize_author (or_empty (BookRow.authors row))) = true
  <-> row_agrees kobo_book row.
Proof.
  unfold row_agrees. rewrite andb_true_iff, !String.eqb_eq. reflexivity.
Qed.

Lemma first_exact_match_some kobo_book library rows m :
  first_exact_match kobo_book library
    (normalize_title (KoboBook.title kobo_book))
    (normalize_author (KoboBook.author kobo_book)) rows = Some m
  <-> exists before row after,
        rows = before ++ row :: after
        /\ (forall r, r ∈ before -> ~ row_agrees kobo_book r)
        /\ row_agrees kobo_book row
        /\ m = match_of_row kobo_book library row.
Proof.
  revert m. induction rows as [|r rows IH]; intros m; simpl.
  - split; [discriminate|]. intros (before & row & after & Heq & _).
    destruct before; discriminate.
  - destruct (String.eqb _ _ && String.eqb _ _) eqn:Htest.
    + apply row_agrees_test in Htest. split.
      * intros [= <-]. exists [], r, rows.
        split; [reflexivity|split; [|split; [exact Htest|reflexivity]]].
        intros r' Hin. inversion Hin.
      * intros (before & row & after & Heq & Hbefore & Hrow & ->).
        destruct before as [|b before]; simpl in Heq.
        -- injection Heq as -> _. reflexivity.
        -- injection Heq as -> _. exfalso. apply (Hbefore b); [left|assumption].
    + assert (Hno : ~ row_agrees kobo_book r).
      { intros H. apply row_agrees_test in H. congruence. }
      rewrite IH. split.
      * intros (before & row & after & -> & Hbefore & Hrow & ->).
        exists (r :: before), row, after.
        split; [reflexivity|split; [|split; [exact Hrow|reflexivity]]].
        intros r' Hin. apply elem_of_cons in Hin as [->|Hin]; auto.
      * intros (before & row & after & Heq & Hbefore & Hrow & ->).
        destruct before as [|b before]; simpl in Heq.
        -- injection Heq as <- _. contradiction.
        -- injection Heq as <- ->. exists before, row, after.
           split; [reflexivity|split; [|split; [exact Hrow|reflexivity]]].
           intros r' Hin. apply Hbefore. right. assumption.
Qed.

Lemma first_exact_match_none kobo_book library rows :
  first_exact_match kobo_book library
    (normalize_title (KoboBook.title kobo_book))
    (normalize_author (KoboBook.author kobo_book)) rows = None
  <-> forall r, r ∈ rows -> ~ row_agrees kobo_book r.
Proof.
  induction rows as [|r rows IH]; simpl.
  - split; [|reflexivity]. intros _ r Hin. inversion Hin.
  - destruct (String.eqb _ _ && String.eqb _ _) eqn:Htest.
    + apply row_agrees_test in Htest. split; [discriminate|].
      intros H. exfalso. apply (H r); [left|assumption].
    + rewrite IH. split.
      * intros H r' Hin. apply elem_of_cons in Hin as [->|Hin]; auto.
        intros Hr. apply row_agrees_test in Hr. congruence.
      * intros H r' Hin. apply H. right. assumption.
Qed.

Lemma found_in_unfold (w : World E) kobo_book library :
  found_in w kobo_book library
  = match sqlite_books E w (CalibreLibrary.metadata_db_path library) with
    | Some rows =>
        first_exact_match kobo_book library
          (normalize_title (KoboBook.title kobo_book))
          (normalize_author (KoboBook.author kobo_book)) rows
    | None => None
    end.
Proof.
  unfold found_in, find_book_in_library, bind, query_books, ret; simpl.
  destruct (sqlite_books E w _); reflexivity.
Qed.

(** C3. [find_book_in_library] returns a match exactly when the store's
    records contain one whose normalised title and normalised author both
    equal the item's; the match returned is built from the first such
    record and its kind is "exact"; records that agree on the title only
    or on the author only never produce a match. *)
Theorem find_book_in_library_exact_iff
    (kobo_book : KoboBook.t) (library : CalibreLibrary.t) (s : @Sys E) :
  let found := fst (find_book_in_library kobo_book library s) in
  let stored :=
    sqlite_books E (world s) (CalibreLibrary.metadata_db_path library) in
  (is_Some found <->
     exists rows row, stored = Some rows /\ row ∈ rows /\ row_agrees kobo_book row)
  /\ (forall m, found = Some m <->
        exists rows before row after,
          stored = Some rows /\ rows = before ++ row :: after
          /\ (forall r, r ∈ before -> ~ row_agrees kobo_book r)
          /\ row_agrees kobo_book row
          /\ m = match_of_row kobo_book library row)
  /\ (forall m, found = Some m -> BookMatch.match_type m = "exact")
  /\ (forall rows, stored = Some rows ->
        (forall row, row ∈ rows ->
           ~ (title_agrees kobo_book row /\ author_agrees kobo_book row)) ->
        found = None).
Proof.
  cbv zeta. rewrite find_book_in_library_run; simpl. rewrite found_in_unfold.
  destruct (sqlite_books E (world s) _) as [rows|].
  - assert (Hsome : forall m,
      first_exact_match kobo_book library
        (normalize_title (KoboBook.title kobo_book))
        (normalize_author (KoboBook.author kobo_book)) rows = Some m
      <-> exists rows0 before row after,
            Some rows = Some rows0 /\ rows0 = before ++ row :: after
            /\ (forall r, r ∈ before -> ~ row_agrees kobo_book r)
            /\ row_agrees kobo_book row
            /\ m = match_of_row kobo_book library row).
    { intros m. rewrite first_exact_match_some. split.
      - intros (b & r & a & H). exists rows, b, r, a. split; [reflexivity|exact H].
      - intros (rows0 & b & r & a & [= <-] & H). exists b, r, a. exact H. }
    split; [|split; [exact Hsome|split]].
    + split.
      * intros [m Hm]. apply Hsome in Hm as (rows0 & b & r & a & [= <-] & -> & _ & Hr & _).
        exists (b ++ r :: a), r. split; [reflexivity|split; [|exact Hr]].
        apply elem_of_app. right. left.
      * intros (rows0 & row & [= <-] & Hin & Hrow).
        destruct (first_exact_match _ _ _ _ rows) as [m|] eqn:Hf; [eexists; reflexivity|].
        exfalso. rewrite first_exact_match_none in Hf. exact (Hf row Hin Hrow).
    + intros m Hm. apply Hsome in Hm as (_ & _ & r & _ & _ & _ & _ & _ & ->).
      reflexivity.
    + intros rows0 [= <-] Hno. apply first_exact_match_none. exact Hno.
  - split; [|split; [|split]].
    + split; [intros [m Hm]; discriminate|]. intros (rows & row & Hs & _). discriminate.
    + intros m. split; [discriminate|]. intros (rows & b & r & a & Hs & _). discriminate.
    + discriminate.
    + reflexivity.
Qed.

(** C2. When the primary store yields a match, [find_book_across_libraries]
    returns that match alone and the only query issued is the one against
    the primary store; when the primary store yields none (or there is no
    primary store), every secondary store is queried, in order, and the
    matches they yield are all returned. *)
Theorem find_book_across_libraries_short_circuit
    (lm : LibraryManager.t) (kobo_book : KoboBook.t) (s : @Sys E) :
  let out := find_book_across_libraries lm kobo_book s in
  let secondary := LibraryManager.get_secondary_libraries lm in
  match LibraryManager.get_primary_library lm with
  | Some p =>
      match fst (find_book_in_library kobo_book p s) with
      | Some m =>
          fst out = [m] /\ trace (snd out) = trace s ++ [query_event p]
      | None =>
          fst out = omap (found_in (world s) kobo_book) secondary
          /\ trace (snd out)
             = trace s ++ query_event p :: map query_event secondary
      end
  | None =>
      fst out = omap (found_in (world s) kobo_book) secondary
      /\ trace (snd out) = trace s ++ map query_event secondary
  end.
Proof.
  cbv zeta. rewrite find_book_across_libraries_run.
  destruct (LibraryManager.get_primary_library lm) as [p|]; [|split; reflexivity].
  rewrite find_book_in_library_run; simpl.
  destruct (found_in (world s) kobo_book p); split; reflexivity.
Qed.

Lemma match_loop_run lm kobo_books : forall acc (s : @Sys E),
  let w := world s in
  let out := match_loop lm kobo_books acc s in
  successful_matches (fst out)
    = successful_matches acc
      ++ omap (fun b => single_of b (across_found w lm b)) kobo_books
  /\ unmatched_books (fst out)
    = unmatched_books acc
      ++ omap (fun b => unmatched_of b (across_found w lm b)) kobo_books
  /\ conflicts (fst out)
    = conflicts acc
      ++ omap (fun b => conflict_of b (across_found w lm b)) kobo_books
  /\ world (snd out) = w.
Proof.
  induction kobo_books as [|b rest IH]; intros acc s; cbv zeta.
  - simpl. rewrite !app_nil_r. auto.
  - cbn [match_loop]. unfold bind.
    destruct (find_book_across_libraries lm b s) as [found s'] eqn:Hrun.
    pose proof (find_book_across_libraries_result lm b s) as [Hfound Hworld].
    rewrite Hrun in Hfound, Hworld; simpl in Hfound, Hworld.
    cbn beta iota.
    match goal with |- context [match_loop lm rest ?a s'] =>
      specialize (IH a s'); cbv zeta in IH; destruct IH as (IH1 & IH2 & IH3 & IH4)
    end.
    rewrite IH1, IH2, IH3, IH4, Hworld. cbn [omap list_omap].
    rewrite <- Hfound.
    destruct found as [|m [|m' found]]; simpl; rewrite <- ?app_assoc; auto.
Qed.

(** C1. In the output of [match_all_books] there is a conflict for an
    item exactly when the item is among the inputs, no match was found for
    it in the primary store and at least two were found among the
    secondary stores.  An item with no primary match and exactly one
    secondary match gets that match in the matched list and no conflict. *)
Theorem match_all_books_conflict_iff
    (self : BookMatcher.t) (kobo_books : list KoboBook.t) (s : @Sys E) :
  let r := fst (fst (match_all_books self kobo_books s)) in
  let lm := BookMatcher.library_manager self in
  let w := world s in
  (forall b,
     (exists c, c ∈ conflicts r /\ BookConflict.kobo_book c = b)
     <-> b ∈ kobo_books
         /\ primary_found w lm b = None
         /\ 2 <= length (secondary_found w lm b))
  /\ (forall b m,
        b ∈ kobo_books ->
        primary_found w lm b = None ->
        secondary_found w lm b = [m] ->
        m ∈ successful_matches r
        /\ ~ exists c, c ∈ conflicts r /\ BookConflict.kobo_book c = b).
Proof.
  cbv zeta. unfold match_all_books, bind, ret.
  destruct (match_loop _ kobo_books _ s) as [r s'] eqn:Hrun; simpl.
  pose proof (match_loop_run (BookMatcher.library_manager self) kobo_books
                {| successful_matches := []; unmatched_books := []; conflicts := [] |} s)
    as H.
  cbv zeta in H. rewrite Hrun in H; simpl in H. destruct H as (Hs & _ & Hc & _).
  set (lm := BookMatcher.library_manager self) in *.
  assert (Hiff : forall b,
    (exists c, c ∈ conflicts r /\ BookConflict.kobo_book c = b)
    <-> b ∈ kobo_books /\ primary_found (world s) lm b = None
        /\ 2 <= length (secondary_found (world s) lm b)).
  { intros b. rewrite Hc. split.
    - intros (c & Hin & Hb). apply list_elem_of_omap in Hin as (b' & Hin & Hconf).
      unfold conflict_of, across_found in Hconf.
      destruct (primary_found (world s) lm b') as [m|] eqn:Hprim; [discriminate|].
      destruct (secondary_found (world s) lm b') as [|m1 [|m2 ms]] eqn:Hsec;
        try discriminate.
      injection Hconf as <-. simpl in Hb. subst b'.
      rewrite Hsec. simpl. split; [assumption|split; [assumption|lia]].
    - intros (Hin & Hprim & Hlen).
      destruct (secondary_found (world s) lm b) as [|m1 [|m2 ms]] eqn:Hsec;
        simpl in Hlen; try lia.
      exists {| BookConflict.kobo_book := b;
                BookConflict.matches := m1 :: m2 :: ms;
                BookConflict.resolution := None;
                BookConflict.chosen_library := None |}.
      split; [|reflexivity].
      apply list_elem_of_omap. exists b. split; [assumption|].
      unfold conflict_of, across_found. rewrite Hprim, Hsec. reflexivity. }
  split; [exact Hiff|].
  intros b m Hin Hprim Hsec. split.
  - rewrite Hs. apply list_elem_of_omap. exists b. split; [assumption|].
    unfold single_of, across_found. rewrite Hprim, Hsec. reflexivity.
  - rewrite Hiff. intros (_ & _ & Hlen). rewrite Hsec in Hlen. simpl in Hlen. lia.
Qed.

End MatchingTheorems.

(* ===================================================================== *)
(** ** normalize_title against the specification's pipeline *)
(* ===================================================================== *)

Section TitleRefinement.

Import TitleSpec.

Lemma underscore_code c : PyStr.is_code 95 c = Ascii.eqb c "_".
Proof. destruct c as [[] [] [] [] [] [] [] []]; reflexivity. Qed.

Lemma blank_outside_sub s :
  PyStr.re_sub_class not_word_or_space " " s = blank_outside word_or_space s.
Proof.
  induction s as [|c r IH]; [reflexivity|].
  cbn [PyStr.re_sub_class blank_outside PyStr.map_chars].
  fold (blank_outside word_or_space r). rewrite IH.
  unfold not_word_or_space, word_or_space, PyStr.is_word.
  rewrite underscore_code.
  destruct (PyStr.is_alnum c || Ascii.eqb c "_" || PyStr.is_space c); reflexivity.
Qed.

Lemma collapse_runs s :
  PyStr.re_sub_runs PyStr.is_space " " false s = collapse_whitespace s
  /\ PyStr.re_sub_runs PyStr.is_space " " true s
     = (if starts_with_space s then tail_string (collapse_whitespace s)
        else collapse_whitespace s)
  /\ (starts_with_space s = true ->
      collapse_whitespace s = String " " (tail_string (collapse_whitespace s))).
Proof.
  induction s as [|c r (IHf & IHt & IHs)]; simpl.
  - split; [reflexivity|split; [reflexivity|discriminate]].
  - destruct (PyStr.is_space c) eqn:Hc.
    + destruct (starts_with_space r) eqn:Hr.
      * rewrite IHt. split; [|split].
        -- symmetry. apply IHs. reflexivity.
        -- reflexivity.
        -- intros _. apply IHs. reflexivity.
      * rewrite IHt. simpl. split; [reflexivity|split; [reflexivity|reflexivity]].
    + rewrite IHf. split; [reflexivity|split; [reflexivity|discriminate]].
Qed.

Lemma collapse_whitespace_sub s :
  PyStr.re_sub_class_plus PyStr.is_space " " s = collapse_whitespace s.
Proof. apply collapse_runs. Qed.

Lemma slice_from_substring n : forall s,
  PyStr.slice_from n s = String.substring n (String.length s - n) s.
Proof.
  induction n as [|n IH]; intros s.
  - rewrite Nat.sub_0_r. simpl. induction s as [|c r IHr]; [reflexivity|].
    simpl. rewrite <- IHr. reflexivity.
  - destruct s as [|c r]; [reflexivity|]. simpl. apply IH.
Qed.

Lemma strip_first_article_find arts s :
  strip_first_article arts s
  = match List.find (fun article => String.prefix article s) arts with
    | Some article =>
        String.substring (String.length article)
          (String.length s - String.length article) s
    | None => s
    end.
Proof.
  induction arts as [|a arts IH]; [reflexivity|].
  cbn [strip_first_article List.find]. unfold PyStr.startswith.
  destruct (String.prefix a s); [apply slice_from_substring|apply IH].
Qed.

Lemma lstrip_chars s :
  list_ascii_of_string (PyStr.lstrip s)
  = drop_leading_space (list_ascii_of_string s).
Proof.
  induction s as [|c r IH]; [reflexivity|]. simpl.
  destruct (PyStr.is_space c); [exact IH|reflexivity].
Qed.

Lemma drop_leading_space_snoc l c :
  drop_leading_space (l ++ [c])
  = match drop_leading_space l with
    | [] => if PyStr.is_space c then [] else [c]
    | l' => l' ++ [c]
    end.
Proof.
  induction l as [|a l IH]; simpl; [reflexivity|].
  destruct (PyStr.is_space a); [exact IH|reflexivity].
Qed.

Lemma rstrip_chars s :
  drop_leading_space (rev (list_ascii_of_string s))
  = rev (list_ascii_of_string (PyStr.rstrip s)).
Proof.
  induction s as [|c r IH]; [reflexivity|].
  cbn [list_ascii_of_string rev PyStr.rstrip].
  rewrite drop_leading_space_snoc, IH.
  destruct (PyStr.rstrip r) as [|a r'].
  - simpl. destruct (PyStr.is_space c); reflexivity.
  - cbn [list_ascii_of_string rev].
    destruct (rev (list_ascii_of_string r') ++ [a]) as [|x l'] eqn:Hl.
    + destruct (rev (list_ascii_of_string r')); discriminate.
    + reflexivity.
Qed.

Lemma strip_trim s : PyStr.strip s = trim s.
Proof.
  unfold PyStr.strip, trim.
  rewrite <- lstrip_chars, rstrip_chars, rev_involutive.
  symmetry. apply string_of_list_ascii_of_string.
Qed.

(** normalize_title is the pipeline with the word characters kept. *)
Lemma normalize_title_pipeline s : normalize_title s = normalizeTitle_word s.
Proof.
  unfold normalize_title, normalizeTitle_word, pipeline.
  destruct s as [|c r]; [reflexivity|].
  cbn [PyStr.truthy negb].
  rewrite blank_outside_sub, collapse_whitespace_sub, strip_trim.
  unfold articles. rewrite strip_first_article_find. reflexivity.
Qed.

End TitleRefinement.

(** C5, as stated, fails on a title with an underscore: the underscore is
    neither a letter, a digit nor whitespace, so the claimed pipeline
    blanks it (and then strips the article "a "), while the code keeps
    it. *)
Lemma normalize_title_keeps_underscore :
  normalize_title "a_b" = "a_b"
  /\ TitleSpec.normalizeTitle_claimed "a_b" = "b"
  /\ normalize_title "a_b" <> TitleSpec.normalizeTitle_claimed "a_b".
Proof. split; [reflexivity|split; [reflexivity|discriminate]]. Qed.

(** C5, amended.  For every string, [normalize_title] lowercases it,
    replaces every character that is not a word character (alphanumeric
    or underscore) or whitespace with a space, collapses runs of
    whitespace to one space, strips one leading article among "the ",
    "a ", "an " (first match in that order), and trims; the title
    "The Desert Here and the Desert Far Away" becomes
    "desert here and the desert far away". *)
Theorem normalize_title_refines_spec :
  (forall s, normalize_title s = TitleSpec.normalizeTitle_word s)
  /\ normalize_title "The Desert Here and the Desert Far Away"
     = "desert here and the desert far away".
Proof. split; [exact normalize_title_pipeline|reflexivity]. Qed.

(* ===================================================================== *)
(** ** Facts about the string primitives *)
(* ===================================================================== *)

Section StringFacts.

Import PyStr.






Lemma space_is_not_bar c : is_space c = true -> Ascii.eqb c "|" = false.
Proof. destruct c as [[] [] [] [] [] [] [] []]; (reflexivity || discriminate). Qed.




Lemma prefix_cons a p b s :
  String.prefix (String a p) (String b s) = Ascii.eqb a b && String.prefix p s.
Proof.
  change (String.prefix (String a p) (String b s))
    with (if ascii_dec a b then String.prefix p s else false).
  destruct (ascii_dec a b) as [->|Hne].
  - rewrite Ascii.eqb_refl. reflexivity.
  - destruct (Ascii.eqb_spec a b); [contradiction|reflexivity].
Qed.








Lemma rstrip_all_space r : all_space r = true -> rstrip r = "".
Proof.
  induction r as [|c r IH]; intros Hr; [reflexivity|].
  simpl in Hr. apply andb_true_iff in Hr as [Hc Hr].
  cbn [rstrip]. rewrite (IH Hr), Hc. reflexivity.
Qed.





Lemma all_space_bar_free s : all_space s = true -> bar_free s = true.
Proof.
  induction s as [|c r IH]; [reflexivity|]. simpl.
  intros H. apply andb_true_iff in H as [Hc Hr].
  rewrite (space_is_not_bar c Hc), (IH Hr). reflexivity.
Qed.





End StringFacts.

(* ===================================================================== *)
(** ** Classification of collections: theorems *)
(* ===================================================================== *)

Section Classification.











End Classification.


Example great_with_marker_in_neither_partition :
  _get_rating_collections ["| great"] = []
  /\ _get_genre_collections ["| great"] = [].
Proof. split; reflexivity. Qed.

Example marker_removed_everywhere :
  _get_genre_collections ["sci| fi"; "  space opera "] = ["scifi"; "space opera"].
Proof. reflexivity. Qed.


(* ===================================================================== *)
(** ** The end-to-end scenario, run *)
(* ===================================================================== *)

Example demo_unison_matches :
  fst (find_book_across_libraries
         {| LibraryManager.libraries := [Demo.mcr];
            LibraryManager.primary_library := Some Demo.mcr |}
         Demo.unison (Demo.start Demo.unison_world))
  = [{| BookMatch.kobo_book := Demo.unison; BookMatch.calibre_book_id := 7;
        BookMatch.calibre_title := "You and I in Unison";
        BookMatch.calibre_authors := "0p3ny0ur3y3sandl00kn0rth";
        BookMatch.library := Demo.mcr;
        BookMatch.match_confidence := 1; BookMatch.match_type := "exact" |}].
Proof. reflexivity. Qed.

Example demo_unison_update :
  trace (snd (bulk_update Demo.updater
                [Demo.matched Demo.unison 7 Demo.mcr] (Demo.start Demo.unison_world)))
  = [EvRun ["calibredb"; "list"; "--library-path"; "/lib/MCR"; "--limit"; "1"]
       (Demo.exit_with 0 "");
     EvCopy2 "/lib/MCR/metadata.db" "backups/MCR_metadata_20240101_120000.db" true;
     EvQueryColumns "/lib/MCR/metadata.db";
     EvRun ["calibredb"; "add_custom_column"; "--library-path"; "/lib/MCR";
            "myratings"; "My Ratings"; "text"; "--display"; "{}"; "--is-multiple"]
       (Demo.exit_with 0 "");
     EvRun ["calibredb"; "add_custom_column"; "--library-path"; "/lib/MCR";
            "my_genres"; "My Genres"; "text"; "--display"; "{}"; "--is-multiple"]
       (Demo.exit_with 0 "");
     EvRun ["calibredb"; "set_metadata"; "--library-path"; "/lib/MCR"; "7";
            "--field"; "#myratings:Evergreen"]
       (Demo.exit_with 0 "");
     EvRun ["calibredb"; "set_metadata"; "--library-path"; "/lib/MCR"; "7";
            "--field"; "#my_genres:sweet fluff,killjoys"]
       (Demo.exit_with 0 "")].
Proof. reflexivity. Qed.

(* ===================================================================== *)
(** ** Sync Orchestrator: theorems *)
(* ===================================================================== *)

Section Orchestrator.

Context {E : Env}.

Lemma preview_cols_with_reader reader keep collections :
  exists cols, preview_cols (Some reader) keep collections = Ok cols.
Proof.
  induction collections as [|col rest [cols IH]]; simpl.
  - eexists. reflexivity.
  - rewrite IH. eexists. reflexivity.
Qed.

Lemma preview_matches_with_reader reader lib_matches :
  preview_matches (Some reader) lib_matches = Ok tt.
Proof.
  induction lib_matches as [|m rest IH]; simpl; [reflexivity|].
  destruct (preview_cols_with_reader reader true
              (KoboBook.collections (BookMatch.kobo_book m))) as [c1 ->].
  destruct (preview_cols_with_reader reader false
              (KoboBook.collections (BookMatch.kobo_book m))) as [c2 ->].
  exact IH.
Qed.

Lemma preview_libraries_with_reader reader by_library :
  preview_libraries (Some reader) by_library = Ok tt.
Proof.
  induction by_library as [|[lib_name group] rest IH]; [reflexivity|].
  cbn [preview_libraries]. rewrite preview_matches_with_reader. exact IH.
Qed.



End Orchestrator.


Section StagePreconditions.

Context {E : Env}.

(** C9, amended.  Matching fails with an error naming [load_kobo_data]
    when no source items are loaded, and with an error naming
    [discover_libraries] when items are loaded but no stores are
    discovered; the real update stage fails with an error naming
    [match_books] when no matches are present.  The dry-run update stage
    has no such precondition: with no matches it returns statistics that
    are all zero.  None of these calls touches the world or the trace. *)
Theorem stage_preconditions (self : SyncEngine.t) (s : @Sys E) :
  (SyncEngine.kobo_books self = [] ->
     match_books self s = (Raise (Exception no_books_message), self, s))
  /\ (SyncEngine.kobo_books self <> [] -> SyncEngine.libraries self = [] ->
        match_books self s = (Raise (Exception no_libraries_message), self, s))
  /\ (SyncEngine.matches self = [] ->
        update_calibre_metadata self false s
        = (Raise (Exception no_matches_message), s))
  /\ (SyncEngine.matches self = [] ->
        update_calibre_metadata self true s
        = (Ok {| total := 0; successful := 0; failed := 0;
                 libraries_updated := ∅; dry_run := Some true |}, s)).
Proof.
  unfold match_books, update_calibre_metadata, _simulate_updates, ret.
  split; [|split; [|split]].
  - intros ->. reflexivity.
  - intros Hbooks ->. destruct (SyncEngine.kobo_books self); [contradiction|reflexivity].
  - intros ->. reflexivity.
  - intros ->. reflexivity.
Qed.

End StagePreconditions.

(** C9, as stated, fails for the dry-run update stage: called on an
    orchestrator that holds no matches it does not fail, it returns the
    all-zero statistics. *)
Lemma dry_run_without_matches_returns :
  fst (update_calibre_metadata (Demo.engine None [] [] []) true
         (Demo.start Demo.unison_world))
  = Ok {| total := 0; successful := 0; failed := 0;
          libraries_updated := ∅; dry_run := Some true |}
  /\ (forall e,
        fst (update_calibre_metadata (Demo.engine None [] [] []) true
               (Demo.start Demo.unison_world)) <> Raise e).
Proof. split; [reflexivity|]. intros e. discriminate. Qed.

(* ===================================================================== *)
(** ** Update Applier: theorems *)
(* ===================================================================== *)

Lemma by_library_append_size lib_name m d :
  partition_size (by_library_append lib_name m d) = S (partition_size d).
Proof.
  unfold partition_size.
  induction d as [|[k [first others]] rest IH]; [reflexivity|].
  cbn [by_library_append]. destruct (String.eqb k lib_name).
  - cbn [map sum_list snd group_matches fst length].
    rewrite length_app. simpl. lia.
  - cbn [map sum_list]. rewrite IH. lia.
Qed.

Lemma group_by_library_size matches :
  partition_size (group_by_library matches) = length matches.
Proof.
  unfold group_by_library.
  assert (H : forall d,
    partition_size
      (fold_left
         (fun d m => by_library_append (CalibreLibrary.name (BookMatch.library m)) m d)
         matches d)
    = partition_size d + length matches).
  { induction matches as [|m rest IH]; intros d; simpl; [lia|].
    rewrite IH, by_library_append_size. lia. }
  rewrite H. reflexivity.
Qed.

Section UpdateCounts.

Context {E : Env}.

Lemma update_each_counts self library_matches : forall stats (s : @Sys E),
  let out := fst (update_each self library_matches stats s) in
  successful out + failed out
  = successful stats + failed stats + length library_matches
  /\ total out = total stats.
Proof.
  induction library_matches as [|m rest IH]; intros stats s; cbv zeta.
  - simpl. split; [lia|reflexivity].
  - cbn [update_each]. unfold bind.
    destruct (update_book_metadata self m s) as [ok s1].
    match goal with |- context [update_each self rest ?st s1] =>
      specialize (IH st s1); cbv zeta in IH; destruct IH as [IH1 IH2]
    end.
    rewrite IH1, IH2. destruct ok; simpl; split; (lia || reflexivity).
Qed.

Lemma process_libraries_counts self by_library : forall stats (s : @Sys E),
  let out := fst (process_libraries self by_library stats s) in
  successful out + failed out
  = successful stats + failed stats + partition_size by_library
  /\ total out = total stats.
Proof.
  unfold partition_size.
  induction by_library as [|[library_name group] rest IH]; intros stats s; cbv zeta.
  - simpl. split; [lia|reflexivity].
  - cbn [process_libraries]. unfold bind.
    destruct (test_calibredb_connection self _ s) as [connected s1].
    cbn [map sum_list snd].
    destruct connected; cbn [negb].
    + destruct (backup_library self _ s1) as [backed_up s2].
      destruct backed_up; cbn [negb].
      * destruct (ensure_custom_columns self _ s2) as [ensured s3].
        destruct ensured; cbn [negb].
        -- destruct (update_each self (group_matches group) stats s3) as [stats' s4] eqn:Hup.
           pose proof (update_each_counts self (group_matches group) stats s3) as Hc.
           cbv zeta in Hc. rewrite Hup in Hc. simpl in Hc. destruct Hc as [Hc1 Hc2].
           specialize (IH (add_library library_name stats') s4). cbv zeta in IH.
           destruct IH as [IH1 IH2]. rewrite IH1, IH2. simpl. split; [lia|assumption].
        -- specialize (IH (add_failed (length (group_matches group)) stats) s3).
           cbv zeta in IH. destruct IH as [IH1 IH2]. rewrite IH1, IH2. simpl.
           split; [lia|reflexivity].
      * specialize (IH (add_failed (length (group_matches group)) stats) s2).
        cbv zeta in IH. destruct IH as [IH1 IH2]. rewrite IH1, IH2. simpl.
        split; [lia|reflexivity].
    + specialize (IH (add_failed (length (group_matches group)) stats) s1).
      cbv zeta in IH. destruct IH as [IH1 IH2]. rewrite IH1, IH2. simpl.
      split; [lia|reflexivity].
Qed.

(** C10. The statistics returned by [bulk_update] satisfy
    [successful + failed = total], and [total] is the number of matches
    passed in: every match is counted once, whether it was updated one by
    one or failed with its whole library. *)
Theorem bulk_update_counts_every_match
    (self : CalibreUpdater.t) (matches : list BookMatch.t) (s : @Sys E) :
  let stats := fst (bulk_update self matches s) in
  successful stats + failed stats = total stats
  /\ total stats = length matches.
Proof.
  cbv zeta. unfold bulk_update.
  match goal with |- context [process_libraries self ?d ?st s] =>
    pose proof (process_libraries_counts self d st s) as H
  end.
  cbv zeta in H. destruct H as [H1 H2].
  rewrite H1, H2, group_by_library_size. simpl. split; [lia|reflexivity].
Qed.

End UpdateCounts.

(* ===================================================================== *)
(** ** Schema provisioning *)
(* ===================================================================== *)

Section Provisioning.

Context {E : Env}.

Lemma events_since_app (s : @Sys E) w evs :
  events_since s {| world := w; trace := trace s ++ evs |} = evs.
Proof. unfold events_since. simpl. apply drop_app_length. Qed.

Lemma create_custom_column_run self library column_name display_name (s : @Sys E) :
  create_custom_column self library column_name display_name s
  = (created_or_exists
       (fst (subprocess_run E (world s)
               (add_column_argv self library column_name display_name))),
     {| world := snd (subprocess_run E (world s)
                        (add_column_argv self library column_name display_name));
        trace := trace s ++
          [EvRun (add_column_argv self library column_name display_name)
             (fst (subprocess_run E (world s)
                     (add_column_argv self library column_name display_name)))] |}).
Proof.
  unfold create_custom_column, bind, run, ret.
  fold (add_column_argv self library column_name display_name).
  destruct (subprocess_run E (world s) _) as [[r| |] w]; simpl; try reflexivity.
  destruct (returncode r =? 0)%Z; simpl; [reflexivity|].
  destruct (PyStr.contains _ _); reflexivity.
Qed.

Lemma check_custom_columns_run self library (s : @Sys E) :
  check_custom_columns self library s
  = (columns_found (world s) library,
     emit (EvQueryColumns (CalibreLibrary.metadata_db_path library)) s).
Proof.
  unfold check_custom_columns, columns_found, bind, query_columns, ret.
  destruct (sqlite_custom_columns E (world s) _); reflexivity.
Qed.

(** [ensure_custom_columns] reports success exactly when every column
    creation it issued was answered "created" or "already exists". *)
Lemma ensure_custom_columns_result self library (s : @Sys E) :
  fst (ensure_custom_columns self library s)
  = creations_accepted (events_since s (snd (ensure_custom_columns self library s))).
Proof.
  unfold ensure_custom_columns, bind. rewrite check_custom_columns_run.
  destruct (columns_found (world s) library) as [ratings genres].
  cbn [my_ratings my_genres]. unfold emit, ret.
  destruct ratings, genres; cbn [negb];
    rewrite ?create_custom_column_run; cbn [fst snd world trace];
    rewrite ?create_custom_column_run; cbn [fst snd world trace];
    rewrite <- ?app_assoc; rewrite events_since_app;
    cbn [app creations_accepted forallb is_add_column add_column_argv];
    rewrite ?String.eqb_refl; cbn [implb];
    repeat match goal with
    | |- context [created_or_exists ?r] => destruct (created_or_exists r)
    end; reflexivity.
Qed.


End Provisioning.

Example second_provisioning_is_refused_and_succeeds :
  let first := ensure_custom_columns Demo.updater Demo.mcr (Demo.start unreadable_world) in
  let second := ensure_custom_columns Demo.updater Demo.mcr (snd first) in
  events_since (snd first) (snd second)
  = [EvQueryColumns "/lib/MCR/metadata.db";
     EvRun (add_column_argv Demo.updater Demo.mcr "myratings" "My Ratings")
       (Demo.exit_with 1 "Error: A column with label myratings Already Exists");
     EvRun (add_column_argv Demo.updater Demo.mcr "my_genres" "My Genres")
       (Demo.exit_with 1 "Error: A column with label my_genres Already Exists")]
  /\ fst first = true /\ fst second = true.
Proof. repeat split; reflexivity. Qed.


(* ===================================================================== *)
(** ** Backup before mutation, and failure isolation *)
(* ===================================================================== *)

Section Isolation.

Context {E : Env}.

Lemma events_since_trace (s s' : @Sys E) evs :
  trace s' = trace s ++ evs -> events_since s s' = evs.
Proof. unfold events_since. intros ->. apply drop_app_length. Qed.

Lemma test_calibredb_connection_run self library (s : @Sys E) :
  test_calibredb_connection self library s
  = (connection_ok (fst (subprocess_run E (world s) (list_argv self library))),
     {| world := snd (subprocess_run E (world s) (list_argv self library));
        trace := trace s ++
          [EvRun (list_argv self library)
             (fst (subprocess_run E (world s) (list_argv self library)))] |}).
Proof.
  unfold test_calibredb_connection, bind, run, ret. fold (list_argv self library).
  destruct (subprocess_run E (world s) _) as [[r| |] w]; reflexivity.
Qed.

Lemma backup_library_run self library (s : @Sys E) :
  let src := CalibreLibrary.metadata_db_path library in
  let dst := backup_path self library (strftime_now E (world s)) in
  backup_library self library s
  = (fst (shutil_copy2 E (world s) src dst),
     {| world := snd (shutil_copy2 E (world s) src dst);
        trace := trace s ++ [EvCopy2 src dst (fst (shutil_copy2 E (world s) src dst))] |}).
Proof.
  cbv zeta. unfold backup_library, bind, now, copy2, backup_path.
  destruct (shutil_copy2 E (world s) _ _) as [ok w]; reflexivity.
Qed.

Lemma ensure_custom_columns_trace self library (s : @Sys E) :
  exists evs,
    trace (snd (ensure_custom_columns self library s)) = trace s ++ evs
    /\ existsb is_field_write evs = false.
Proof.
  unfold ensure_custom_columns, bind. rewrite check_custom_columns_run.
  destruct (columns_found (world s) library) as [ratings genres].
  cbn [my_ratings my_genres]. unfold emit, ret.
  destruct ratings, genres; cbn [negb];
    rewrite ?create_custom_column_run; cbn [fst snd world trace];
    rewrite ?create_custom_column_run; cbn [fst snd world trace];
    rewrite <- ?app_assoc; eexists; (split; [reflexivity|reflexivity]).
Qed.

(** The checks issue no field write. *)
Lemma prepare_library_no_field_write self library (s : @Sys E) :
  existsb is_field_write (events_since s (snd (prepare_library self library s)))
  = false.
Proof.
  unfold prepare_library, bind. rewrite test_calibredb_connection_run.
  destruct (connection_ok _); cbn [negb].
  - rewrite backup_library_run. cbv zeta. cbn [world trace].
    destruct (fst (shutil_copy2 E _ _ _)); cbn [negb].
    + match goal with |- context [ensure_custom_columns self library ?s1] =>
        set (s2 := s1);
        destruct (ensure_custom_columns_trace self library s2) as (evs & Htr & Hevs)
      end.
      erewrite events_since_trace;
        [|rewrite Htr; subst s2; cbn [trace]; rewrite <- !app_assoc; reflexivity].
      cbn [app existsb]. rewrite Hevs. reflexivity.
    + unfold ret. cbn [snd]. rewrite <- app_assoc.
      rewrite events_since_app. reflexivity.
  - unfold ret. cbn [snd]. rewrite events_since_app. reflexivity.
Qed.

(** Failure isolation, per partition.  [process_libraries] handles the
    first library by running the checks; when one of them fails, all the
    matches of the partition are counted as failed and the loop goes on
    with the next library; when they pass, the matches are written one by
    one. *)
Lemma process_libraries_step self library_name group rest stats (s : @Sys E) :
  process_libraries self ((library_name, group) :: rest) stats s
  = let prepared := prepare_library self (BookMatch.library (fst group)) s in
    if fst prepared then
      let updated := update_each self (group_matches group) stats (snd prepared) in
      process_libraries self rest (add_library library_name (fst updated))
        (snd updated)
    else
      process_libraries self rest
        (add_failed (length (group_matches group)) stats) (snd prepared).
Proof.
  cbv zeta. cbn [process_libraries]. unfold prepare_library, bind.
  destruct (test_calibredb_connection self _ s) as [connected s1].
  destruct connected; cbn [negb]; [|reflexivity].
  destruct (backup_library self _ s1) as [backed_up s2].
  destruct backed_up; cbn [negb]; [|reflexivity].
  destruct (ensure_custom_columns self _ s2) as [ensured s3].
  destruct ensured; cbn [negb fst snd]; [|reflexivity].
  destruct (update_each self (group_matches group) stats s3); reflexivity.
Qed.

End Isolation.

(** C7 at the failing input.  Two libraries live in folders of the same
    name, "/a/Books" and "/b/Books"; one match points to each.
    [bulk_update] files both matches under the key "Books", probes and
    backs up the first library only, and then writes to both: the field
    write to "/b/Books" is not preceded by any copy of
    "/b/Books/metadata.db". *)
Theorem same_name_library_written_without_backup :
  let out := bulk_update Demo.updater [Demo.tagged_a; Demo.tagged_b]
               (Demo.start Demo.two_books_world) in
  trace (snd out)
  = [EvRun ["calibredb"; "list"; "--library-path"; "/a/Books"; "--limit"; "1"]
       (Demo.exit_with 0 "");
     EvCopy2 "/a/Books/metadata.db" "backups/Books_metadata_20240101_120000.db" true;
     EvQueryColumns "/a/Books/metadata.db";
     EvRun ["calibredb"; "set_metadata"; "--library-path"; "/a/Books"; "1";
            "--field"; "#my_genres:fantasy"]
       (Demo.exit_with 0 "");
     EvRun ["calibredb"; "set_metadata"; "--library-path"; "/b/Books"; "2";
            "--field"; "#my_genres:horror"]
       (Demo.exit_with 0 "")]
  /\ successful (fst out) = 2 /\ failed (fst out) = 0
  /\ backup_precedes_mutation Demo.books_a false (trace (snd out)) = true
  /\ backup_precedes_mutation Demo.books_b false (trace (snd out)) = false.
Proof. cbv zeta. repeat split; reflexivity. Qed.

(* ===================================================================== *)
(** ** Backup before mutation when names identify libraries *)
(* ===================================================================== *)

Lemma mutates_folder_aim p e :
  mutates_folder p e = true -> event_folder e = Some p.
Proof.
  destruct e as [| |argv res|]; try discriminate.
  destruct argv as [|a0 [|a1 [|a2 [|a3 rest]]]]; try discriminate.
  simpl. intros H. apply andb_true_iff in H as [_ H].
  apply String.eqb_eq in H. subst. reflexivity.
Qed.

Lemma backup_precedes_mutation_app library evs1 : forall backed_up evs2,
  backup_precedes_mutation library backed_up (evs1 ++ evs2)
  = backup_precedes_mutation library backed_up evs1
    && backup_precedes_mutation library
         (backed_up
          || existsb (backs_up_file (CalibreLibrary.metadata_db_path library)) evs1)
         evs2.
Proof.
  induction evs1 as [|e evs1 IH]; intros backed_up evs2.
  - simpl. rewrite orb_false_r. reflexivity.
  - cbn [app backup_precedes_mutation existsb]. rewrite IH, orb_assoc, andb_assoc.
    reflexivity.
Qed.

Lemma backup_precedes_mutation_backed library evs :
  backup_precedes_mutation library true evs = true.
Proof.
  induction evs as [|e evs IH]; [reflexivity|].
  cbn [backup_precedes_mutation]. rewrite orb_true_r. exact IH.
Qed.

Lemma backup_precedes_mutation_elsewhere library backed_up evs :
  Forall (fun e => event_folder e <> Some (CalibreLibrary.path library)) evs ->
  backup_precedes_mutation library backed_up evs = true.
Proof.
  intros H. revert backed_up. induction H as [|e evs He _ IH]; intros backed_up.
  - reflexivity.
  - cbn [backup_precedes_mutation]. rewrite IH, andb_true_r.
    destruct (mutates_folder (CalibreLibrary.path library) e) eqn:Hm; [|reflexivity].
    apply mutates_folder_aim in Hm. contradiction.
Qed.

(** What [group_by_library] puts under a key. *)
Lemma by_library_append_members (P : BookMatch.t -> Prop) lib_name m d :
  P m -> CalibreLibrary.name (BookMatch.library m) = lib_name ->
  Forall (fun entry =>
            Forall (fun x => P x /\ CalibreLibrary.name (BookMatch.library x) = fst entry)
                   (group_matches (snd entry))) d ->
  Forall (fun entry =>
            Forall (fun x => P x /\ CalibreLibrary.name (BookMatch.library x) = fst entry)
                   (group_matches (snd entry)))
         (by_library_append lib_name m d).
Proof.
  intros Hm Hname Hd. induction Hd as [|[k [first others]] rest Hentry Hrest IH].
  - simpl. constructor; [|constructor]. constructor; [|constructor]. auto.
  - cbn [by_library_append]. destruct (String.eqb_spec k lib_name) as [->|Hne].
    + constructor; [|exact Hrest].
      unfold group_matches in *. cbn [fst snd] in *.
      rewrite app_comm_cons. apply Forall_app. split; [exact Hentry|].
      constructor; [|constructor]. auto.
    + constructor; assumption.
Qed.

Lemma group_by_library_members matches :
  Forall (fun entry =>
            Forall (fun x => x ∈ matches
                             /\ CalibreLibrary.name (BookMatch.library x) = fst entry)
                   (group_matches (snd entry)))
         (group_by_library matches).
Proof.
  unfold group_by_library.
  assert (H : forall rest d,
    (forall x, x ∈ rest -> x ∈ matches) ->
    Forall (fun entry =>
              Forall (fun x => x ∈ matches
                               /\ CalibreLibrary.name (BookMatch.library x) = fst entry)
                     (group_matches (snd entry))) d ->
    Forall (fun entry =>
              Forall (fun x => x ∈ matches
                               /\ CalibreLibrary.name (BookMatch.library x) = fst entry)
                     (group_matches (snd entry)))
      (fold_left
         (fun d m => by_library_append (CalibreLibrary.name (BookMatch.library m)) m d)
         rest d)).
  { induction rest as [|m rest IH]; intros d Hrest Hd; [exact Hd|].
    cbn [fold_left]. apply IH.
    - intros x Hx. apply Hrest. right. exact Hx.
    - apply by_library_append_members; [apply Hrest; left|reflexivity|exact Hd]. }
  apply H; [auto|constructor].
Qed.

Section TraceLogic.

Context {E : Env}.

Lemma emits_ret {A} P (a : A) : emits (E:=E) P (ret a).
Proof. intros s. exists []. rewrite app_nil_r. split; [reflexivity|constructor]. Qed.

Lemma emits_bind {A B} P (c : @M E A) (k : A -> @M E B) :
  emits (E:=E) P c -> (forall a, emits (E:=E) P (k a)) -> emits (E:=E) P (bind c k).
Proof.
  intros Hc Hk s. unfold bind.
  destruct (Hc s) as (evs1 & Ht1 & Hp1). destruct (c s) as [a s1]. simpl in Ht1.
  destruct (Hk a s1) as (evs2 & Ht2 & Hp2).
  exists (evs1 ++ evs2). rewrite Ht2, Ht1, app_assoc.
  split; [reflexivity|apply Forall_app; auto].
Qed.

Lemma emits_mono {A} (P Q : Event -> Prop) (c : @M E A) :
  (forall e, P e -> Q e) -> emits (E:=E) P c -> emits (E:=E) Q c.
Proof.
  intros HPQ Hc s. destruct (Hc s) as (evs & Ht & Hp).
  exists evs. split; [exact Ht|]. eapply Forall_impl; eauto.
Qed.

Lemma emits_run P argv : (forall res, P (EvRun argv res)) -> emits (E:=E) P (run argv).
Proof.
  intros HP s. unfold run. destruct (subprocess_run E (world s) argv) as [r w].
  exists [EvRun argv r]. split; [reflexivity|]. constructor; [apply HP|constructor].
Qed.

Lemma emits_copy2 P src dst : (forall ok, P (EvCopy2 src dst ok)) -> emits (E:=E) P (copy2 src dst).
Proof.
  intros HP s. unfold copy2. destruct (shutil_copy2 E (world s) src dst) as [ok w].
  exists [EvCopy2 src dst ok]. split; [reflexivity|]. constructor; [apply HP|constructor].
Qed.

Lemma emits_query_columns P db : P (EvQueryColumns db) -> emits (E:=E) P (query_columns db).
Proof.
  intros HP s. exists [EvQueryColumns db]. split; [reflexivity|].
  constructor; [exact HP|constructor].
Qed.

Lemma emits_now P : emits (E:=E) P now.
Proof. intros s. exists []. rewrite app_nil_r. split; [reflexivity|constructor]. Qed.

Ltac emits_step :=
  first
    [ apply emits_ret
    | apply emits_now
    | apply emits_bind; [|intros ?]
    | apply emits_run; intros ?; try (left; reflexivity)
    | apply emits_copy2; intros ?; try (right; reflexivity)
    | apply emits_query_columns; try (right; reflexivity)
    | match goal with |- emits _ (if ?b then _ else _) => destruct b end
    | match goal with |- emits _ (match ?x with _ => _ end) => destruct x end ].

Lemma test_calibredb_connection_emits self library :
  emits (E:=E) (aimed_at_or_nowhere (CalibreLibrary.path library))
        (test_calibredb_connection self library).
Proof. unfold test_calibredb_connection. repeat emits_step. Qed.

Lemma backup_library_emits self library :
  emits (E:=E) (aimed_at_or_nowhere (CalibreLibrary.path library))
        (backup_library self library).
Proof. unfold backup_library. repeat emits_step. Qed.

Lemma create_custom_column_emits self library column_name display_name :
  emits (E:=E) (aimed_at_or_nowhere (CalibreLibrary.path library))
        (create_custom_column self library column_name display_name).
Proof. unfold create_custom_column. repeat emits_step. Qed.

Lemma ensure_custom_columns_emits self library :
  emits (E:=E) (aimed_at_or_nowhere (CalibreLibrary.path library))
        (ensure_custom_columns self library).
Proof.
  unfold ensure_custom_columns, check_custom_columns.
  repeat first [apply create_custom_column_emits | emits_step].
Qed.

Lemma _update_custom_column_emits self library book_id column values :
  emits (E:=E) (aimed_at_or_nowhere (CalibreLibrary.path library))
        (_update_custom_column self library book_id column values).
Proof. unfold _update_custom_column. repeat emits_step. Qed.

Lemma update_book_metadata_emits self m :
  emits (E:=E) (aimed_at_or_nowhere (CalibreLibrary.path (BookMatch.library m)))
        (update_book_metadata self m).
Proof.
  unfold update_book_metadata.
  repeat first [apply _update_custom_column_emits | emits_step].
Qed.

Lemma update_each_emits self p library_matches : forall stats,
  Forall (fun m => CalibreLibrary.path (BookMatch.library m) = p) library_matches ->
  emits (E:=E) (aimed_at_or_nowhere p) (update_each self library_matches stats).
Proof.
  induction library_matches as [|m rest IH]; intros stats Hall.
  - apply emits_ret.
  - cbn [update_each]. inversion Hall as [|? ? Hm Hrest]; subst.
    apply emits_bind; [apply update_book_metadata_emits|].
    intros ok. apply IH. exact Hrest.
Qed.

Lemma prepare_library_emits self library :
  emits (E:=E) (aimed_at_or_nowhere (CalibreLibrary.path library))
        (prepare_library self library).
Proof.
  unfold prepare_library.
  repeat first [ apply test_calibredb_connection_emits | apply backup_library_emits
               | apply ensure_custom_columns_emits | emits_step ].
Qed.

End TraceLogic.

Section BackupFirst.

Context {E : Env}.

Lemma aimed_elsewhere p q e :
  p <> q -> aimed_at_or_nowhere p e -> event_folder e <> Some q.
Proof. intros Hne [H|H]; rewrite H; congruence. Qed.

(** One partition whose matches all belong to one library keeps every
    library safe: the partition's own library is backed up before it is
    changed, and no other folder is touched. *)
Lemma partition_backs_up_first self (library : CalibreLibrary.t) group stats (s : @Sys E) :
  Forall (fun m => BookMatch.library m = BookMatch.library (fst group))
         (group_matches group) ->
  (CalibreLibrary.path (BookMatch.library (fst group)) = CalibreLibrary.path library ->
   BookMatch.library (fst group) = library) ->
  exists evs,
    trace (after_partition self group stats s) = trace s ++ evs
    /\ forall backed_up, backup_precedes_mutation library backed_up evs = true.
Proof.
  intros Huniform Hpath. unfold after_partition.
  assert (Hpaths : Forall (fun m => CalibreLibrary.path (BookMatch.library m)
                           = CalibreLibrary.path (BookMatch.library (fst group)))
                          (group_matches group)).
  { eapply Forall_impl; [exact Huniform|]. intros m ->. reflexivity. }
  destruct (String.eqb_spec (CalibreLibrary.path (BookMatch.library (fst group)))
                            (CalibreLibrary.path library)) as [Heq|Hne].
  - (* the partition of [library] itself *)
    specialize (Hpath Heq). rewrite Hpath in *. clear Heq.
    unfold prepare_library, bind. rewrite test_calibredb_connection_run.
    destruct (connection_ok _); cbn [negb].
    + rewrite backup_library_run. cbv zeta. cbn [world trace].
      destruct (fst (shutil_copy2 E _ _ _)); cbn [negb].
      * match goal with |- context [ensure_custom_columns self library ?st] =>
          set (s2 := st)
        end.
        destruct (ensure_custom_columns_emits self library s2) as (evs_e & Hte & _).
        destruct (ensure_custom_columns self library s2) as [ensured s3].
        cbn [fst snd] in *.
        assert (Hrest : exists evs_r,
          trace (if ensured
                 then snd (update_each self (group_matches group) stats s3)
                 else s3) = trace s3 ++ evs_r).
        { destruct ensured; [|exists []; rewrite app_nil_r; reflexivity].
          destruct (update_each_emits self _ _ stats Hpaths s3) as (evs_u & Htu & _).
          exists evs_u. exact Htu. }
        destruct Hrest as (evs_r & Htr).
        eexists. split.
        -- destruct ensured; rewrite Htr, Hte; subst s2; cbn [trace];
             rewrite <- !app_assoc; reflexivity.
        -- intros backed_up. cbn [app backup_precedes_mutation].
           cbn [mutates_folder backs_up_file list_argv andb].
           rewrite !String.eqb_refl, orb_true_r, backup_precedes_mutation_backed.
           reflexivity.
      * unfold ret. cbn [fst snd]. eexists. split.
        -- rewrite <- app_assoc. reflexivity.
        -- intros backed_up. reflexivity.
    + unfold ret. cbn [fst snd]. eexists. split; [reflexivity|].
      intros backed_up. reflexivity.
  - (* a partition of another folder *)
    destruct (prepare_library_emits self (BookMatch.library (fst group)) s)
      as (evs_p & Htp & Hp).
    destruct (prepare_library self (BookMatch.library (fst group)) s) as [ok s1].
    cbn [fst snd] in *.
    assert (Hrest : exists evs_r,
      trace (if ok then snd (update_each self (group_matches group) stats s1) else s1)
      = trace s1 ++ evs_r
      /\ Forall (aimed_at_or_nowhere
                   (CalibreLibrary.path (BookMatch.library (fst group)))) evs_r).
    { destruct ok; [|exists []; rewrite app_nil_r; split; [reflexivity|constructor]].
      destruct (update_each_emits self _ _ stats Hpaths s1) as (evs_u & Htu & Hu).
      exists evs_u. split; assumption. }
    destruct Hrest as (evs_r & Htr & Hr).
    exists (evs_p ++ evs_r). split.
    + rewrite Htr, Htp, app_assoc. reflexivity.
    + intros backed_up. apply backup_precedes_mutation_elsewhere.
      apply Forall_app. split; (eapply Forall_impl; [eassumption|]);
        intros e He; exact (aimed_elsewhere _ _ e Hne He).
Qed.

End BackupFirst.

Section BackupFirstTheorem.

Context {E : Env}.

Lemma process_libraries_after_partition self library_name group rest stats (s : @Sys E) :
  exists stats',
    process_libraries self ((library_name, group) :: rest) stats s
    = process_libraries self rest stats' (after_partition self group stats s).
Proof.
  rewrite process_libraries_step. cbv zeta. unfold after_partition.
  destruct (fst (prepare_library self (BookMatch.library (fst group)) s));
    eexists; reflexivity.
Qed.

Lemma process_libraries_backs_up_first self library by_library :
  Forall (partition_of_one_library library) by_library ->
  forall stats (s : @Sys E),
  exists evs,
    trace (snd (process_libraries self by_library stats s)) = trace s ++ evs
    /\ forall backed_up, backup_precedes_mutation library backed_up evs = true.
Proof.
  induction 1 as [|[library_name group] rest [Huniform Hpath] _ IH]; intros stats s.
  - exists []. simpl. rewrite app_nil_r. split; [reflexivity|]. reflexivity.
  - destruct (process_libraries_after_partition self library_name group rest stats s)
      as [stats' ->].
    destruct (partition_backs_up_first self library group stats s Huniform Hpath)
      as (evs_g & Htg & Hg).
    destruct (IH stats' (after_partition self group stats s)) as (evs_r & Htr & Hr).
    exists (evs_g ++ evs_r). split.
    + rewrite Htr, Htg, app_assoc. reflexivity.
    + intros backed_up. rewrite backup_precedes_mutation_app, Hg, Hr. reflexivity.
Qed.

(** X24. When the matches passed to [bulk_update] never give two
    different libraries the same name, and [library] shares its folder
    with no other library among them, every change [bulk_update] makes to
    [library] comes after a successful copy of its metadata file. *)
Theorem bulk_update_backs_up_before_writing
    (self : CalibreUpdater.t) (matches : list BookMatch.t)
    (library : CalibreLibrary.t) (s : @Sys E) :
  (forall m1 m2, m1 ∈ matches -> m2 ∈ matches ->
     CalibreLibrary.name (BookMatch.library m1)
     = CalibreLibrary.name (BookMatch.library m2) ->
     BookMatch.library m1 = BookMatch.library m2) ->
  (forall m, m ∈ matches ->
     CalibreLibrary.path (BookMatch.library m) = CalibreLibrary.path library ->
     BookMatch.library m = library) ->
  backup_precedes_mutation library false
    (events_since s (snd (bulk_update self matches s))) = true.
Proof.
  intros Hnames Hfolder. unfold bulk_update.
  match goal with |- context [process_libraries self ?d ?st s] =>
    destruct (process_libraries_backs_up_first self library d) with (stats := st) (s := s)
      as (evs & Ht & Hsafe)
  end.
  - pose proof (group_by_library_members matches) as Hmembers.
    eapply Forall_impl; [exact Hmembers|].
    intros [k [first others]] Hentry. unfold group_matches in Hentry.
    cbn [fst snd] in Hentry. inversion Hentry as [|? ? [Hfirst Hk] Hothers]; subst.
    split; cbn [fst snd group_matches].
    + constructor; [reflexivity|].
      eapply Forall_impl; [exact Hothers|]. intros m [Hm Hname].
      apply Hnames; [assumption|assumption|congruence].
    + apply Hfolder. assumption.
  - rewrite (events_since_trace _ _ _ Ht). apply Hsafe.
Qed.

End BackupFirstTheorem.

Lemma bulk_update_backs_up_before_writing_example :
  backup_precedes_mutation Demo.mcr false
    (events_since (Demo.start Demo.unison_world)
       (snd (bulk_update Demo.updater [Demo.matched Demo.unison 7 Demo.mcr]
               (Demo.start Demo.unison_world)))) = true.
Proof.
  apply bulk_update_backs_up_before_writing.
  - intros m1 m2 H1 H2 _.
    apply list_elem_of_singleton in H1, H2. congruence.
  - intros m Hm _. apply list_elem_of_singleton in Hm. subst. reflexivity.
Defined.


(* ===================================================================== *)
(** ** Matching, run *)
(* ===================================================================== *)

Example demo_primary_short_circuit :
  let lm := {| LibraryManager.libraries := [Demo.mcr; Demo.shelf_a; Demo.shelf_b];
               LibraryManager.primary_library := Some Demo.mcr |} in
  let out := find_book_across_libraries lm Demo.unison (Demo.start Demo.three_stores) in
  map BookMatch.library (fst out) = [Demo.mcr]
  /\ trace (snd out) = [EvQueryBooks "/lib/MCR/metadata.db"].
Proof. split; reflexivity. Qed.

Example demo_conflict_between_secondaries :
  let lm := {| LibraryManager.libraries := [Demo.shelf_a; Demo.shelf_b];
               LibraryManager.primary_library := None |} in
  let r := fst (fst (match_all_books (BookMatcher.init lm) [Demo.unison]
                       (Demo.start Demo.three_stores))) in
  successful_matches r = [] /\ unmatched_books r = []
  /\ map (fun c => map BookMatch.library (BookConflict.matches c)) (conflicts r)
     = [[Demo.shelf_a; Demo.shelf_b]].
Proof. repeat split; reflexivity. Qed.

Example demo_single_secondary_match :
  let lm := {| LibraryManager.libraries := [Demo.shelf_a; Demo.books_a];
               LibraryManager.primary_library := None |} in
  let r := fst (fst (match_all_books (BookMatcher.init lm) [Demo.unison]
                       (Demo.start Demo.three_stores))) in
  map BookMatch.library (successful_matches r) = [Demo.shelf_a]
  /\ unmatched_books r = [] /\ conflicts r = [].
Proof. repeat split; reflexivity. Qed.

Example demo_title_only_agreement :
  fst (find_book_in_library
         (Demo.book "b2" "You and I in Unison" "Somebody Else" [])
         Demo.mcr (Demo.start Demo.three_stores)) = None.
Proof. reflexivity. Qed.

(* ===================================================================== *)
(** ** The dry run before the source is loaded *)
(* ===================================================================== *)

(** Why [dry_run_update_is_pure] asks for the reader: the preview loop of
    [_simulate_updates] looks a match's collections up in
    [self.kobo_reader.rating_collections], and [kobo_reader] is [None]
    until [load_kobo_data] has run. *)
Example dry_run_without_reader_raises :
  fst (update_calibre_metadata
         (Demo.engine None [] [Demo.mcr] [Demo.matched Demo.unison 7 Demo.mcr])
         true (Demo.start Demo.unison_world))
  = Raise (AttributeError "'NoneType' object has no attribute 'rating_collections'").
Proof. reflexivity. Qed.
(* ===================================================================== *)
(** ** Match Engine: what the three lists hold *)
(* ===================================================================== *)

Section MatchInvariants.

Context {E : Env}.

Lemma found_in_built (w : World E) kobo_book library m :
  found_in w kobo_book library = Some m ->
  BookMatch.kobo_book m = kobo_book
  /\ BookMatch.library m = library
  /\ built_from_store w m.
Proof.
  rewrite found_in_unfold.
  destruct (sqlite_books E w (CalibreLibrary.metadata_db_path library))
    as [rows|] eqn:Hrows; [|discriminate].
  intros Hm. apply first_exact_match_some in Hm
    as (before & row & after & -> & _ & Hrow & ->).
  split; [reflexivity|split; [reflexivity|]].
  exists (before ++ row :: after), row. cbn [match_of_row BookMatch.library
    BookMatch.kobo_book].
  split; [exact Hrows|split; [|split; [exact Hrow|reflexivity]]].
  apply elem_of_app. right. left.
Qed.

Lemma built_from_store_exact (w : World E) m : built_from_store w m -> exact_match m.
Proof.
  intros (rows & row & _ & _ & [Ht Ha] & Hm). unfold exact_match.
  rewrite Hm. cbn [match_of_row BookMatch.kobo_book BookMatch.calibre_title
    BookMatch.calibre_authors BookMatch.match_type BookMatch.match_confidence].
  auto.
Qed.

Lemma omap_found_in_sublist (w : World E) kobo_book libs :
  map BookMatch.library (omap (found_in w kobo_book) libs) `sublist_of` libs.
Proof.
  induction libs as [|lib libs IH]; [constructor|].
  cbn [omap list_omap]. fold (omap (found_in w kobo_book) libs).
  destruct (found_in w kobo_book lib) as [m|] eqn:Hm.
  - apply found_in_built in Hm as (_ & <- & _). cbn [map].
    apply sublist_skip. exact IH.
  - apply sublist_cons. exact IH.
Qed.

Lemma across_found_members (w : World E) lm kobo_book m :
  m ∈ across_found w lm kobo_book ->
  BookMatch.kobo_book m = kobo_book /\ built_from_store w m.
Proof.
  unfold across_found, primary_found, secondary_found.
  destruct (LibraryManager.get_primary_library lm) as [p|].
  - destruct (found_in w kobo_book p) as [m0|] eqn:Hp.
    + intros Hin. apply list_elem_of_singleton in Hin as ->.
      apply found_in_built in Hp as (? & _ & ?). auto.
    + intros Hin. apply list_elem_of_omap in Hin as (lib & _ & Hm).
      apply found_in_built in Hm as (? & _ & ?). auto.
  - intros Hin. apply list_elem_of_omap in Hin as (lib & _ & Hm).
    apply found_in_built in Hm as (? & _ & ?). auto.
Qed.

Lemma across_found_libraries (w : World E) lm kobo_book :
  match across_found w lm kobo_book with
  | [m] =>
      LibraryManager.get_primary_library lm = Some (BookMatch.library m)
      \/ BookMatch.library m ∈ LibraryManager.get_secondary_libraries lm
  | found =>
      map BookMatch.library found
        `sublist_of` LibraryManager.get_secondary_libraries lm
  end.
Proof.
  pose proof (omap_found_in_sublist w kobo_book
                (LibraryManager.get_secondary_libraries lm)) as Hsub.
  unfold across_found, primary_found, secondary_found.
  assert (Hsecondary :
    match omap (found_in w kobo_book) (LibraryManager.get_secondary_libraries lm) with
    | [m] =>
        LibraryManager.get_primary_library lm = Some (BookMatch.library m)
        \/ BookMatch.library m ∈ LibraryManager.get_secondary_libraries lm
    | found =>
        map BookMatch.library found
          `sublist_of` LibraryManager.get_secondary_libraries lm
    end).
  { destruct (omap _ _) as [|m [|m' rest]]; try exact Hsub.
    right. apply singleton_sublist_l. exact Hsub. }
  destruct (LibraryManager.get_primary_library lm) as [p|]; [|exact Hsecondary].
  destruct (found_in w kobo_book p) as [m|] eqn:Hp; [|exact Hsecondary].
  apply found_in_built in Hp as (_ & -> & _). left. reflexivity.
Qed.

(** X1. [match_all_books] files every item in exactly one of its three
    lists, by the number of matches found for it, and keeps the input
    order in each. *)
Theorem match_all_books_partitions_items
    (self : BookMatcher.t) (kobo_books : list KoboBook.t) (s : @Sys E) :
  let out := fst (match_all_books self kobo_books s) in
  let r := fst out in
  let count := found_count (world s) (BookMatcher.library_manager self) in
  map BookMatch.kobo_book (successful_matches r)
    = List.filter (fun b => Nat.eqb (count b) 1) kobo_books
  /\ unmatched_books r = List.filter (fun b => Nat.eqb (count b) 0) kobo_books
  /\ map BookConflict.kobo_book (conflicts r)
     = List.filter (fun b => Nat.leb 2 (count b)) kobo_books
  /\ length (successful_matches r) + length (unmatched_books r)
     + length (conflicts r) = length kobo_books
  /\ BookMatcher.unmatched_books (snd out) = unmatched_books r
  /\ BookMatcher.conflicts (snd out) = conflicts r.
Proof.
  cbv zeta. unfold match_all_books, bind, ret.
  destruct (match_loop _ kobo_books _ s) as [r s'] eqn:Hrun. cbn [fst snd].
  pose proof (match_loop_run (BookMatcher.library_manager self) kobo_books
                {| successful_matches := []; unmatched_books := []; conflicts := [] |} s)
    as H.
  cbv zeta in H. rewrite Hrun in H. cbn [fst snd successful_matches unmatched_books
    conflicts app] in H. destruct H as (-> & -> & -> & _).
  cbn [BookMatcher.unmatched_books BookMatcher.conflicts].
  clear Hrun. set (lm := BookMatcher.library_manager self).
  split; [|split; [|split; [|split; [|split; reflexivity]]]].
  - induction kobo_books as [|b rest IH]; [reflexivity|].
    cbn [omap list_omap List.filter]. unfold found_count at 1.
    pose proof (across_found_members (world s) lm b) as Hb.
    destruct (across_found (world s) lm b) as [|m [|m' found]]; cbn; try exact IH.
    f_equal; [|exact IH]. apply Hb. left.
  - induction kobo_books as [|b rest IH]; [reflexivity|].
    cbn [omap list_omap List.filter]. unfold found_count at 1.
    destruct (across_found (world s) lm b) as [|m [|m' found]]; cbn; try exact IH.
    f_equal. exact IH.
  - induction kobo_books as [|b rest IH]; [reflexivity|].
    cbn [omap list_omap List.filter]. unfold found_count at 1.
    destruct (across_found (world s) lm b) as [|m [|m' found]]; cbn; try exact IH.
    f_equal. exact IH.
  - induction kobo_books as [|b rest IH]; [reflexivity|].
    cbn [omap list_omap].
    destruct (across_found (world s) lm b) as [|m [|m' found]]; cbn in *; lia.
Qed.

(** X2. Every match [match_all_books] reports, alone or within a
    conflict, was built from a record that the store of its library holds
    and that agrees with the item on both normalised fields; it is marked
    exact.  A match reported alone comes from the primary library or from
    a secondary one; the matches of a conflict are for the conflict's item,
    there are two or more of them, and their libraries are secondary
    libraries, in the manager's order. *)
Theorem match_all_books_matches_are_exact
    (self : BookMatcher.t) (kobo_books : list KoboBook.t) (s : @Sys E) :
  let r := fst (fst (match_all_books self kobo_books s)) in
  let lm := BookMatcher.library_manager self in
  (forall m, m ∈ successful_matches r ->
     BookMatch.kobo_book m ∈ kobo_books
     /\ built_from_store (world s) m /\ exact_match m
     /\ (LibraryManager.get_primary_library lm = Some (BookMatch.library m)
         \/ BookMatch.library m ∈ LibraryManager.get_secondary_libraries lm))
  /\ (forall c, c ∈ conflicts r ->
        BookConflict.kobo_book c ∈ kobo_books
        /\ 2 <= length (BookConflict.matches c)
        /\ map BookMatch.library (BookConflict.matches c)
             `sublist_of` LibraryManager.get_secondary_libraries lm
        /\ forall m, m ∈ BookConflict.matches c ->
             BookMatch.kobo_book m = BookConflict.kobo_book c
             /\ built_from_store (world s) m /\ exact_match m).
Proof.
  cbv zeta. unfold match_all_books, bind, ret.
  destruct (match_loop _ kobo_books _ s) as [r s'] eqn:Hrun. cbn [fst snd].
  pose proof (match_loop_run (BookMatcher.library_manager self) kobo_books
                {| successful_matches := []; unmatched_books := []; conflicts := [] |} s)
    as H.
  cbv zeta in H. rewrite Hrun in H. cbn [fst snd successful_matches unmatched_books
    conflicts app] in H. destruct H as (-> & _ & -> & _).
  set (lm := BookMatcher.library_manager self). split.
  - intros m Hin. apply list_elem_of_omap in Hin as (b & Hb & Hsingle).
    pose proof (across_found_members (world s) lm b) as Hmem.
    pose proof (across_found_libraries (world s) lm b) as Hlib.
    destruct (across_found (world s) lm b) as [|m0 [|m1 found]]; try discriminate.
    injection Hsingle as ->.
    destruct (Hmem m) as [Hbook Hbuilt]; [left|].
    rewrite Hbook. split; [exact Hb|]. split; [exact Hbuilt|].
    split; [exact (built_from_store_exact _ _ Hbuilt)|exact Hlib].
  - intros c Hin. apply list_elem_of_omap in Hin as (b & Hb & Hconflict).
    pose proof (across_found_members (world s) lm b) as Hmem.
    pose proof (across_found_libraries (world s) lm b) as Hlib.
    destruct (across_found (world s) lm b) as [|m0 [|m1 found]]; try discriminate.
    injection Hconflict as <-.
    cbn [BookConflict.kobo_book BookConflict.matches].
    split; [exact Hb|]. split; [cbn; lia|]. split; [exact Hlib|].
    intros m Hm. destruct (Hmem m Hm) as [Hbook Hbuilt].
    split; [exact Hbook|]. split; [exact Hbuilt|].
    exact (built_from_store_exact _ _ Hbuilt).
Qed.

End MatchInvariants.

(* ===================================================================== *)
(** ** Grouping by library name *)
(* ===================================================================== *)

Lemma first_appearances_elem_of name names :
  name ∈ first_appearances names <-> name ∈ names.
Proof.
  induction names as [|n rest IH]; [reflexivity|].
  cbn [first_appearances]. rewrite !elem_of_cons, <- IH. split.
  - intros [->|H]; [left; reflexivity|].
    apply list_elem_of_In, filter_In in H as [H _].
    right. apply list_elem_of_In. exact H.
  - intros [->|H]; [left; reflexivity|].
    destruct (String.eqb_spec name n) as [->|Hne]; [left; reflexivity|].
    right. apply list_elem_of_In, filter_In. split; [apply list_elem_of_In; exact H|].
    apply negb_true_iff, String.eqb_neq. exact Hne.
Qed.

Lemma first_appearances_snoc names : forall name,
  first_appearances (names ++ [name])
  = first_appearances names
    ++ (if PyStr.in_list name names then [] else [name]).
Proof.
  induction names as [|n rest IH]; intros name; [reflexivity|].
  cbn [app first_appearances PyStr.in_list existsb]. rewrite IH.
  fold (PyStr.in_list name rest).
  rewrite List.filter_app. f_equal. f_equal.
  destruct (String.eqb_spec name n) as [->|Hne].
  - destruct (PyStr.in_list n rest); [reflexivity|].
    cbn [List.filter]. rewrite String.eqb_refl. reflexivity.
  - cbn [orb]. destruct (PyStr.in_list name rest); [reflexivity|].
    cbn [List.filter]. destruct (String.eqb_spec name n); [congruence|reflexivity].
Qed.

Lemma in_list_elem_of x xs : PyStr.in_list x xs = true <-> x ∈ xs.
Proof.
  unfold PyStr.in_list. rewrite existsb_exists. split.
  - intros (y & Hin & Heq). apply String.eqb_eq in Heq as ->.
    apply list_elem_of_In. exact Hin.
  - intros Hin. exists x. split; [apply list_elem_of_In; exact Hin|].
    apply String.eqb_refl.
Qed.

Lemma matches_named_absent name matches :
  PyStr.in_list name (map (fun m => CalibreLibrary.name (BookMatch.library m)) matches)
  = false ->
  matches_named name matches = [].
Proof.
  induction matches as [|m rest IH]; [reflexivity|].
  cbn [map PyStr.in_list existsb matches_named List.filter].
  rewrite (String.eqb_sym name). intros H. apply orb_false_iff in H as [-> H].
  apply IH. exact H.
Qed.

(** What appending under a key does to the items of the dictionary. *)
Lemma by_library_append_items lib_name m (groups : string -> list BookMatch.t) :
  forall keys d,
    NoDup keys ->
    items d = map (fun k => (k, groups k)) keys ->
    items (by_library_append lib_name m d)
    = if PyStr.in_list lib_name keys
      then map (fun k => (k, groups k ++ (if String.eqb k lib_name then [m] else [])))
               keys
      else map (fun k => (k, groups k)) keys ++ [(lib_name, [m])].
Proof.
  induction keys as [|k keys IH]; intros d Hnodup Hitems.
  - destruct d; [reflexivity|discriminate].
  - destruct d as [|[k' [first others]] d]; [discriminate|].
    cbn [items map fst snd] in Hitems. injection Hitems as -> Hgroup Hrest.
    apply NoDup_cons in Hnodup as [Hfresh Hnodup].
    cbn [by_library_append PyStr.in_list existsb]. rewrite (String.eqb_sym lib_name).
    destruct (String.eqb_spec k lib_name) as [->|Hne]; cbn [orb].
    + cbn [items map fst snd]. rewrite String.eqb_refl. f_equal.
      * f_equal. unfold group_matches in *. cbn [fst snd] in *.
        rewrite <- Hgroup. reflexivity.
      * rewrite Hrest. apply map_ext_in. intros k Hin.
        destruct (String.eqb_spec k lib_name) as [->|_].
        -- exfalso. apply Hfresh. apply list_elem_of_In. exact Hin.
        -- rewrite app_nil_r. reflexivity.
    + cbn [items map fst snd].
      change (map _ (by_library_append lib_name m d))
        with (items (by_library_append lib_name m d)).
      rewrite (IH d Hnodup Hrest). fold (PyStr.in_list lib_name keys).
      rewrite (proj2 (String.eqb_neq k lib_name) Hne), app_nil_r, Hgroup.
      destruct (PyStr.in_list lib_name keys); reflexivity.
Qed.

Lemma first_appearances_NoDup names : NoDup (first_appearances names).
Proof.
  induction names as [|n rest IH]; [constructor|].
  cbn [first_appearances]. apply NoDup_cons. split.
  - rewrite list_elem_of_In, filter_In, String.eqb_refl. intros [_ H]. discriminate.
  - apply NoDup_ListNoDup, List.NoDup_filter, NoDup_ListNoDup. exact IH.
Qed.

(** X3. The dictionary [by_library] that [bulk_update] and
    [_simulate_updates] build has one key for each library name among the
    matches, in order of first appearance, and under each key the matches
    whose library bears that name, in their order. *)
Theorem group_by_library_groups_by_name (matches : list BookMatch.t) :
  items (group_by_library matches)
  = map (fun name => (name, matches_named name matches))
        (first_appearances
           (map (fun m => CalibreLibrary.name (BookMatch.library m)) matches)).
Proof.
  induction matches as [|m matches IH] using rev_ind; [reflexivity|].
  unfold group_by_library. rewrite fold_left_app. cbn [fold_left].
  fold (group_by_library matches).
  rewrite (by_library_append_items _ m (fun k => matches_named k matches) _ _
             (first_appearances_NoDup _) IH).
  set (names := map (fun m => CalibreLibrary.name (BookMatch.library m)) matches).
  set (lib_name := CalibreLibrary.name (BookMatch.library m)).
  rewrite map_app. cbn [map]. fold names lib_name.
  rewrite first_appearances_snoc.
  assert (Hin : PyStr.in_list lib_name (first_appearances names)
                = PyStr.in_list lib_name names).
  { apply eq_true_iff_eq. rewrite !in_list_elem_of.
    apply first_appearances_elem_of. }
  rewrite Hin.
  assert (Hnamed : forall k,
    matches_named k (matches ++ [m])
    = matches_named k matches ++ (if String.eqb k lib_name then [m] else [])).
  { intros k. unfold matches_named. rewrite List.filter_app. cbn [List.filter].
    fold lib_name. rewrite (String.eqb_sym lib_name). reflexivity. }
  destruct (PyStr.in_list lib_name names) eqn:Hknown.
  - rewrite app_nil_r. apply map_ext. intros k. rewrite Hnamed. reflexivity.
  - rewrite map_app. cbn [map]. f_equal.
    + apply map_ext_in. intros k Hk. rewrite Hnamed.
      destruct (String.eqb_spec k lib_name) as [->|_]; [|rewrite app_nil_r; reflexivity].
      exfalso. apply list_elem_of_In in Hk.
      apply (proj2 (in_list_elem_of _ _)) in Hk. congruence.
    + rewrite Hnamed, String.eqb_refl.
      rewrite (matches_named_absent lib_name matches Hknown). reflexivity.
Qed.

(* ===================================================================== *)
(** ** The update applier, command by command *)
(* ===================================================================== *)

Section Commands.

Context {E : Env}.

Lemma run_step argv (s : @Sys E) :
  run argv s
  = (fst (subprocess_run E (world s) argv),
     {| world := snd (subprocess_run E (world s) argv);
        trace := trace s ++ [EvRun argv (fst (subprocess_run E (world s) argv))] |}).
Proof. unfold run. destruct (subprocess_run E (world s) argv); reflexivity. Qed.

Lemma _update_custom_column_run self library book_id column value values (s : @Sys E) :
  let argv := set_metadata_argv self library book_id column (value :: values) in
  _update_custom_column self library book_id column (value :: values) s
  = (connection_ok (fst (subprocess_run E (world s) argv)),
     {| world := snd (subprocess_run E (world s) argv);
        trace := trace s ++ [EvRun argv (fst (subprocess_run E (world s) argv))] |}).
Proof.
  cbv zeta. unfold _update_custom_column, bind, ret.
  fold (set_metadata_argv self library book_id column (value :: values)).
  rewrite run_step.
  destruct (fst (subprocess_run E (world s) _)) as [r| |]; reflexivity.
Qed.

(** X4. [update_book_metadata] issues the field writes the match calls
    for, ratings first, and stops at the first one the tool refuses: the
    commands it runs are the planned writes or, after a refusal, the
    first of them only; every command but the last was accepted; and it
    reports success exactly when all of them were, in which case every
    planned write was issued. *)
Theorem update_book_metadata_stops_at_refusal
    (self : CalibreUpdater.t) (m : BookMatch.t) (s : @Sys E) :
  let out := update_book_metadata self m s in
  let events := events_since s (snd out) in
  commands events `prefix_of` planned_writes self m
  /\ length (commands events) = length events
  /\ forallb event_accepted (removelast events) = true
  /\ fst out = forallb event_accepted events
  /\ (fst out = true -> commands events = planned_writes self m).
Proof.
  cbv zeta. unfold update_book_metadata, planned_writes, bind.
  assert (Hnone : forall s0 : @Sys E, events_since s0 s0 = []).
  { intros s0. unfold events_since. apply drop_all. }
  destruct (_get_rating_collections _) as [|rating ratings];
    destruct (_get_genre_collections _) as [|genre genres];
    rewrite ?_update_custom_column_run; cbv zeta.
  - unfold ret. cbn [negb fst snd]. rewrite Hnone.
    split; [exists []; reflexivity|]. repeat split; reflexivity.
  - unfold ret. cbv beta iota. cbn [negb].
    rewrite _update_custom_column_run. cbv zeta.
    destruct (connection_ok _) eqn:Hok; cbn [negb fst snd];
      rewrite events_since_app;
      cbn [commands omap list_omap removelast forallb event_accepted length andb app];
      rewrite Hok;
      (split; [exists []; reflexivity|]); repeat split; try reflexivity; discriminate.
  - destruct (connection_ok _) eqn:Hok; unfold ret; cbn [negb fst snd];
      rewrite events_since_app;
      cbn [commands omap list_omap removelast forallb event_accepted length andb app];
      rewrite Hok;
      (split; [exists []; reflexivity|]); repeat split; try reflexivity; discriminate.
  - destruct (connection_ok _) eqn:Hok; cbn [negb fst snd world trace].
    + rewrite _update_custom_column_run. cbv zeta. cbn [world trace].
      destruct (connection_ok (fst (subprocess_run E _ (set_metadata_argv _ _ _ "my_genres" _))))
        eqn:Hok2; unfold ret; cbn [negb fst snd];
        rewrite <- app_assoc, events_since_app;
        cbn [commands omap list_omap removelast forallb event_accepted length andb app];
        rewrite Hok, ?Hok2;
        (split; [exists []; reflexivity|]); repeat split; try reflexivity; discriminate.
    + unfold ret. cbn [fst snd]. rewrite events_since_app.
      cbn [commands omap list_omap removelast forallb event_accepted length andb app].
      rewrite Hok.
      split; [eexists; reflexivity|]. repeat split; try reflexivity; discriminate.
Qed.

(** X5. [ensure_custom_columns] reads the custom-columns table once and
    then issues one creation for each column the read did not show, the
    ratings column first; the second creation is issued whatever the
    answer to the first.  When the read shows both columns, no command is
    run, the world is left as it was, and the result is [True]. *)
Theorem ensure_custom_columns_creates_missing
    (self : CalibreUpdater.t) (library : CalibreLibrary.t) (s : @Sys E) :
  let out := ensure_custom_columns self library s in
  let events := events_since s (snd out) in
  let found := columns_found (world s) library in
  head events = Some (EvQueryColumns (CalibreLibrary.metadata_db_path library))
  /\ commands events = planned_creations self library found
  /\ length events = S (length (planned_creations self library found))
  /\ (my_ratings found = true -> my_genres found = true ->
      fst out = true /\ world (snd out) = world s).
Proof.
  cbv zeta. unfold ensure_custom_columns, planned_creations, bind.
  rewrite check_custom_columns_run.
  destruct (columns_found (world s) library) as [ratings genres].
  cbn [my_ratings my_genres]. unfold emit, ret.
  destruct ratings, genres; cbn [negb];
    rewrite ?create_custom_column_run; cbn [fst snd world trace];
    rewrite ?create_custom_column_run; cbn [fst snd world trace];
    rewrite <- ?app_assoc; rewrite events_since_app;
    cbn [app commands omap list_omap head length];
    (split; [reflexivity|split; [reflexivity|split; [reflexivity|]]]);
    intros; try discriminate; split; reflexivity.
Qed.

Lemma emits_any {A} (P : Event -> Prop) (c : @M E A) :
  emits (E:=E) P c -> emits (E:=E) any_event c.
Proof. apply emits_mono. intros e _. exact I. Qed.

Lemma update_each_grows self library_matches : forall stats,
  emits (E:=E) any_event (update_each self library_matches stats).
Proof.
  induction library_matches as [|m rest IH]; intros stats; [apply emits_ret|].
  cbn [update_each]. apply emits_bind.
  - eapply emits_any, update_book_metadata_emits.
  - intros ok. apply IH.
Qed.

Lemma process_libraries_grows self by_library : forall stats,
  emits (E:=E) any_event (process_libraries self by_library stats).
Proof.
  induction by_library as [|[library_name group] rest IH]; intros stats;
    [apply emits_ret|].
  cbn [process_libraries].
  apply emits_bind; [eapply emits_any, test_calibredb_connection_emits|].
  intros [|]; cbn [negb]; [|apply IH].
  apply emits_bind; [eapply emits_any, backup_library_emits|].
  intros [|]; cbn [negb]; [|apply IH].
  apply emits_bind; [eapply emits_any, ensure_custom_columns_emits|].
  intros [|]; cbn [negb]; [|apply IH].
  apply emits_bind; [apply update_each_grows|]. intros stats'. apply IH.
Qed.

Lemma process_libraries_probe self library_name group rest stats (s : @Sys E) :
  let library := BookMatch.library (fst group) in
  let res := fst (subprocess_run E (world s) (list_argv self library)) in
  let s1 := {| world := snd (subprocess_run E (world s) (list_argv self library));
               trace := trace s ++ [EvRun (list_argv self library) res] |} in
  exists evs,
    trace (snd (process_libraries self ((library_name, group) :: rest) stats s))
    = trace s1 ++ evs
    /\ (connection_ok res = false ->
        process_libraries self ((library_name, group) :: rest) stats s
        = process_libraries self rest
            (add_failed (length (group_matches group)) stats) s1).
Proof.
  cbv zeta. cbn [process_libraries].
  match goal with |- context [bind (test_calibredb_connection _ _) ?k] =>
    set (K := k)
  end.
  unfold bind. rewrite test_calibredb_connection_run.
  destruct (connection_ok _).
  - assert (Hk : emits (E:=E) any_event (K true)).
    { subst K. cbn [negb].
      apply emits_bind; [eapply emits_any, backup_library_emits|].
      intros [|]; cbn [negb]; [|apply process_libraries_grows].
      apply emits_bind; [eapply emits_any, ensure_custom_columns_emits|].
      intros [|]; cbn [negb]; [|apply process_libraries_grows].
      apply emits_bind; [apply update_each_grows|].
      intros stats'. apply process_libraries_grows. }
    match goal with |- exists evs, trace (snd (K true ?st)) = _ /\ _ =>
      destruct (Hk st) as (evs & Htrace & _)
    end.
    exists evs. split; [exact Htrace|discriminate].
  - subst K. cbn [negb].
    match goal with |- exists evs, trace (snd (process_libraries _ _ ?st0 ?st)) = _ /\ _ =>
      destruct (process_libraries_grows self rest st0 st) as (evs & Htrace & _)
    end.
    exists evs. split; [exact Htrace|reflexivity].
Qed.

Lemma process_libraries_without_connection self by_library : forall stats (s : @Sys E),
  let out := process_libraries self by_library stats s in
  let events := events_since s (snd out) in
  probes_refused events = true ->
  (total (fst out) = total stats
   /\ successful (fst out) = successful stats
   /\ failed (fst out) = failed stats + partition_size by_library
   /\ libraries_updated (fst out) = libraries_updated stats)
  /\ commands events
     = map (fun entry => list_argv self (BookMatch.library (fst (snd entry))))
           by_library
  /\ forallb is_refused_probe events = true.
Proof.
  induction by_library as [|[library_name group] rest IH]; intros stats s; cbv zeta.
  - intros _. cbn [process_libraries]. unfold ret. cbn [fst snd].
    unfold events_since. rewrite drop_all. unfold partition_size. cbn.
    repeat split; try reflexivity. lia.
  - destruct (process_libraries_probe self library_name group rest stats s)
      as (evs & Htrace & Hskip). cbv zeta in Htrace, Hskip.
    rewrite (events_since_trace s _ (_ :: evs))
      by (rewrite Htrace; cbn [trace]; rewrite <- app_assoc; reflexivity).
    cbn [app probes_refused forallb list_argv is_probe]. rewrite String.eqb_refl.
    cbn [implb]. fold (list_argv self (BookMatch.library (fst group))).
    destruct (connection_ok _) eqn:Hok; [discriminate|]. cbn [negb andb].
    intros Hrefused. specialize (Hskip eq_refl). rewrite Hskip in Htrace |- *.
    match type of Htrace with trace (snd (process_libraries _ _ ?st0 ?st)) = _ =>
      specialize (IH st0 st); cbv zeta in IH;
      rewrite (events_since_trace st _ evs Htrace) in IH
    end.
    destruct (IH Hrefused) as ((Ht & Hs & Hf & Hl) & Hcommands & Hlength).
    cbn [total successful failed libraries_updated add_failed] in Ht, Hs, Hf, Hl.
    split; [|split].
    + unfold partition_size in *. cbn [map sum_list snd] in *.
      repeat split; try assumption. rewrite Hf. unfold id. lia.
    + cbn [commands omap list_omap map fst snd]. f_equal. exact Hcommands.
    + cbn [forallb is_refused_probe list_argv is_probe]. rewrite String.eqb_refl.
      fold (list_argv self (BookMatch.library (fst group))).
      rewrite Hok. exact Hlength.
Qed.

(** X6. When no connection probe of a [bulk_update] run succeeds, the run
    consists of the probes alone, one for each library name among the
    matches: nothing is copied, read, created or written, every match is
    counted as failed and no library as updated. *)
Theorem bulk_update_without_connection
    (self : CalibreUpdater.t) (matches : list BookMatch.t) (s : @Sys E) :
  let out := bulk_update self matches s in
  let events := events_since s (snd out) in
  probes_refused events = true ->
  successful (fst out) = 0
  /\ failed (fst out) = length matches
  /\ libraries_updated (fst out) = ∅
  /\ forallb is_refused_probe events = true
  /\ commands events
     = map (fun entry => list_argv self (BookMatch.library (fst (snd entry))))
           (group_by_library matches).
Proof.
  cbv zeta. unfold bulk_update. intros Hrefused.
  match goal with |- context [process_libraries self ?d ?st s] =>
    pose proof (process_libraries_without_connection self d st s) as H
  end.
  cbv zeta in H. destruct (H Hrefused) as ((_ & Hs & Hf & Hl) & Hcommands & Hprobes).
  rewrite group_by_library_size in Hf.
  cbn [successful failed libraries_updated] in Hs, Hf, Hl.
  repeat split; assumption.
Qed.



End Commands.

Lemma bulk_update_without_connection_witness :
  probes_refused
    (events_since (Demo.start empty_world)
       (snd (bulk_update Demo.updater [Demo.tagged_a; Demo.tagged_b]
               (Demo.start empty_world)))) = true
  /\ failed (fst (bulk_update Demo.updater [Demo.tagged_a; Demo.tagged_b]
                    (Demo.start empty_world))) = 2.
Proof.
  split; [reflexivity|].
  apply (bulk_update_without_connection Demo.updater [Demo.tagged_a; Demo.tagged_b]
           (Demo.start empty_world)).
  reflexivity.
Defined.

(* ===================================================================== *)
(** ** Conflict resolution *)
(* ===================================================================== *)

Lemma resolve_loop_skip_all ask c after : forall before k resolved,
  ask (k + length before) c = Some "skip_all" ->
  resolve_loop ask k (before ++ c :: after) resolved
  = resolve_loop ask k before resolved.
Proof.
  induction before as [|b before IH]; intros k resolved Hskip.
  - cbn [app length resolve_loop] in *. rewrite Nat.add_0_r in Hskip.
    rewrite Hskip. reflexivity.
  - cbn [app length resolve_loop] in *.
    rewrite <- Nat.add_succ_comm in Hskip.
    destruct (ask k b) as [action|]; [|apply IH; exact Hskip].
    destruct (String.eqb action "skip_all"); [reflexivity|].
    destruct (String.eqb action "skip" || negb (PyStr.truthy action));
      [apply IH; exact Hskip|].
    destruct (String.eqb action "all"); [apply IH; exact Hskip|].
    destruct (PyStr.startswith action "library_"); [|apply IH; exact Hskip].
    destruct (nth_error _ 1) as [digits|]; [|reflexivity].
    destruct (py_int digits) as [library_index|]; [|reflexivity].
    destruct (py_getitem _ _) as [m|]; [|reflexivity].
    apply IH. exact Hskip.
Qed.

(** X8. "Skip All Conflicts" ends the resolution: the outcome is the one
    of the conflicts shown before it, and neither the conflict it was
    pressed on nor any later one contributes. *)
Theorem resolve_conflicts_skip_all
    (ask : nat -> BookConflict.t -> option string)
    (before : list BookConflict.t) (c : BookConflict.t)
    (after : list BookConflict.t) :
  ask (length before) c = Some "skip_all" ->
  _resolve_conflicts ask (before ++ c :: after) = _resolve_conflicts ask before.
Proof.
  intros Hskip. unfold _resolve_conflicts.
  destruct before as [|b before].
  - cbn [app length resolve_loop] in *. rewrite Hskip. reflexivity.
  - change ((b :: before) ++ c :: after) with (b :: (before ++ c :: after)).
    change (b :: (before ++ c :: after)) with ((b :: before) ++ c :: after).
    cbv iota.
    apply (resolve_loop_skip_all ask c after (b :: before) 0 []). exact Hskip.
Qed.

Lemma py_getitem_elem_of {A} (l : list A) i x : py_getitem l i = Some x -> x ∈ l.
Proof.
  unfold py_getitem. destruct (0 <=? i)%Z.
  - intros H. apply list_elem_of_In. eapply nth_error_In. exact H.
  - destruct (- Z.of_nat (length l) <=? i)%Z; [|discriminate].
    intros H. apply list_elem_of_In. eapply nth_error_In. exact H.
Qed.

Lemma resolve_loop_members ask conflicts : forall k resolved result,
  resolve_loop ask k conflicts resolved = Returned result ->
  forall m, m ∈ result ->
    m ∈ resolved \/ exists c, c ∈ conflicts /\ m ∈ BookConflict.matches c.
Proof.
  induction conflicts as [|c rest IH]; intros k resolved result Hrun m Hm.
  - cbn [resolve_loop] in Hrun. injection Hrun as <-. left. exact Hm.
  - cbn [resolve_loop] in Hrun.
    assert (Hlater : forall resolved',
      resolve_loop ask (S k) rest resolved' = Returned result ->
      (forall x, x ∈ resolved' -> x ∈ resolved \/ x ∈ BookConflict.matches c) ->
      m ∈ resolved \/ exists c0, c0 ∈ c :: rest /\ m ∈ BookConflict.matches c0).
    { intros resolved' Hrun' Hsub.
      destruct (IH _ _ _ Hrun' m Hm) as [Hin|(c0 & Hc0 & Hin)].
      - destruct (Hsub m Hin) as [H|H]; [left; exact H|].
        right. exists c. split; [left|exact H].
      - right. exists c0. split; [right; exact Hc0|exact Hin]. }
    destruct (ask k c) as [action|]; [|apply (Hlater resolved Hrun); auto].
    destruct (String.eqb action "skip_all").
    { injection Hrun as <-. left. exact Hm. }
    destruct (String.eqb action "skip" || negb (PyStr.truthy action));
      [apply (Hlater resolved Hrun); auto|].
    destruct (String.eqb action "all").
    { apply (Hlater _ Hrun). intros x Hx. apply elem_of_app in Hx. exact Hx. }
    destruct (PyStr.startswith action "library_");
      [|apply (Hlater resolved Hrun); auto].
    destruct (nth_error _ 1) as [digits|]; [|discriminate].
    destruct (py_int digits) as [library_index|]; [|discriminate].
    destruct (py_getitem _ _) as [m0|] eqn:Hget; [|discriminate].
    apply (Hlater _ Hrun). intros x Hx. apply elem_of_app in Hx as [Hx|Hx].
    + left. exact Hx.
    + apply list_elem_of_singleton in Hx as ->. right.
      eapply py_getitem_elem_of. exact Hget.
Qed.

(** X9. Whatever the dialogs answer, a resolution that returns holds only
    matches that belong to one of the conflicts shown. *)
Theorem resolve_conflicts_selects_from_conflicts
    (ask : nat -> BookConflict.t -> option string)
    (conflicts : list BookConflict.t) (resolved : list BookMatch.t) :
  _resolve_conflicts ask conflicts = Returned resolved ->
  forall m, m ∈ resolved ->
    exists c, c ∈ conflicts /\ m ∈ BookConflict.matches c.
Proof.
  unfold _resolve_conflicts. destruct conflicts as [|c rest].
  - intros [= <-] m Hm. inversion Hm.
  - intros Hrun m Hm.
    destruct (resolve_loop_members ask _ _ _ _ Hrun m Hm) as [Hin|H]; [|exact H].
    inversion Hin.
Qed.

Section DialogAnswers.

Lemma string_of_uint_digits d :
  all_chars PyStr.is_decimal (NilEmpty.string_of_uint d) = true.
Proof. induction d; cbn [NilEmpty.string_of_uint all_chars]; auto. Qed.

Lemma decimal_not_space c : PyStr.is_decimal c = true -> PyStr.is_space c = false.
Proof. destruct c as [[] [] [] [] [] [] [] []]; cbv; congruence. Qed.

Lemma decimal_not_underscore c : PyStr.is_decimal c = true -> Ascii.eqb c "_" = false.
Proof. destruct c as [[] [] [] [] [] [] [] []]; cbv; congruence. Qed.

Lemma decimal_not_sign c :
  PyStr.is_decimal c = true -> Ascii.eqb c "+" = false /\ Ascii.eqb c "-" = false.
Proof. destruct c as [[] [] [] [] [] [] [] []]; cbv; auto; congruence. Qed.

Lemma rstrip_digits s : all_chars PyStr.is_decimal s = true -> PyStr.rstrip s = s.
Proof.
  induction s as [|c r IH]; [reflexivity|].
  cbn [all_chars PyStr.rstrip]. intros H. apply andb_true_iff in H as [Hc Hr].
  rewrite (IH Hr), (decimal_not_space c Hc). destruct r; reflexivity.
Qed.

Lemma strip_digits s : all_chars PyStr.is_decimal s = true -> PyStr.strip s = s.
Proof.
  intros H. unfold PyStr.strip.
  replace (PyStr.lstrip s) with s; [apply rstrip_digits; exact H|].
  destruct s as [|c r]; [reflexivity|].
  cbn [all_chars] in H. apply andb_true_iff in H as [Hc _].
  cbn [PyStr.lstrip]. rewrite (decimal_not_space c Hc). reflexivity.
Qed.

Lemma split_char_digits s :
  all_chars PyStr.is_decimal s = true -> PyStr.split_char "_" s = [s].
Proof.
  induction s as [|c r IH]; [reflexivity|].
  cbn [all_chars PyStr.split_char]. intros H. apply andb_true_iff in H as [Hc Hr].
  rewrite (decimal_not_underscore c Hc), (IH Hr). reflexivity.
Qed.

Lemma str_of_nat_digits i :
  exists d, PyStr.str_of_int (Z.of_nat i) = NilEmpty.string_of_uint d
            /\ d <> Decimal.Nil
            /\ Z.to_int (Z.of_nat i) = Decimal.Pos d.
Proof.
  unfold PyStr.str_of_int. destruct (Z.of_nat i) as [|p|p] eqn:Hz; [| |lia].
  - exists (Decimal.D0 Decimal.Nil). repeat split. discriminate.
  - exists (Pos.to_uint p). cbn [Z.to_int NilZero.string_of_int].
    assert (Hnonnil : Pos.to_uint p <> Decimal.Nil).
    { intros Hnil. pose proof (DecimalPos.Unsigned.of_to p) as Hback.
      rewrite Hnil in Hback. discriminate. }
    split; [|split; [exact Hnonnil|reflexivity]].
    unfold NilZero.string_of_uint. destruct (Pos.to_uint p); congruence.
Qed.

(** [int(str(i)) == i] for a position [i]. *)
Lemma py_int_str_of_nat i : py_int (PyStr.str_of_int (Z.of_nat i)) = Some (Z.of_nat i).
Proof.
  destruct (str_of_nat_digits i) as (d & Hstr & Hnonnil & Hint).
  pose proof (string_of_uint_digits d) as Hdigits.
  unfold py_int. rewrite Hstr, (strip_digits _ Hdigits).
  destruct (NilEmpty.string_of_uint d) as [|c r] eqn:Hs.
  - destruct d; [congruence|discriminate..].
  - cbn [all_chars] in Hdigits. apply andb_true_iff in Hdigits as [Hc _].
    destruct (decimal_not_sign c Hc) as [-> ->].
    unfold digits_value. rewrite <- Hs.
    replace (NilEmpty.string_of_uint d) with (NilZero.string_of_uint d)
      by (destruct d; reflexivity || congruence).
    rewrite (NilZero.usu d Hnonnil). cbn [option_map]. f_equal.
    change (Z.of_uint d) with (Z.of_int (Decimal.Pos d)).
    rewrite <- Hint. apply DecimalZ.of_to.
Qed.

Lemma py_getitem_position {A} (l : list A) i :
  py_getitem l (Z.of_nat i) = nth_error l i.
Proof.
  unfold py_getitem.
  assert (H : (0 <=? Z.of_nat i)%Z = true) by (apply Z.leb_le; lia).
  rewrite H, Nat2Z.id. reflexivity.
Qed.

(** What the loop does with the value of a library button. *)
Lemma library_choice_parsed i :
  String.eqb (library_choice i) "skip_all" = false
  /\ String.eqb (library_choice i) "skip" = false
  /\ PyStr.truthy (library_choice i) = true
  /\ String.eqb (library_choice i) "all" = false
  /\ PyStr.startswith (library_choice i) "library_" = true
  /\ nth_error (PyStr.split_char "_" (library_choice i)) 1
     = Some (PyStr.str_of_int (Z.of_nat i)).
Proof.
  destruct (str_of_nat_digits i) as (d & Hstr & _ & _).
  pose proof (string_of_uint_digits d) as Hdigits. rewrite <- Hstr in Hdigits.
  unfold library_choice. set (digits := PyStr.str_of_int (Z.of_nat i)) in *.
  cbv [String.append]. repeat split; try reflexivity.
  - unfold PyStr.startswith. rewrite !prefix_cons. cbn [Ascii.eqb Bool.eqb andb].
    destruct digits; reflexivity.
  - cbn [PyStr.split_char Ascii.eqb Bool.eqb]. rewrite (split_char_digits _ Hdigits).
    reflexivity.
Qed.

Lemma resolve_loop_follows_answers answers conflicts : forall k resolved,
  (forall j c, nth_error conflicts j = Some c -> offered c (answers (k + j) c)) ->
  resolve_loop (fun k c => action_of (answers k c)) k conflicts resolved
  = Returned (resolved ++ selection answers k conflicts).
Proof.
  induction conflicts as [|c rest IH]; intros k resolved Hoffered.
  - cbn [resolve_loop selection]. rewrite app_nil_r. reflexivity.
  - assert (Hrest : forall j c0, nth_error rest j = Some c0 ->
                                 offered c0 (answers (S k + j) c0)).
    { intros j c0 Hj. rewrite Nat.add_succ_comm. apply Hoffered. exact Hj. }
    specialize (Hoffered 0 c eq_refl). rewrite Nat.add_0_r in Hoffered.
    cbn [resolve_loop selection].
    destruct (answers k c) as [| | | | |i]; cbn [action_of selected offered] in *.
    + apply (IH _ _ Hrest).
    + cbn. apply (IH _ _ Hrest).
    + cbn. apply (IH _ _ Hrest).
    + cbn. rewrite app_nil_r. reflexivity.
    + cbn. rewrite (IH _ _ Hrest), app_assoc. reflexivity.
    + destruct (library_choice_parsed i) as (-> & -> & -> & -> & -> & ->).
      cbn [orb negb]. rewrite py_int_str_of_nat, py_getitem_position.
      destruct (nth_error (BookConflict.matches c) i) as [m|] eqn:Hm.
      * rewrite (IH _ _ Hrest), <- app_assoc. reflexivity.
      * apply nth_error_None in Hm. lia.
Qed.

End DialogAnswers.

(** X10. When every dialog is answered with something it offers,
    [_resolve_conflicts] does not raise, and returns, in the order of the
    conflicts, the match at the chosen position for a library button and
    all the matches of the conflict for "all", up to the first
    "Skip All Conflicts". *)
Theorem resolve_conflicts_follows_answers
    (answers : nat -> BookConflict.t -> Answer) (conflicts : list BookConflict.t) :
  (forall k c, nth_error conflicts k = Some c -> offered c (answers k c)) ->
  _resolve_conflicts (fun k c => action_of (answers k c)) conflicts
  = Returned (selection answers 0 conflicts).
Proof.
  intros Hoffered. unfold _resolve_conflicts.
  destruct conflicts as [|c rest]; [reflexivity|].
  apply (resolve_loop_follows_answers answers (c :: rest) 0 []). exact Hoffered.
Qed.

Lemma resolve_conflicts_follows_answers_witness :
  _resolve_conflicts
    (fun k c => action_of (match k with 0 => LibraryAt 1 | _ => AllLibraries end))
    [shelf_conflict; shelf_conflict]
  = Returned [Demo.matched Demo.unison 9 Demo.shelf_b;
              Demo.matched Demo.unison 7 Demo.shelf_a;
              Demo.matched Demo.unison 9 Demo.shelf_b].
Proof.
  apply (resolve_conflicts_follows_answers
           (fun k c => match k with 0 => LibraryAt 1 | _ => AllLibraries end)
           [shelf_conflict; shelf_conflict]).
  intros [|[|k]] c H; simpl in H; [..|destruct k; discriminate];
    injection H as <-; simpl; lia.
Defined.

Lemma resolve_conflicts_skip_all_witness :
  _resolve_conflicts
    (fun k c => match k with 0 => Some "all" | _ => Some "skip_all" end)
    ([shelf_conflict] ++ shelf_conflict :: [shelf_conflict])
  = _resolve_conflicts
      (fun k c => match k with 0 => Some "all" | _ => Some "skip_all" end)
      [shelf_conflict].
Proof.
  apply (resolve_conflicts_skip_all
           (fun k c => match k with 0 => Some "all" | _ => Some "skip_all" end)
           [shelf_conflict] shelf_conflict [shelf_conflict]).
  reflexivity.
Defined.

Lemma resolve_conflicts_selects_from_conflicts_witness :
  _resolve_conflicts (fun k c => Some "library_-1") [shelf_conflict]
  = Returned [Demo.matched Demo.unison 9 Demo.shelf_b]
  /\ forall m, m ∈ [Demo.matched Demo.unison 9 Demo.shelf_b] ->
       exists c, c ∈ [shelf_conflict] /\ m ∈ BookConflict.matches c.
Proof.
  split; [reflexivity|].
  apply (resolve_conflicts_selects_from_conflicts
           (fun k c => Some "library_-1") [shelf_conflict]).
  reflexivity.
Defined.

(* ===================================================================== *)
(** ** Library discovery *)
(* ===================================================================== *)

Section Discovery.

Variable fs : Fs.

Lemma scan_found_consistent found : forall state,
  scan_consistent fs state -> scan_consistent fs (scan_found fs found state).
Proof.
  induction found as [|f rest IH]; intros [libraries seen] Hstate; [exact Hstate|].
  cbn [scan_found fst snd].
  destruct (is_backup_or_temporary (parent_resolved f)) eqn:Hskip; [apply IH, Hstate|].
  destruct (bool_decide (parent_resolved f ∈ seen)) eqn:Hseen; [apply IH, Hstate|].
  destruct (_is_valid_calibre_library fs (parent_resolved f)) eqn:Hvalid;
    [|apply IH, Hstate].
  apply IH. destruct Hstate as (Hnodup & Hpaths & Haccepted & Hsecondary).
  cbn [fst snd] in *. apply bool_decide_eq_false in Hseen.
  unfold scan_consistent. cbn [fst snd]. rewrite map_app. cbn [map CalibreLibrary.path].
  split; [|split; [|split]].
  - apply NoDup_app. split; [exact Hnodup|]. split.
    + intros p Hp Hnew. apply list_elem_of_singleton in Hnew as ->.
      apply Hseen, Hpaths, Hp.
    + apply NoDup_singleton.
  - intros p. rewrite elem_of_union, elem_of_singleton, elem_of_app,
      list_elem_of_singleton, Hpaths. reflexivity.
  - apply Forall_app. split; [exact Haccepted|].
    constructor; [|constructor]. split; assumption.
  - apply Forall_app. split; [exact Hsecondary|].
    constructor; [reflexivity|constructor].
Qed.

Lemma scan_paths_consistent search_paths : forall state,
  scan_consistent fs state -> scan_consistent fs (scan_paths fs search_paths state).
Proof.
  induction search_paths as [|search_path rest IH]; intros state Hstate;
    [exact Hstate|].
  cbn [scan_paths]. destruct (negb (path_exists fs search_path)); [apply IH, Hstate|].
  apply IH, scan_found_consistent, Hstate.
Qed.

Lemma scan_consistent_empty : scan_consistent fs ([], ∅).
Proof.
  unfold scan_consistent. cbn [fst snd map].
  split; [constructor|]. split; [|split; constructor].
  intros p. rewrite elem_of_empty, elem_of_nil. reflexivity.
Qed.

(** What the marking loop does to a list in which no library is primary
    yet. *)
Lemma mark_primary_split libraries :
  Forall (fun library => CalibreLibrary.is_primary library = false) libraries ->
  match snd (mark_primary libraries) with
  | Some p =>
      exists before found after,
        libraries = before ++ found :: after
        /\ fst (mark_primary libraries) = before ++ p :: after
        /\ p = as_primary found
        /\ named_mcr found = true
        /\ Forall (fun library => named_mcr library = false) before
  | None =>
      fst (mark_primary libraries) = libraries
      /\ Forall (fun library => named_mcr library = false) libraries
  end.
Proof.
  induction 1 as [|library rest Hlibrary _ IH]; [split; [reflexivity|constructor]|].
  cbn [mark_primary]. fold (named_mcr library).
  destruct (named_mcr library) eqn:Hnamed; cbn [fst snd].
  - exists [], library, rest. repeat split; auto.
  - destruct (snd (mark_primary rest)) as [p|].
    + destruct IH as (before & found & after & -> & -> & -> & Hfound & Hbefore).
      exists (library :: before), found, after. repeat split; auto.
    + destruct IH as [-> Hnone]. split; [reflexivity|]. constructor; assumption.
Qed.

(** X11. The libraries [discover_libraries] returns lie in pairwise
    distinct folders, each of them accepted: not a backup, temporary or
    version-control folder, and holding a metadata file with a books
    table.  The list returned is the one stored in the manager. *)
Theorem discover_libraries_distinct_accepted
    (self : LibraryManager.t) (search_paths : option (list string)) :
  let out := discover_libraries fs self search_paths in
  NoDup (map CalibreLibrary.path (fst out))
  /\ Forall (accepted_folder fs) (fst out)
  /\ LibraryManager.libraries (snd out) = fst out.
Proof.
  cbv zeta. unfold discover_libraries. cbv zeta. cbn [fst snd LibraryManager.libraries].
  set (given := match search_paths with Some p => p | None => _ end).
  pose proof (scan_paths_consistent given _ scan_consistent_empty)
    as (Hnodup & _ & Haccepted & Hsecondary).
  pose proof (mark_primary_split _ Hsecondary) as Hmark.
  destruct (snd (mark_primary _)) as [p|].
  - destruct Hmark as (before & found & after & Hlibs & -> & -> & _).
    rewrite Hlibs in Hnodup, Haccepted.
    rewrite map_app in *. cbn [map] in *.
    split; [exact Hnodup|]. split; [|reflexivity].
    apply Forall_app in Haccepted as [Hb Ha]. apply Forall_app. split; [exact Hb|].
    inversion Ha; subst. constructor; assumption.
  - destruct Hmark as [-> _]. auto.
Qed.

Lemma filter_secondary_all libraries :
  Forall (fun library => CalibreLibrary.is_primary library = false) libraries ->
  List.filter (fun lib => negb (CalibreLibrary.is_primary lib)) libraries = libraries.
Proof.
  induction 1 as [|library rest Hlibrary _ IH]; [reflexivity|].
  cbn [List.filter]. rewrite Hlibrary, IH. reflexivity.
Qed.

(** X12. After [discover_libraries], the primary library is the first
    library found whose name contains "mcr", ignoring case: it is the
    only one marked primary, the manager's [primary_library] is that very
    library, and the secondary libraries are all the others, in the order
    found.  When no name contains "mcr", no library is marked, every
    library found is secondary, and [primary_library] keeps the value it
    had before the call. *)
Theorem discover_libraries_marks_first_mcr
    (self : LibraryManager.t) (search_paths : option (list string)) :
  let out := discover_libraries fs self search_paths in
  let manager := snd out in
  (exists before p after,
     fst out = before ++ p :: after
     /\ named_mcr p = true
     /\ CalibreLibrary.is_primary p = true
     /\ Forall (fun library => named_mcr library = false) before
     /\ LibraryManager.get_primary_library manager = Some p
     /\ LibraryManager.get_secondary_libraries manager = before ++ after)
  \/ (Forall (fun library => named_mcr library = false) (fst out)
      /\ LibraryManager.get_primary_library manager
         = LibraryManager.get_primary_library self
      /\ LibraryManager.get_secondary_libraries manager = fst out).
Proof.
  cbv zeta. unfold discover_libraries. cbv zeta.
  unfold LibraryManager.get_primary_library, LibraryManager.get_secondary_libraries.
  cbn [fst snd LibraryManager.libraries LibraryManager.primary_library].
  set (given := match search_paths with Some p => p | None => _ end).
  pose proof (scan_paths_consistent given _ scan_consistent_empty)
    as (_ & _ & _ & Hsecondary).
  pose proof (mark_primary_split _ Hsecondary) as Hmark.
  destruct (snd (mark_primary _)) as [p|].
  - left. destruct Hmark as (before & found & after & Hlibs & -> & -> & Hfound & Hbefore).
    rewrite Hlibs in Hsecondary. apply Forall_app in Hsecondary as [Hb Ha].
    apply Forall_cons in Ha as [_ Ha].
    exists before, (as_primary found), after.
    split; [reflexivity|]. split; [exact Hfound|]. split; [reflexivity|].
    split; [exact Hbefore|]. split; [reflexivity|].
    rewrite List.filter_app. cbn [List.filter as_primary CalibreLibrary.is_primary negb].
    rewrite (filter_secondary_all _ Hb), (filter_secondary_all _ Ha). reflexivity.
  - right. destruct Hmark as [-> Hnone].
    split; [exact Hnone|]. split; [reflexivity|].
    apply filter_secondary_all, Hsecondary.
Qed.

End Discovery.

(* ===================================================================== *)
(** ** Adding a library by hand, and looking it up *)
(* ===================================================================== *)

Lemma find_app_first {A} (f : A -> bool) l1 l2 :
  List.find f (l1 ++ l2)
  = match List.find f l1 with Some x => Some x | None => List.find f l2 end.
Proof.
  induction l1 as [|x l1 IH]; [reflexivity|].
  cbn [app List.find]. destruct (f x); [reflexivity|exact IH].
Qed.

(** X13. [add_library] accepts a folder exactly when it holds a metadata
    file with a books table.  A refused folder leaves the manager as it
    was.  An accepted one is appended as a secondary library, whatever
    its name, and the primary library stays the same; looking the name up
    afterwards gives the library that bore this name before, ignoring
    case, if there was one, and the new library otherwise. *)
Theorem add_library_then_lookup
    (fs : Fs) (self : LibraryManager.t) (name path : string) :
  let out := LibraryManager_add_library fs self name path in
  fst out = _is_valid_calibre_library fs path
  /\ (fst out = false -> snd out = self)
  /\ (fst out = true ->
      LibraryManager.libraries (snd out)
      = LibraryManager.libraries self ++ [added_library name path]
      /\ LibraryManager.get_primary_library (snd out)
         = LibraryManager.get_primary_library self
      /\ LibraryManager.get_secondary_libraries (snd out)
         = LibraryManager.get_secondary_libraries self ++ [added_library name path]
      /\ get_library_by_name (snd out) name
         = match get_library_by_name self name with
           | Some earlier => Some earlier
           | None => Some (added_library name path)
           end).
Proof.
  cbv zeta. unfold LibraryManager_add_library.
  destruct (_is_valid_calibre_library fs path); cbn [negb fst snd].
  - split; [reflexivity|]. split; [discriminate|]. intros _.
    fold (added_library name path).
    unfold LibraryManager.get_secondary_libraries, get_library_by_name.
    cbn [LibraryManager.libraries].
    split; [reflexivity|]. split; [reflexivity|]. split.
    + rewrite List.filter_app. reflexivity.
    + rewrite find_app_first. cbn [List.find added_library CalibreLibrary.name].
      rewrite String.eqb_refl. reflexivity.
  - split; [reflexivity|]. split; [reflexivity|discriminate].
Qed.

(* ===================================================================== *)
(** ** Reading the source *)
(* ===================================================================== *)

Section Source.

Lemma dict_get_set_same {V} key (value : V) d :
  dict_get key (dict_set key value d) = Some value.
Proof.
  induction d as [|[k v] rest IH]; cbn [dict_set dict_get].
  - rewrite String.eqb_refl. reflexivity.
  - destruct (String.eqb k key) eqn:Hk; cbn [dict_get]; rewrite Hk; auto.
Qed.

Lemma dict_get_set_other {V} key other (value : V) d :
  other <> key -> dict_get other (dict_set key value d) = dict_get other d.
Proof.
  intros Hne. induction d as [|[k v] rest IH]; cbn [dict_set dict_get].
  - rewrite (proj2 (String.eqb_neq key other)) by congruence. reflexivity.
  - destruct (String.eqb_spec k key) as [->|Hk]; cbn [dict_get].
    + rewrite (proj2 (String.eqb_neq key other)) by congruence. reflexivity.
    + destruct (String.eqb k other); auto.
Qed.

Lemma dict_set_keys {V} key (value : V) d :
  map fst (dict_set key value d)
  = if PyStr.in_list key (map fst d) then map fst d else map fst d ++ [key].
Proof.
  induction d as [|[k v] rest IH]; [reflexivity|].
  cbn [dict_set map fst PyStr.in_list existsb]. rewrite (String.eqb_sym key).
  destruct (String.eqb k key); [reflexivity|].
  cbn [map fst orb]. rewrite IH. fold (PyStr.in_list key (map fst rest)).
  destruct (PyStr.in_list key (map fst rest)); reflexivity.
Qed.

Lemma dict_set_keys_NoDup {V} key (value : V) d :
  NoDup (map fst d) -> NoDup (map fst (dict_set key value d)).
Proof.
  intros Hd. rewrite dict_set_keys.
  destruct (PyStr.in_list key (map fst d)) eqn:Hin; [exact Hd|].
  apply NoDup_app. split; [exact Hd|]. split; [|apply NoDup_singleton].
  intros k Hk Hnew. apply list_elem_of_singleton in Hnew as ->.
  apply in_list_elem_of in Hk. congruence.
Qed.

Lemma book_data_of_keys rows :
  NoDup (map fst (book_data_of rows))
  /\ forall k, k ∈ map fst (book_data_of rows) <-> k ∈ map ContentID rows.
Proof.
  unfold book_data_of.
  assert (H : forall d,
    NoDup (map fst d) ->
    NoDup (map fst (fold_left (fun d row => dict_set (ContentID row) row d) rows d))
    /\ forall k,
         k ∈ map fst (fold_left (fun d row => dict_set (ContentID row) row d) rows d)
         <-> k ∈ map fst d \/ k ∈ map ContentID rows).
  { induction rows as [|row rows IH]; intros d Hd; cbn [fold_left map].
    - split; [exact Hd|]. intros k. rewrite elem_of_nil. tauto.
    - destruct (IH _ (dict_set_keys_NoDup (ContentID row) row d Hd)) as [Hnodup Hkeys].
      split; [exact Hnodup|]. intros k. rewrite Hkeys, dict_set_keys, elem_of_cons.
      destruct (PyStr.in_list (ContentID row) (map fst d)) eqn:Hin.
      + apply in_list_elem_of in Hin. split; [tauto|].
        intros [H|[->|H]]; tauto.
      + rewrite elem_of_app, list_elem_of_singleton. tauto. }
  destruct (H [] (NoDup_nil_2 (A:=string))) as [Hnodup Hkeys]. split; [exact Hnodup|].
  intros k. rewrite Hkeys, elem_of_nil. tauto.
Qed.

Lemma book_collections_of_get shelf_rows content_id :
  dict_get content_id (book_collections_of shelf_rows)
  = match shelves_of content_id shelf_rows with
    | [] => None
    | shelves => Some shelves
    end.
Proof.
  unfold book_collections_of.
  induction shelf_rows as [|row rows IH] using rev_ind; [reflexivity|].
  rewrite fold_left_app. cbn [fold_left].
  set (d := fold_left _ rows []) in *.
  unfold shelves_of in *. rewrite List.filter_app, map_app. cbn [List.filter].
  destruct row as [k shelf]. cbn [fst snd].
  destruct (String.eqb_spec k content_id) as [->|Hne].
  - cbn [map snd]. destruct (dict_get content_id d) as [shelves|] eqn:Hd;
      rewrite ?Hd, ?dict_get_set_same.
    + destruct (map snd _) as [|x xs]; [discriminate|]. injection IH as ->.
      reflexivity.
    + destruct (map snd _) as [|x xs]; [reflexivity|discriminate].
  - cbn [map]. rewrite app_nil_r.
    destruct (dict_get k d) as [shelves|] eqn:Hd;
      rewrite ?Hd, ?dict_get_set_same, ?dict_get_set_other by congruence;
      exact IH.
Qed.

(** X14. [get_books_with_collections] raises [FileNotFoundError] when
    the database file does not exist.  When it returns, the books bear
    pairwise distinct content ids, the ids of the rows of the books
    query, and the collections of each book are the converted names of
    the shelves the membership query lists for its id, in the order of
    that query. *)
Theorem get_books_with_collections_groups_shelves (db : KoboDb) (self : KoboReader.t) :
  let path := KoboReader.db_path self in
  (kobo_file_exists db path = false ->
   get_books_with_collections db self
   = Raised (FileNotFoundError ("Kobo database not found: " +:+ path)))
  /\ (forall books,
        get_books_with_collections db self = Returned books ->
        exists rows shelf_rows,
          select_books db path = Some rows
          /\ select_shelf_content db path = Some shelf_rows
          /\ NoDup (map KoboBook.content_id books)
          /\ (forall id, id ∈ map KoboBook.content_id books <-> id ∈ map ContentID rows)
          /\ Forall (fun book =>
                       KoboBook.collections book
                       = _convert_collections self
                           (shelves_of (KoboBook.content_id book) shelf_rows))
                    books).
Proof.
  cbv zeta. unfold get_books_with_collections. split.
  - intros ->. reflexivity.
  - intros books. destruct (kobo_file_exists db _); cbn [negb]; [|discriminate].
    destruct (select_books db _) as [rows|]; [|discriminate].
    destruct (select_shelf_content db _) as [shelf_rows|]; [|discriminate].
    intros [= <-]. exists rows, shelf_rows.
    split; [reflexivity|]. split; [reflexivity|].
    destruct (book_data_of_keys rows) as [Hnodup Hkeys].
    rewrite map_map. cbn [KoboBook.content_id].
    split; [exact Hnodup|]. split; [exact Hkeys|].
    apply Forall_map. apply Forall_forall. intros entry _.
    cbn [KoboBook.collections KoboBook.content_id].
    rewrite book_collections_of_get.
    destruct (shelves_of (fst entry) shelf_rows); reflexivity.
Qed.

End Source.

(* ===================================================================== *)
(** ** Display names and the two classifications *)
(* ===================================================================== *)

Section DisplayNames.

Variable kobo_db_path : string.

Lemma _convert_collections_map raw :
  _convert_collections (KoboReader.init kobo_db_path) raw = map (display_name (KoboReader.init kobo_db_path)) raw.
Proof. reflexivity. Qed.

Lemma display_name_cases col :
  (display_name (KoboReader.init kobo_db_path) col = col
   /\ PyStr.in_list col (map fst (KoboReader.rating_collections (KoboReader.init kobo_db_path))) = false)
  \/ (col = "| evergreen" /\ display_name (KoboReader.init kobo_db_path) col = "Evergreen")
  \/ (col = "| absolute favorite" /\ display_name (KoboReader.init kobo_db_path) col = "Absolute Favorite")
  \/ (col = "| favorite" /\ display_name (KoboReader.init kobo_db_path) col = "Favorites")
  \/ (col = "| good" /\ display_name (KoboReader.init kobo_db_path) col = "Great").
Proof.
  unfold display_name, KoboReader.init.
  cbn [KoboReader.rating_collections dict_get map fst PyStr.in_list existsb].
  rewrite !(String.eqb_sym col).
  destruct (String.eqb_spec "| evergreen" col) as [<-|_]; [auto|].
  destruct (String.eqb_spec "| absolute favorite" col) as [<-|_]; [auto 6|].
  destruct (String.eqb_spec "| favorite" col) as [<-|_]; [auto 6|].
  destruct (String.eqb_spec "| good" col) as [<-|_]; [auto 6|].
  left. split; reflexivity.
Qed.

Lemma rating_step_display col :
  is_rating_label (display_name (KoboReader.init kobo_db_path) col) = is_rating_label col
  /\ canonical_rating (display_name (KoboReader.init kobo_db_path) col) = canonical_rating col.
Proof.
  destruct (display_name_cases col)
    as [[-> _]|[[-> ->]|[[-> ->]|[[-> ->]|[-> ->]]]]]; split; reflexivity.
Qed.

Lemma genre_step_display col :
  genre_clean (display_name (KoboReader.init kobo_db_path) col) = genre_clean col
  \/ (is_genre_label (display_name (KoboReader.init kobo_db_path) col) = false
      /\ is_genre_label col = false).
Proof.
  destruct (display_name_cases col)
    as [[-> _]|[[-> ->]|[[-> ->]|[[-> ->]|[-> ->]]]]];
    [left; reflexivity|right; split; reflexivity..].
Qed.

Lemma _get_rating_collections_display raw :
  _get_rating_collections (map (display_name (KoboReader.init kobo_db_path)) raw) = _get_rating_collections raw.
Proof.
  induction raw as [|col rest IH]; [reflexivity|].
  cbn [map _get_rating_collections].
  destruct (rating_step_display col) as [Hlabel Hvalue].
  unfold is_rating_label, canonical_rating in Hlabel, Hvalue.
  rewrite Hlabel, Hvalue, IH. reflexivity.
Qed.

Lemma genre_loop_display rating_patterns_lower raw :
  genre_loop rating_patterns_lower (map (display_name (KoboReader.init kobo_db_path)) raw)
  = genre_loop rating_patterns_lower raw.
Proof.
  induction raw as [|col rest IH]; [reflexivity|].
  cbn [map genre_loop]. rewrite IH.
  destruct (genre_step_display col) as [Hclean|[Hdisplay Hcol]].
  - unfold genre_clean in Hclean. rewrite Hclean. reflexivity.
  - unfold is_genre_label, genre_clean in Hdisplay, Hcol.
    apply negb_false_iff in Hdisplay, Hcol.
    rewrite Hdisplay, Hcol. cbn [negb]. rewrite !andb_false_r. reflexivity.
Qed.

(** X15. The conversion of shelf names to display names that the reader
    applies does not change what the update applier writes: the ratings
    and the genres computed from the converted names are those computed
    from the names as stored. *)
Theorem convert_collections_keeps_classification (raw : list string) :
  _get_rating_collections (_convert_collections (KoboReader.init kobo_db_path) raw)
  = _get_rating_collections raw
  /\ _get_genre_collections (_convert_collections (KoboReader.init kobo_db_path) raw)
     = _get_genre_collections raw.
Proof.
  rewrite _convert_collections_map. unfold _get_genre_collections.
  rewrite _get_rating_collections_display, genre_loop_display. split; reflexivity.
Qed.

(** X16. The preview of the dry run tells ratings from genres by the
    shelf names as stored, but the books it is given carry display names:
    for a book read by the reader, the preview lists no rating at all and
    every collection as a genre. *)
Theorem preview_lists_no_rating (raw : list string) :
  preview_cols (Some (KoboReader.init kobo_db_path)) true (_convert_collections (KoboReader.init kobo_db_path) raw) = Ok []
  /\ preview_cols (Some (KoboReader.init kobo_db_path)) false (_convert_collections (KoboReader.init kobo_db_path) raw)
     = Ok (_convert_collections (KoboReader.init kobo_db_path) raw).
Proof.
  rewrite _convert_collections_map.
  induction raw as [|col rest [IHr IHg]]; [split; reflexivity|].
  cbn [map preview_cols]. rewrite IHr, IHg.
  assert (Hkey : PyStr.in_list (display_name (KoboReader.init kobo_db_path) col)
                   (map fst (KoboReader.rating_collections (KoboReader.init kobo_db_path))) = false).
  { destruct (display_name_cases col)
      as [[-> H]|[[-> ->]|[[-> ->]|[[-> ->]|[-> ->]]]]]; [exact H|reflexivity..]. }
  rewrite Hkey. split; reflexivity.
Qed.

End DisplayNames.

(* ===================================================================== *)
(** ** Loading the source, and the stages after it *)
(* ===================================================================== *)

Section Loading.

Context {E : Env}.

(** X17. [load_kobo_data] stores the reader before it reads, so that the
    dry-run update returns statistics after it whatever it did.  When it
    returns, the books it returns are those of the reader, there is at
    least one, the engine holds them, and matching no longer fails for
    want of books.  When it raises, either the reader raised and the
    engine still holds the books it held before, or the reader returned no
    book and the engine holds none. *)
Theorem load_kobo_data_then_stages (db : KoboDb) (self : SyncEngine.t) (s : @Sys E) :
  let out := load_kobo_data db self in
  let engine := snd out in
  let reader := KoboReader.init (configured_kobo_database_path db) in
  SyncEngine.kobo_reader engine = Some reader
  /\ (exists stats, update_calibre_metadata engine true s = (Ok stats, s))
  /\ match fst out with
     | Returned books =>
         get_books_with_collections db reader = Returned books
         /\ books <> []
         /\ SyncEngine.kobo_books engine = books
         /\ fst (fst (match_books engine s)) <> Raise (Exception no_books_message)
     | Raised e =>
         (get_books_with_collections db reader = Raised e
          /\ SyncEngine.kobo_books engine = SyncEngine.kobo_books self)
         \/ (get_books_with_collections db reader = Returned []
             /\ e = PlainException no_books_found
             /\ SyncEngine.kobo_books engine = [])
     end.
Proof.
  cbv zeta. unfold load_kobo_data. cbv zeta.
  set (reader := KoboReader.init (configured_kobo_database_path db)).
  assert (Hdry : forall books,
    exists stats,
      update_calibre_metadata (with_reader self reader books) true s = (Ok stats, s)).
  { intros books. unfold update_calibre_metadata, _simulate_updates.
    cbn [with_reader SyncEngine.kobo_reader SyncEngine.matches].
    rewrite preview_libraries_with_reader. unfold ret. eexists. reflexivity. }
  destruct (get_books_with_collections db reader) as [[|book books]|e];
    cbn [fst snd]; (split; [reflexivity|]); (split; [apply Hdry|]).
  - right. repeat split; reflexivity.
  - split; [reflexivity|]. split; [discriminate|]. split; [reflexivity|].
    unfold match_books. cbn [with_reader SyncEngine.kobo_books SyncEngine.libraries].
    destruct (SyncEngine.libraries self); [unfold ret; cbn; discriminate|].
    unfold bind, ret.
    destruct (match_all_books _ _ s) as [[r matcher] s']. cbn. discriminate.
  - left. split; reflexivity.
Qed.

End Loading.

(* ===================================================================== *)
(** ** The shape of a normalised title *)
(* ===================================================================== *)

Section TitleShape.

Import PyStr.

Lemma kept_after_substitution c :
  kept_char (if not_word_or_space (lower_char c) then " "%char else lower_char c) = true.
Proof. destruct c as [[] [] [] [] [] [] [] []]; reflexivity. Qed.

Lemma kept_not_space_title c :
  kept_char c = true -> is_space c = false -> title_char c = true.
Proof. destruct c as [[] [] [] [] [] [] [] []]; cbv; congruence. Qed.

Lemma first_substitution_kept s :
  all_chars kept_char (re_sub_class not_word_or_space " " (lower s)) = true.
Proof.
  induction s as [|c r IH]; [reflexivity|].
  cbn [lower map_chars re_sub_class]. fold (lower r).
  pose proof (kept_after_substitution c) as Hc.
  destruct (not_word_or_space (lower_char c)).
  - change (" " +:+ ?x) with (String " " x). cbn [all_chars]. rewrite Hc. exact IH.
  - cbn [all_chars]. rewrite Hc. exact IH.
Qed.

Lemma second_substitution_shape s : forall in_run,
  all_chars kept_char s = true ->
  all_chars title_char (re_sub_runs is_space " " in_run s) = true
  /\ single_spaced in_run (re_sub_runs is_space " " in_run s) = true.
Proof.
  induction s as [|c r IH]; intros in_run Hs; [split; reflexivity|].
  cbn [all_chars] in Hs. apply andb_true_iff in Hs as [Hc Hr].
  cbn [re_sub_runs]. destruct (is_space c) eqn:Hspace.
  - destruct in_run; [apply IH; exact Hr|].
    change (" " +:+ ?x) with (String " " x).
    destruct (IH true Hr) as [Hchars Hspaced].
    cbn [all_chars single_spaced]. rewrite Hchars, Hspaced. split; reflexivity.
  - destruct (IH false Hr) as [Hchars Hspaced].
    cbn [all_chars single_spaced].
    rewrite Hspace, Hchars, Hspaced, (kept_not_space_title c Hc Hspace).
    split; reflexivity.
Qed.

Lemma single_spaced_weaken s after_space :
  single_spaced after_space s = true -> single_spaced false s = true.
Proof.
  destruct s as [|c r]; [reflexivity|]. cbn [single_spaced].
  destruct (is_space c); [|auto]. intros H. apply andb_true_iff in H as [_ H].
  exact H.
Qed.

Lemma slice_from_shape p n : forall s,
  all_chars p s = true -> single_spaced false s = true ->
  all_chars p (slice_from n s) = true
  /\ single_spaced false (slice_from n s) = true.
Proof.
  induction n as [|n IH]; intros s Hchars Hspaced; [split; assumption|].
  destruct s as [|c r]; [split; reflexivity|].
  cbn [slice_from]. cbn [all_chars single_spaced] in Hchars, Hspaced.
  apply andb_true_iff in Hchars as [_ Hchars]. apply IH; [exact Hchars|].
  destruct (is_space c); [|exact Hspaced].
  apply (single_spaced_weaken r true). exact Hspaced.
Qed.

Lemma strip_first_article_shape p arts s :
  all_chars p s = true -> single_spaced false s = true ->
  all_chars p (strip_first_article arts s) = true
  /\ single_spaced false (strip_first_article arts s) = true.
Proof.
  intros Hchars Hspaced. induction arts as [|article rest IH]; [split; assumption|].
  cbn [strip_first_article]. destruct (startswith s article); [|exact IH].
  apply slice_from_shape; assumption.
Qed.

Lemma lstrip_shape p s :
  all_chars p s = true -> single_spaced false s = true ->
  all_chars p (lstrip s) = true /\ single_spaced false (lstrip s) = true.
Proof.
  induction s as [|c r IH]; intros Hchars Hspaced; [split; reflexivity|].
  cbn [lstrip]. destruct (is_space c) eqn:Hspace; [|split; assumption].
  cbn [all_chars single_spaced] in Hchars, Hspaced. rewrite Hspace in Hspaced.
  apply andb_true_iff in Hchars as [_ Hchars]. apply IH; [exact Hchars|].
  apply (single_spaced_weaken r true). exact Hspaced.
Qed.

Lemma rstrip_shape p s : forall after_space,
  all_chars p s = true -> single_spaced after_space s = true ->
  all_chars p (rstrip s) = true /\ single_spaced after_space (rstrip s) = true.
Proof.
  induction s as [|c r IH]; intros after_space Hchars Hspaced; [split; reflexivity|].
  cbn [all_chars single_spaced] in Hchars, Hspaced.
  apply andb_true_iff in Hchars as [Hc Hr]. cbn [rstrip].
  destruct (is_space c) eqn:Hspace.
  - apply andb_true_iff in Hspaced as [Hafter Hspaced].
    destruct (IH true Hr Hspaced) as [Hchars' Hspaced'].
    destruct (rstrip r) as [|d q]; [split; reflexivity|].
    cbn [all_chars single_spaced] in *.
    rewrite Hc, Hspace, Hafter, Hchars', Hspaced'. split; reflexivity.
  - destruct (IH false Hr Hspaced) as [Hchars' Hspaced'].
    destruct (rstrip r) as [|d q]; cbn [all_chars single_spaced] in *;
      rewrite Hc, Hspace, ?Hchars', ?Hspaced'; split; reflexivity.
Qed.

Lemma rstrip_idempotent s : rstrip (rstrip s) = rstrip s.
Proof.
  induction s as [|c r IH]; [reflexivity|]. cbn [rstrip].
  destruct (rstrip r) as [|d q] eqn:Hr.
  - destruct (is_space c) eqn:Hspace; [reflexivity|].
    cbn [rstrip]. rewrite Hspace. reflexivity.
  - change (rstrip (String c (String d q)))
      with (match rstrip (String d q) with
            | EmptyString => if is_space c then EmptyString else String c EmptyString
            | r' => String c r'
            end).
    rewrite IH. reflexivity.
Qed.

Lemma lstrip_head s :
  match lstrip s with
  | EmptyString => True
  | String c _ => is_space c = false
  end.
Proof.
  induction s as [|c r IH]; [exact I|]. cbn [lstrip].
  destruct (is_space c) eqn:Hspace; [exact IH|exact Hspace].
Qed.

Lemma strip_idempotent s : strip (strip s) = strip s.
Proof.
  unfold strip. pose proof (lstrip_head s) as Hhead.
  destruct (lstrip s) as [|c r]; [reflexivity|].
  assert (Hfirst : exists q, rstrip (String c r) = String c q).
  { cbn [rstrip]. destruct (rstrip r); [rewrite Hhead|]; eexists; reflexivity. }
  destruct Hfirst as [q Hq].
  replace (lstrip (rstrip (String c r))) with (rstrip (String c r));
    [apply rstrip_idempotent|].
  rewrite Hq. cbn [lstrip]. rewrite Hhead. reflexivity.
Qed.

(** X18. A normalised title is made of lower-case word characters and
    single spaces only: every character is a word character that
    lower-casing leaves as it is or a space, no whitespace character
    follows another, and none stands at either end. *)
Theorem normalize_title_canonical (title : string) :
  let normalized := normalize_title title in
  all_chars title_char normalized = true
  /\ single_spaced false normalized = true
  /\ strip normalized = normalized.
Proof.
  cbv zeta. unfold normalize_title.
  destruct (negb (truthy title)); [repeat split; reflexivity|].
  unfold re_sub_class_plus.
  destruct (second_substitution_shape _ false (first_substitution_kept title))
    as [Hchars Hspaced].
  destruct (strip_first_article_shape _ articles _ Hchars Hspaced)
    as [Hchars' Hspaced'].
  unfold strip at 1 2.
  destruct (lstrip_shape _ _ Hchars' Hspaced') as [Hchars'' Hspaced''].
  destruct (rstrip_shape _ _ false Hchars'' Hspaced'') as [Hc Hs].
  split; [exact Hc|]. split; [exact Hs|]. apply strip_idempotent.
Qed.

Lemma truthy_lower s : truthy (lower s) = truthy s.
Proof. destruct s; reflexivity. Qed.

(** X19. The two normalisations ignore case: names that become equal
    when lower-cased have the same normalised title and the same
    normalised author. *)
Theorem normalization_ignores_case (a b : string) :
  lower a = lower b ->
  normalize_title a = normalize_title b /\ normalize_author a = normalize_author b.
Proof.
  intros Hlower. unfold normalize_title, normalize_author.
  rewrite <- (truthy_lower a), <- (truthy_lower b), Hlower. split; reflexivity.
Qed.

End TitleShape.

Lemma normalization_ignores_case_witness :
  PyStr.lower "The DESERT Here" = PyStr.lower "the Desert here"
  /\ normalize_title "The DESERT Here" = normalize_title "the Desert here".
Proof.
  split; [reflexivity|].
  apply (normalization_ignores_case "The DESERT Here" "the Desert here").
  reflexivity.
Defined.

(* ===================================================================== *)
(** ** "Last, First" *)
(* ===================================================================== *)

Section AuthorSwap.

Import PyStr.

Ltac push_append :=
  repeat match goal with
  | |- context [String ?c ?x +:+ ?y] => change (String c x +:+ y) with (String c (x +:+ y))
  | |- context [EmptyString +:+ ?y] => change (EmptyString +:+ y) with y
  end.

Lemma lower_append x y : lower (x +:+ y) = lower x +:+ lower y.
Proof.
  induction x as [|c x IH]; [reflexivity|].
  push_append. cbn [lower map_chars]. push_append. f_equal. exact IH.
Qed.

Lemma lstrip_before_comma x z : lstrip (x +:+ String "," z) = lstrip x +:+ String "," z.
Proof.
  induction x as [|c x IH]; [reflexivity|].
  push_append. cbn [lstrip]. destruct (is_space c); [exact IH|reflexivity].
Qed.

Lemma rstrip_after_comma x y : rstrip (x +:+ String "," y) = x +:+ String "," (rstrip y).
Proof.
  induction x as [|c x IH].
  - push_append. cbn [rstrip]. destruct (rstrip y); reflexivity.
  - push_append. cbn [rstrip]. rewrite IH.
    destruct x; push_append; reflexivity.
Qed.

Lemma strip_around_comma x y :
  strip (x +:+ String "," y) = lstrip x +:+ String "," (rstrip y).
Proof. unfold strip. rewrite lstrip_before_comma, rstrip_after_comma. reflexivity. Qed.

Lemma collapse_around_comma x y : forall in_run,
  collapse in_run (x +:+ String "," y)
  = collapse in_run x +:+ String "," (collapse false y).
Proof.
  unfold collapse. induction x as [|c x IH]; intros in_run; [reflexivity|].
  push_append. cbn [re_sub_runs]. destruct (is_space c).
  - destruct in_run; [apply IH|]. rewrite IH.
    change (" " +:+ ?s) with (String " " s). push_append. reflexivity.
  - push_append. rewrite IH. reflexivity.
Qed.

Lemma contains_comma x y : contains "," (x +:+ String "," y) = true.
Proof.
  induction x as [|c x IH].
  - push_append. cbn [contains]. rewrite prefix_cons. destruct y; reflexivity.
  - push_append. cbn [contains]. rewrite IH. apply orb_true_r.
Qed.

Lemma contains_comma_free s : comma_free s = true -> contains "," s = false.
Proof.
  unfold comma_free. induction s as [|c r IH]; [reflexivity|].
  cbn [all_chars contains]. intros H. apply andb_true_iff in H as [Hc Hr].
  rewrite prefix_cons, (IH Hr), Ascii.eqb_sym.
  apply negb_true_iff in Hc. rewrite Hc. reflexivity.
Qed.

Lemma split_comma_free s : comma_free s = true -> split_char "," s = [s].
Proof.
  unfold comma_free. induction s as [|c r IH]; [reflexivity|].
  cbn [all_chars split_char]. intros H. apply andb_true_iff in H as [Hc Hr].
  apply negb_true_iff in Hc. rewrite Hc, (IH Hr). reflexivity.
Qed.

Lemma split_around_comma x y :
  comma_free x = true -> comma_free y = true ->
  split_char "," (x +:+ String "," y) = [x; y].
Proof.
  unfold comma_free. intros Hx Hy. induction x as [|c x IH].
  - push_append. cbn [split_char Ascii.eqb Bool.eqb].
    rewrite (split_comma_free y Hy). reflexivity.
  - push_append. cbn [all_chars] in Hx. apply andb_true_iff in Hx as [Hc Hx].
    apply negb_true_iff in Hc. cbn [split_char]. rewrite Hc, (IH Hx). reflexivity.
Qed.

Lemma comma_lower_char c : Ascii.eqb (lower_char c) "," = Ascii.eqb c ",".
Proof. destruct c as [[] [] [] [] [] [] [] []]; reflexivity. Qed.

Lemma comma_free_lower s : comma_free (lower s) = comma_free s.
Proof.
  unfold comma_free. induction s as [|c r IH]; [reflexivity|].
  cbn [lower map_chars all_chars]. fold (lower r). rewrite comma_lower_char, IH.
  reflexivity.
Qed.

Lemma all_chars_lstrip p s : all_chars p s = true -> all_chars p (lstrip s) = true.
Proof.
  induction s as [|c r IH]; [reflexivity|]. cbn [lstrip].
  destruct (is_space c); [|auto]. cbn [all_chars]. intros H.
  apply andb_true_iff in H as [_ H]. auto.
Qed.

Lemma all_chars_rstrip p s : all_chars p s = true -> all_chars p (rstrip s) = true.
Proof.
  induction s as [|c r IH]; [reflexivity|]. cbn [all_chars rstrip]. intros H.
  apply andb_true_iff in H as [Hc Hr]. specialize (IH Hr).
  destruct (rstrip r) as [|d q].
  - destruct (is_space c); [reflexivity|]. cbn [all_chars]. rewrite Hc. reflexivity.
  - cbn [all_chars] in *. rewrite Hc, IH. reflexivity.
Qed.

Lemma comma_free_collapse s : forall in_run,
  comma_free s = true -> comma_free (collapse in_run s) = true.
Proof.
  unfold comma_free, collapse. induction s as [|c r IH]; intros in_run; [reflexivity|].
  cbn [all_chars re_sub_runs]. intros H. apply andb_true_iff in H as [Hc Hr].
  destruct (is_space c).
  - destruct in_run; [apply IH; exact Hr|].
    change (" " +:+ ?s) with (String " " s). cbn [all_chars]. apply IH. exact Hr.
  - cbn [all_chars]. rewrite Hc. apply IH. exact Hr.
Qed.

Lemma lstrip_collapse s : forall in_run,
  lstrip (collapse in_run s) = collapse false (lstrip s).
Proof.
  unfold collapse. induction s as [|c r IH]; intros in_run; [reflexivity|].
  cbn [re_sub_runs lstrip]. destruct (is_space c) eqn:Hspace.
  - destruct in_run; [apply IH|].
    change (" " +:+ ?s) with (String " " s). cbn [lstrip]. apply IH.
  - cbn [lstrip re_sub_runs]. rewrite Hspace. reflexivity.
Qed.

Lemma collapse_empty_all_space s : forall in_run,
  collapse in_run s = "" -> all_space s = true.
Proof.
  unfold collapse. induction s as [|c r IH]; intros in_run; [reflexivity|].
  cbn [re_sub_runs all_space]. destruct (is_space c); [|discriminate].
  destruct in_run; [apply IH|]. change (" " +:+ ?s) with (String " " s). discriminate.
Qed.

Lemma rstrip_result_not_blank r d q :
  rstrip r = String d q -> all_space (String d q) = false.
Proof.
  intros Hr. destruct (all_space (String d q)) eqn:Hblank; [|reflexivity].
  pose proof (rstrip_idempotent r) as Hidem. rewrite Hr in Hidem.
  rewrite (rstrip_all_space _ Hblank) in Hidem. discriminate.
Qed.

Lemma rstrip_collapse s : forall in_run,
  rstrip (collapse in_run s) = collapse in_run (rstrip s).
Proof.
  unfold collapse. induction s as [|c r IH]; intros in_run; [reflexivity|].
  cbn [re_sub_runs rstrip]. destruct (is_space c) eqn:Hspace.
  - destruct (rstrip r) as [|d q] eqn:Hr.
    + cbn [re_sub_runs]. destruct in_run; [rewrite IH; reflexivity|].
      change (" " +:+ ?s) with (String " " s). cbn [rstrip]. rewrite IH. reflexivity.
    + change (re_sub_runs is_space " " in_run (String c (String d q)))
        with (if is_space c
              then if in_run then re_sub_runs is_space " " true (String d q)
                   else " " +:+ re_sub_runs is_space " " true (String d q)
              else String c (re_sub_runs is_space " " false (String d q))).
      rewrite Hspace. destruct in_run; [apply IH|].
      change (" " +:+ ?s) with (String " " s). cbn [rstrip]. rewrite IH.
      destruct (re_sub_runs is_space " " true (String d q)) eqn:Hempty; [|reflexivity].
      apply (collapse_empty_all_space _ true) in Hempty.
      rewrite (rstrip_result_not_blank r d q Hr) in Hempty. discriminate.
  - cbn [rstrip]. rewrite IH. destruct (rstrip r) as [|d q] eqn:Hr.
    + cbn [re_sub_runs]. rewrite Hspace. reflexivity.
    + change (re_sub_runs is_space " " in_run (String c (String d q)))
        with (if is_space c
              then if in_run then re_sub_runs is_space " " true (String d q)
                   else " " +:+ re_sub_runs is_space " " true (String d q)
              else String c (re_sub_runs is_space " " false (String d q))).
      rewrite Hspace. destruct (re_sub_runs is_space " " false (String d q));
        reflexivity.
Qed.

Lemma lstrip_idempotent s : lstrip (lstrip s) = lstrip s.
Proof.
  induction s as [|c r IH]; [reflexivity|]. cbn [lstrip].
  destruct (is_space c) eqn:Hspace; [exact IH|]. cbn [lstrip]. rewrite Hspace.
  reflexivity.
Qed.

Lemma lstrip_rstrip s : lstrip (rstrip s) = rstrip (lstrip s).
Proof.
  induction s as [|c r IH]; [reflexivity|]. cbn [lstrip rstrip].
  destruct (is_space c) eqn:Hspace.
  - rewrite <- IH. destruct (rstrip r) as [|d q]; [reflexivity|].
    cbn [lstrip]. rewrite Hspace. reflexivity.
  - cbn [rstrip]. destruct (rstrip r) as [|d q]; cbn [lstrip]; rewrite Hspace;
      reflexivity.
Qed.

Lemma strip_collapse_lstrip s :
  strip (collapse false (lstrip s)) = collapse false (strip s).
Proof.
  unfold strip. rewrite lstrip_collapse, lstrip_idempotent, rstrip_collapse.
  reflexivity.
Qed.

Lemma strip_collapse_rstrip s :
  strip (collapse false (rstrip s)) = collapse false (strip s).
Proof.
  unfold strip.
  rewrite lstrip_collapse, rstrip_collapse, lstrip_rstrip, rstrip_idempotent.
  reflexivity.
Qed.

(** The normalised form of a name without comma. *)
Lemma normalize_author_comma_free s :
  comma_free s = true -> normalize_author s = collapse false (strip (lower s)).
Proof.
  intros Hfree. unfold normalize_author. destruct s as [|c r]; [reflexivity|].
  cbn [truthy negb]. unfold re_sub_class_plus. fold (collapse false (strip (lower (String c r)))).
  rewrite contains_comma_free; [reflexivity|].
  apply comma_free_collapse. unfold strip, comma_free.
  apply all_chars_rstrip, all_chars_lstrip. fold (comma_free (lower (String c r))).
  rewrite comma_free_lower. exact Hfree.
Qed.

(** X20. "Last, First" is read as "First Last": for two names without
    comma, the normalised form of the first, a comma and the second is
    the normalised form of the second, a space, and the normalised form
    of the first. *)
Theorem normalize_author_swaps_around_comma (last first : string) :
  comma_free last = true -> comma_free first = true ->
  normalize_author (last +:+ "," +:+ first)
  = normalize_author first +:+ " " +:+ normalize_author last.
Proof.
  intros Hlast Hfirst.
  rewrite (normalize_author_comma_free _ Hlast), (normalize_author_comma_free _ Hfirst).
  change ("," +:+ first) with (String "," first).
  unfold normalize_author.
  replace (truthy (last +:+ String "," first)) with true by (destruct last; reflexivity).
  cbn [negb]. unfold re_sub_class_plus.
  fold (collapse false (strip (lower (last +:+ String "," first)))).
  rewrite lower_append. cbn [lower map_chars]. fold (lower first).
  change (lower_char ",") with ","%char.
  rewrite strip_around_comma, collapse_around_comma, contains_comma.
  rewrite split_around_comma.
  - cbn [map]. rewrite strip_collapse_lstrip, strip_collapse_rstrip. reflexivity.
  - apply comma_free_collapse. unfold comma_free. apply all_chars_lstrip.
    fold (comma_free (lower last)). rewrite comma_free_lower. exact Hlast.
  - apply comma_free_collapse. unfold comma_free. apply all_chars_rstrip.
    fold (comma_free (lower first)). rewrite comma_free_lower. exact Hfirst.
Qed.

End AuthorSwap.

Lemma normalize_author_swaps_around_comma_witness :
  normalize_author (" O'Brien " +:+ "," +:+ "  Mary  Ann ") = "mary ann o'brien"
  /\ normalize_author (" O'Brien " +:+ "," +:+ "  Mary  Ann ")
     = normalize_author "  Mary  Ann " +:+ " " +:+ normalize_author " O'Brien ".
Proof.
  split; [reflexivity|].
  apply (normalize_author_swaps_around_comma " O'Brien " "  Mary  Ann ");
    reflexivity.
Defined.

(* ===================================================================== *)
(** ** What a run may touch *)
(* ===================================================================== *)

Section Frame.

Context {E : Env}.

Lemma test_calibredb_connection_concerns self library :
  emits (E:=E) (concerns self library) (test_calibredb_connection self library).
Proof.
  unfold test_calibredb_connection. apply emits_bind.
  - apply emits_run. intros res. split; reflexivity.
  - intros [r| |]; apply emits_ret.
Qed.

Lemma backup_library_concerns self library :
  emits (E:=E) (concerns self library) (backup_library self library).
Proof.
  unfold backup_library. apply emits_bind; [apply emits_now|].
  intros timestamp. apply emits_copy2. intros ok.
  split; [reflexivity|]. exists timestamp. reflexivity.
Qed.

Lemma create_custom_column_concerns self library column_name display_name :
  emits (E:=E) (concerns self library)
        (create_custom_column self library column_name display_name).
Proof.
  unfold create_custom_column. apply emits_bind.
  - apply emits_run. intros res. split; reflexivity.
  - intros [r| |]; try apply emits_ret.
    destruct (returncode r =? 0)%Z; [apply emits_ret|].
    destruct (PyStr.contains _ _); apply emits_ret.
Qed.

Lemma ensure_custom_columns_concerns self library :
  emits (E:=E) (concerns self library) (ensure_custom_columns self library).
Proof.
  unfold ensure_custom_columns, check_custom_columns.
  apply emits_bind.
  { apply emits_bind; [apply emits_query_columns; reflexivity|].
    intros [columns|]; apply emits_ret. }
  intros columns. apply emits_bind.
  { destruct (negb (my_ratings columns)); [|apply emits_ret].
    apply emits_bind; [apply create_custom_column_concerns|].
    intros created. apply emits_ret. }
  intros success. apply emits_bind; [|intros success'; apply emits_ret].
  destruct (negb (my_genres columns)); [|apply emits_ret].
  apply emits_bind; [apply create_custom_column_concerns|].
  intros created. apply emits_ret.
Qed.

Lemma _update_custom_column_concerns self library book_id column values :
  emits (E:=E) (concerns self library)
        (_update_custom_column self library book_id column values).
Proof.
  unfold _update_custom_column. destruct values as [|value values]; [apply emits_ret|].
  apply emits_bind.
  - apply emits_run. intros res. split; reflexivity.
  - intros [r| |]; apply emits_ret.
Qed.

Lemma update_book_metadata_concerns self m :
  emits (E:=E) (concerns self (BookMatch.library m)) (update_book_metadata self m).
Proof.
  unfold update_book_metadata. apply emits_bind.
  - destruct (_get_rating_collections _); [apply emits_ret|].
    apply _update_custom_column_concerns.
  - intros ratings_ok. destruct (negb ratings_ok); [apply emits_ret|].
    apply emits_bind.
    + destruct (_get_genre_collections _); [apply emits_ret|].
      apply _update_custom_column_concerns.
    + intros genres_ok. destruct (negb genres_ok); apply emits_ret.
Qed.

Lemma update_each_concerns self matches library_matches : forall stats,
  Forall (fun m => m ∈ matches) library_matches ->
  emits (E:=E) (concerns_a_match self matches) (update_each self library_matches stats).
Proof.
  induction library_matches as [|m rest IH]; intros stats Hall; [apply emits_ret|].
  apply Forall_cons in Hall as [Hm Hrest]. cbn [update_each]. apply emits_bind.
  - eapply emits_mono; [|apply update_book_metadata_concerns].
    intros e He. exists m. split; assumption.
  - intros ok. apply IH. exact Hrest.
Qed.

Lemma process_libraries_concerns self matches by_library : forall stats,
  Forall (fun entry => Forall (fun m => m ∈ matches) (group_matches (snd entry)))
         by_library ->
  emits (E:=E) (concerns_a_match self matches) (process_libraries self by_library stats).
Proof.
  induction by_library as [|[library_name group] rest IH]; intros stats Hall;
    [apply emits_ret|].
  apply Forall_cons in Hall as [Hgroup Hrest]. cbn [snd] in Hgroup.
  assert (Hfirst : fst group ∈ matches).
  { unfold group_matches in Hgroup. apply Forall_cons in Hgroup as [H _]. exact H. }
  assert (Hlift : forall A (c : @M E A),
    emits (E:=E) (concerns self (BookMatch.library (fst group))) c ->
    emits (E:=E) (concerns_a_match self matches) c).
  { intros A c. apply emits_mono. intros e He. exists (fst group). split; assumption. }
  cbn [process_libraries].
  apply emits_bind; [apply Hlift, test_calibredb_connection_concerns|].
  intros [|]; cbn [negb]; [|apply IH; exact Hrest].
  apply emits_bind; [apply Hlift, backup_library_concerns|].
  intros [|]; cbn [negb]; [|apply IH; exact Hrest].
  apply emits_bind; [apply Hlift, ensure_custom_columns_concerns|].
  intros [|]; cbn [negb]; [|apply IH; exact Hrest].
  apply emits_bind; [apply update_each_concerns; exact Hgroup|].
  intros stats'. apply IH. exact Hrest.
Qed.

(** X21. Every call [bulk_update] makes concerns the library of one of
    the matches it was given: it is a command of the tool aimed at that
    library's folder, a copy of that library's metadata file to a backup
    path, or a read of that file's custom columns.  [bulk_update] never
    reads the books of a library. *)
Theorem bulk_update_touches_matched_libraries
    (self : CalibreUpdater.t) (matches : list BookMatch.t) (s : @Sys E) :
  Forall (concerns_a_match self matches)
         (events_since s (snd (bulk_update self matches s))).
Proof.
  unfold bulk_update.
  match goal with |- context [process_libraries self ?d ?st s] =>
    destruct (process_libraries_concerns self matches d st) with (s := s)
      as (events & Htrace & Hevents)
  end.
  - eapply Forall_impl; [apply group_by_library_members|].
    intros entry Hentry. eapply Forall_impl; [exact Hentry|].
    intros m [Hm _]. exact Hm.
  - rewrite (events_since_trace _ _ _ Htrace). exact Hevents.
Qed.




End Frame.

(* ===================================================================== *)
(** ** A run in which every call goes well *)
(* ===================================================================== *)

Section AllAccepted.

Context {E : Env}.

Lemma update_book_metadata_verdict self m (s : @Sys E) :
  fst (update_book_metadata self m s)
  = forallb event_accepted (events_since s (snd (update_book_metadata self m s))).
Proof.
  unfold update_book_metadata, bind.
  destruct (_get_rating_collections _) as [|rating ratings];
    destruct (_get_genre_collections _) as [|genre genres];
    rewrite ?_update_custom_column_run; cbv zeta.
  - unfold ret. cbn [negb fst snd]. unfold events_since. rewrite drop_all. reflexivity.
  - unfold ret. cbv beta iota. cbn [negb].
    rewrite _update_custom_column_run. cbv zeta.
    destruct (connection_ok _) eqn:Hok; cbn [negb fst snd];
      rewrite events_since_app; cbn [forallb event_accepted]; rewrite Hok; reflexivity.
  - destruct (connection_ok _) eqn:Hok; unfold ret; cbn [negb fst snd];
      rewrite events_since_app; cbn [forallb event_accepted]; rewrite Hok; reflexivity.
  - destruct (connection_ok _) eqn:Hok; cbn [negb fst snd world trace].
    + rewrite _update_custom_column_run. cbv zeta. cbn [world trace].
      destruct (connection_ok (fst (subprocess_run E _ (set_metadata_argv _ _ _ "my_genres" _))))
        eqn:Hok2; unfold ret; cbn [negb fst snd];
        rewrite <- app_assoc, events_since_app;
        cbn [forallb event_accepted app]; rewrite Hok, ?Hok2; reflexivity.
    + unfold ret. cbn [fst snd]. rewrite events_since_app.
      cbn [forallb event_accepted]. rewrite Hok. reflexivity.
Qed.

Lemma event_ok_accepted events :
  forallb event_ok events = true -> forallb event_accepted events = true.
Proof.
  induction events as [|e events IH]; [reflexivity|].
  cbn [forallb]. intros H. apply andb_true_iff in H as [He Hrest].
  rewrite (IH Hrest), andb_true_r. destruct e; try reflexivity. exact He.
Qed.

Lemma event_ok_creations events :
  forallb event_ok events = true -> creations_accepted events = true.
Proof.
  unfold creations_accepted. induction events as [|e events IH]; [reflexivity|].
  cbn [forallb]. intros H. apply andb_true_iff in H as [He Hrest].
  rewrite (IH Hrest), andb_true_r. destruct e as [| |argv res|]; try reflexivity.
  cbn [event_ok] in He. destruct (is_add_column argv); [|reflexivity].
  cbn [implb]. unfold created_or_exists, connection_ok in *.
  destruct res as [r| |]; try discriminate. rewrite He. reflexivity.
Qed.

Lemma update_each_accepted self library_matches : forall stats (s : @Sys E),
  exists events,
    trace (snd (update_each self library_matches stats s)) = trace s ++ events
    /\ (forallb event_ok events = true ->
        let out := fst (update_each self library_matches stats s) in
        total out = total stats
        /\ successful out = successful stats + length library_matches
        /\ failed out = failed stats
        /\ libraries_updated out = libraries_updated stats).
Proof.
  induction library_matches as [|m rest IH]; intros stats s.
  - exists []. cbn [update_each]. unfold ret. cbn [fst snd length].
    rewrite app_nil_r. split; [reflexivity|]. intros _. cbv zeta.
    repeat split; try reflexivity. lia.
  - cbn [update_each]. unfold bind.
    pose proof (update_book_metadata_verdict self m s) as Hverdict.
    destruct (update_book_metadata_emits self m s) as (events1 & Htrace1 & _).
    rewrite (events_since_trace _ _ _ Htrace1) in Hverdict.
    destruct (update_book_metadata self m s) as [ok s1]. cbn [fst snd] in *.
    destruct (IH (if ok then add_successful 1 stats else add_failed 1 stats) s1)
      as (events2 & Htrace2 & Hrest).
    exists (events1 ++ events2).
    split; [rewrite Htrace2, Htrace1, app_assoc; reflexivity|].
    rewrite forallb_app. intros H. apply andb_true_iff in H as [H1 H2].
    rewrite (event_ok_accepted _ H1) in Hverdict. subst ok.
    destruct (Hrest H2) as (Ht & Hs & Hf & Hl). cbv zeta.
    cbn [total successful failed libraries_updated add_successful length] in *.
    repeat split; try assumption. lia.
Qed.

Lemma prepare_library_accepted self library (s : @Sys E) :
  exists events,
    trace (snd (prepare_library self library s)) = trace s ++ events
    /\ (forallb event_ok events = true -> fst (prepare_library self library s) = true).
Proof.
  unfold prepare_library, bind. rewrite test_calibredb_connection_run.
  destruct (connection_ok _) eqn:Hconnected; cbn [negb].
  - rewrite backup_library_run. cbv zeta. cbn [world trace].
    destruct (fst (shutil_copy2 E _ _ _)) eqn:Hcopied; cbn [negb].
    + match goal with |- context [ensure_custom_columns self library ?st] =>
        set (s2 := st)
      end.
      pose proof (ensure_custom_columns_result self library s2) as Hresult.
      destruct (ensure_custom_columns_emits self library s2) as (events & Htrace & _).
      rewrite (events_since_trace _ _ _ Htrace) in Hresult.
      eexists. split.
      * rewrite Htrace. subst s2. cbn [trace]. rewrite <- !app_assoc. reflexivity.
      * cbn [app forallb event_ok]. rewrite Hconnected. cbn [andb].
        intros Hok. rewrite Hresult. apply event_ok_creations. exact Hok.
    + unfold ret. cbn [fst snd]. eexists. split.
      * rewrite <- app_assoc. reflexivity.
      * cbn [app forallb event_ok]. rewrite andb_false_r. discriminate.
  - unfold ret. cbn [fst snd]. eexists. split; [reflexivity|].
    cbn [forallb event_ok]. rewrite Hconnected. discriminate.
Qed.

Lemma process_libraries_accepted self by_library : forall stats (s : @Sys E),
  exists events,
    trace (snd (process_libraries self by_library stats s)) = trace s ++ events
    /\ (forallb event_ok events = true ->
        let out := fst (process_libraries self by_library stats s) in
        successful out = successful stats + partition_size by_library
        /\ failed out = failed stats
        /\ libraries_updated out
           = libraries_updated stats ∪ list_to_set (map fst by_library)).
Proof.
  induction by_library as [|[library_name group] rest IH]; intros stats s.
  - exists []. cbn [process_libraries]. unfold ret. cbn [fst snd].
    rewrite app_nil_r. split; [reflexivity|]. intros _. cbv zeta.
    unfold partition_size. cbn [map sum_list list_to_set].
    rewrite (right_id_L ∅ (∪)). repeat split; try reflexivity. lia.
  - rewrite process_libraries_step. cbv zeta.
    destruct (prepare_library_accepted self (BookMatch.library (fst group)) s)
      as (events1 & Htrace1 & Hprepared).
    destruct (prepare_library self (BookMatch.library (fst group)) s) as [prepared s1].
    cbn [fst snd] in *. destruct prepared.
    + destruct (update_each_accepted self (group_matches group) stats s1)
        as (events2 & Htrace2 & Hupdated).
      destruct (update_each self (group_matches group) stats s1) as [stats2 s2].
      cbn [fst snd] in *.
      destruct (IH (add_library library_name stats2) s2) as (events3 & Htrace3 & Hrest).
      exists (events1 ++ events2 ++ events3).
      split; [rewrite Htrace3, Htrace2, Htrace1, <- !app_assoc; reflexivity|].
      rewrite !forallb_app. intros H. apply andb_true_iff in H as [_ H].
      apply andb_true_iff in H as [H2 H3].
      destruct (Hupdated H2) as (_ & Hs2 & Hf2 & Hl2).
      destruct (Hrest H3) as (Hs3 & Hf3 & Hl3). cbv zeta.
      cbn [successful failed libraries_updated add_library] in Hs3, Hf3, Hl3.
      unfold partition_size in *. cbn [map sum_list snd fst list_to_set] in *.
      rewrite Hs3, Hf3, Hl3, Hs2, Hf2, Hl2. unfold id.
      split; [lia|]. split; [reflexivity|].
      rewrite <- (assoc_L (∪)). reflexivity.
    + destruct (IH (add_failed (length (group_matches group)) stats) s1)
        as (events3 & Htrace3 & _).
      exists (events1 ++ events3).
      split; [rewrite Htrace3, Htrace1, app_assoc; reflexivity|].
      rewrite forallb_app. intros H. apply andb_true_iff in H as [H1 _].
      specialize (Hprepared H1). discriminate.
Qed.

Lemma by_library_append_keys lib_name m d :
  forall k, k ∈ map fst (by_library_append lib_name m d)
            <-> k = lib_name \/ k ∈ map fst d.
Proof.
  intros k. induction d as [|[key [first others]] rest IH].
  - cbn [by_library_append map fst]. rewrite list_elem_of_singleton, elem_of_nil. tauto.
  - cbn [by_library_append]. destruct (String.eqb_spec key lib_name) as [->|Hne].
    + cbn [map fst]. rewrite elem_of_cons. tauto.
    + cbn [map fst]. rewrite !elem_of_cons, IH. tauto.
Qed.

Lemma group_by_library_keys matches :
  forall k, k ∈ map fst (group_by_library matches)
            <-> exists m, m ∈ matches
                          /\ CalibreLibrary.name (BookMatch.library m) = k.
Proof.
  unfold group_by_library.
  assert (H : forall d k,
    k ∈ map fst (fold_left
                   (fun d m =>
                      by_library_append (CalibreLibrary.name (BookMatch.library m)) m d)
                   matches d)
    <-> k ∈ map fst d
        \/ exists m, m ∈ matches /\ CalibreLibrary.name (BookMatch.library m) = k).
  { induction matches as [|m rest IH]; intros d k; cbn [fold_left].
    - split; [auto|]. intros [H|(m & Hm & _)]; [exact H|inversion Hm].
    - rewrite IH, by_library_append_keys. split.
      + intros [[->|H]|(m' & Hm' & Hname)].
        * right. exists m. split; [left|reflexivity].
        * left. exact H.
        * right. exists m'. split; [right; exact Hm'|exact Hname].
      + intros [H|(m' & Hm' & Hname)]; [left; right; exact H|].
        apply elem_of_cons in Hm' as [->|Hm'].
        * left. left. symmetry. exact Hname.
        * right. exists m'. split; assumption. }
  intros k. rewrite H, elem_of_nil. split; [intros [[]|Hk]; exact Hk|auto].
Qed.

(** X23. When every call of a [bulk_update] run goes well, that is every
    command of the tool ends with exit code 0 and every backup copy is
    made, every match is counted as successful, none as failed, and the
    libraries reported as updated are exactly those whose names occur
    among the matches. *)
Theorem bulk_update_all_accepted
    (self : CalibreUpdater.t) (matches : list BookMatch.t) (s : @Sys E) :
  let out := bulk_update self matches s in
  forallb event_ok (events_since s (snd out)) = true ->
  successful (fst out) = length matches
  /\ failed (fst out) = 0
  /\ (forall lib_name,
        lib_name ∈ libraries_updated (fst out)
        <-> exists m, m ∈ matches
                      /\ CalibreLibrary.name (BookMatch.library m) = lib_name).
Proof.
  cbv zeta. unfold bulk_update.
  match goal with |- context [process_libraries self ?d ?st s] =>
    destruct (process_libraries_accepted self d st s) as (events & Htrace & Hgood)
  end.
  rewrite (events_since_trace _ _ _ Htrace). intros Hok.
  destruct (Hgood Hok) as (Hs & Hf & Hl). cbv zeta in Hs, Hf, Hl.
  cbn [successful failed libraries_updated] in Hs, Hf, Hl.
  rewrite group_by_library_size in Hs.
  split; [exact Hs|]. split; [exact Hf|].
  intros lib_name. rewrite Hl, elem_of_union, elem_of_list_to_set, group_by_library_keys.
  split; [intros [Hempty|H]; [inversion Hempty|exact H]|auto].
Qed.

End AllAccepted.

Lemma bulk_update_all_accepted_witness :
  forallb event_ok
    (events_since (Demo.start Demo.unison_world)
       (snd (bulk_update Demo.updater [Demo.matched Demo.unison 7 Demo.mcr]
               (Demo.start Demo.unison_world)))) = true
  /\ successful (fst (bulk_update Demo.updater [Demo.matched Demo.unison 7 Demo.mcr]
                        (Demo.start Demo.unison_world))) = 1.
Proof.
  split; [reflexivity|].
  apply (bulk_update_all_accepted Demo.updater [Demo.matched Demo.unison 7 Demo.mcr]
           (Demo.start Demo.unison_world)).
  reflexivity.
Defined.
